(** * Google Weather widgets for Scriptable: a shallow embedding

    The repository holds two scripts, [weatherwidget.js] (current
    conditions) and [weatherwidget_daily.js] (multi-day forecast).  Both
    share their cache helpers, the safe getter [g], the condition
    normaliser and the unit formatters verbatim; they differ in
    [pickSymbol], [gradientFor], [buildWidget] and in the cache lifetime.

    Layout of this development:
    - [Js]         JavaScript values, numbers, strings, property access;
    - [Runtime]    the host (JSON, coercion of strings, locale), the
                   world of a run (cache file, clock, network) and the
                   state-and-exception monad the scripts run in;
    - [Shared]     the functions both scripts contain verbatim;
    - [Scriptable] widgets as data;
    - [Current]    [weatherwidget.js];
    - [Daily]      [weatherwidget_daily.js];
    - [RefHost]    an executable host, to run the scripts on examples;
    - [Spec]       the specification's wording as definitions;
    - [Request]    the URL and the status rule of the one request;
    - [Credentials] [getApiKey], with the Keychain and the alert;
    - [Geo]        [getLocation], with the location service;
    - [Observe]    what a widget shows, for the statements;
    - the properties of the specification, one theorem each;
    - further properties of the two scripts.

    Idealisations, stated once:
    - a JavaScript number is an IEEE-754 double; here a finite number is
      a rational (every finite double is one), and there is no negative
      zero.  The Fahrenheit conversion of [parseTempC], where a half
      decides the result, rounds its operands and the result of every
      operation to the nearest double ([fl]); the age of a cache record
      and the compass index are computed exactly;
    - an object is JSON data or a literal of the scripts: none of its
      own properties is callable;
    - a JavaScript string is a sequence of UTF-16 code units; here it is
      a byte string (UTF-8), and case conversion acts on ASCII letters. *)

From Stdlib Require Import String Ascii List ZArith QArith Qround Qabs Bool Lia Lqa.
From Stdlib Require Import DecimalString.
Import ListNotations.
Local Open Scope string_scope.
Local Open Scope Z_scope.

(* ================================================================== *)
(** * JavaScript values *)
(* ================================================================== *)

Module Js.

(** ** Strings *)

Definition is_upper (c : ascii) : bool :=
  let n := nat_of_ascii c in (65 <=? n)%nat && (n <=? 90)%nat.

Definition is_lower (c : ascii) : bool :=
  let n := nat_of_ascii c in (97 <=? n)%nat && (n <=? 122)%nat.

Definition lower_char (c : ascii) : ascii :=
  if is_upper c then ascii_of_nat (nat_of_ascii c + 32) else c.

Definition upper_char (c : ascii) : ascii :=
  if is_lower c then ascii_of_nat (nat_of_ascii c - 32) else c.

Fixpoint map_string (f : ascii -> ascii) (s : string) : string :=
  match s with
  | EmptyString => EmptyString
  | String c r => String (f c) (map_string f r)
  end.

(** [String.prototype.toLowerCase] and [toUpperCase]. *)
Definition toLowerCase : string -> string := map_string lower_char.
Definition toUpperCase : string -> string := map_string upper_char.

Fixpoint starts_with (needle hay : string) : bool :=
  match needle, hay with
  | EmptyString, _ => true
  | String _ _, EmptyString => false
  | String a n, String b h => Ascii.eqb a b && starts_with n h
  end.

(** [hay.includes(needle)]. *)
Fixpoint includes (hay needle : string) : bool :=
  starts_with needle hay ||
  match hay with
  | EmptyString => false
  | String _ h => includes h needle
  end.

(** [s.split(sep)] for a one-character separator: never the empty list. *)
Fixpoint split (sep : ascii) (s : string) : list string :=
  match s with
  | EmptyString => [EmptyString]
  | String c r =>
      if Ascii.eqb c sep then EmptyString :: split sep r
      else match split sep r with
           | [] => [String c EmptyString]
           | w :: ws => String c w :: ws
           end
  end.

Fixpoint join (sep : string) (l : list string) : string :=
  match l with
  | [] => ""
  | [s] => s
  | s :: r => s ++ sep ++ join sep r
  end.

Definition string_of_Z (z : Z) : string := NilZero.string_of_int (Z.to_int z).
Definition string_of_nat (n : nat) : string := string_of_Z (Z.of_nat n).

(** ** Numbers *)

Inductive JsNum : Type :=
| NaN
| PInf
| NInf
| Fin (q : Q).

Definition num_of_Z (z : Z) : JsNum := Fin (inject_Z z).

Definition Qsign (q : Q) : Z := Z.sgn (Qnum q).

Definition num_neg (a : JsNum) : JsNum :=
  match a with
  | NaN => NaN
  | PInf => NInf
  | NInf => PInf
  | Fin q => Fin (Qred (- q))
  end.

Definition num_add (a b : JsNum) : JsNum :=
  match a, b with
  | NaN, _ | _, NaN => NaN
  | PInf, NInf | NInf, PInf => NaN
  | PInf, _ | _, PInf => PInf
  | NInf, _ | _, NInf => NInf
  | Fin x, Fin y => Fin (Qred (x + y))
  end.

(** [a - b] *)
Definition num_sub (a b : JsNum) : JsNum := num_add a (num_neg b).

Definition inf_of_sign (s : Z) : JsNum :=
  if s =? 0 then NaN else if 0 <? s then PInf else NInf.

Definition num_sign (a : JsNum) : Z :=
  match a with
  | NaN => 0
  | PInf => 1
  | NInf => -1
  | Fin q => Qsign q
  end.

(** [a * b] *)
Definition num_mul (a b : JsNum) : JsNum :=
  match a, b with
  | NaN, _ | _, NaN => NaN
  | Fin x, Fin y => Fin (Qred (x * y))
  | _, _ => inf_of_sign (num_sign a * num_sign b)
  end.

(** [a / b]; a zero divisor is the positive zero. *)
Definition num_div (a b : JsNum) : JsNum :=
  match a, b with
  | NaN, _ | _, NaN => NaN
  | Fin x, Fin y =>
      if Qsign y =? 0 then inf_of_sign (Qsign x) else Fin (Qred (x / y))
  | Fin _, _ => Fin 0
  | _, Fin y => if Qsign y =? 0 then a else inf_of_sign (num_sign a * Qsign y)
  | _, _ => NaN
  end.

(** Truncation towards zero. *)
Definition Qtrunc (q : Q) : Z := if Qsign q <? 0 then Qceiling q else Qfloor q.

(** [a % b]: the remainder takes the sign of the dividend. *)
Definition num_rem (a b : JsNum) : JsNum :=
  match a, b with
  | Fin x, Fin y =>
      if Qsign y =? 0 then NaN
      else Fin (Qred (x - y * inject_Z (Qtrunc (x / y))))
  | Fin x, (PInf | NInf) => Fin x
  | _, _ => NaN
  end.

(** [Math.round]: the nearest integer, halves towards plus infinity. *)
Definition Math_round (a : JsNum) : JsNum :=
  match a with
  | Fin q => Fin (inject_Z (Qfloor (q + (1 # 2))))
  | _ => a
  end.

(** [a < b] on numbers; any comparison with NaN is false. *)
Definition num_lt (a b : JsNum) : bool :=
  match a, b with
  | NaN, _ | _, NaN => false
  | Fin x, Fin y => negb (Qle_bool y x)
  | NInf, (Fin _ | PInf) => true
  | Fin _, PInf => true
  | _, _ => false
  end.

Definition num_eq (a b : JsNum) : bool :=
  match a, b with
  | Fin x, Fin y => Qeq_bool x y
  | PInf, PInf | NInf, NInf => true
  | _, _ => false
  end.

Definition num_gt (a b : JsNum) : bool := num_lt b a.
Definition num_ge (a b : JsNum) : bool := num_lt b a || num_eq a b.

Definition num_isNaN (a : JsNum) : bool :=
  match a with NaN => true | _ => false end.

(** The integer a number is, when it is one. *)
Definition as_integer (a : JsNum) : option Z :=
  match a with
  | Fin q => if Qeq_bool q (inject_Z (Qfloor q)) then Some (Qfloor q) else None
  | _ => None
  end.

(** ** Doubles

    A finite double is plus or minus [m * 2 ^ e] with [m < 2 ^ 53] and
    [-1074 <= e <= 971].  An arithmetic operation of the language gives
    the double nearest to the exact result, a tie going to the even
    [m], and an infinity from [2 ^ 1024 - 2 ^ 970] on. *)

(** Numerator and denominator of [(n / d) / 2 ^ e]. *)
Definition scaled (n d e : Z) : Z * Z :=
  if 0 <=? e then (n, d * 2 ^ e) else (n * 2 ^ (- e), d).

(** The integer nearest to [num / den], a tie going to the even one. *)
Definition nearest_even (num den : Z) : Z :=
  let m := num / den in
  let r := num mod den in
  if 2 * r <? den then m
  else if den <? 2 * r then m + 1
  else if Z.even m then m else m + 1.

Definition round_to_double (q : Q) : JsNum :=
  let n := Z.abs (Qnum q) in
  let d := Zpos (Qden q) in
  let s := Z.sgn (Qnum q) in
  if n =? 0 then Fin 0 else
  let e0 := Z.max (Z.log2 n - Z.log2 d - 53) (-1074) in
  let e := if 2 ^ 53 <=? fst (scaled n d e0) / snd (scaled n d e0)
           then e0 + 1 else e0 in
  let m := nearest_even (fst (scaled n d e)) (snd (scaled n d e)) in
  if 2 ^ 1024 <=? m * 2 ^ e then (if 0 <? s then PInf else NInf)
  else if 0 <=? e then Fin (inject_Z (s * m * 2 ^ e))
  else Fin (Qred (s * m # Z.to_pos (2 ^ (- e)))).

(** The double an exact result is delivered as. *)
Definition fl (a : JsNum) : JsNum :=
  match a with
  | Fin q => round_to_double q
  | _ => a
  end.

(** [a - b], [a * b] and [a / b] as the language delivers them. *)
Definition double_sub (a b : JsNum) : JsNum := fl (num_sub (fl a) (fl b)).
Definition double_mul (a b : JsNum) : JsNum := fl (num_mul (fl a) (fl b)).
Definition double_div (a b : JsNum) : JsNum := fl (num_div (fl a) (fl b)).

(** ** Values

    The values a script meets: what [JSON.parse] builds, [undefined],
    and the built-in functions and objects reachable through a
    prototype ([JNative], opaque).  An object is the list of its own
    properties in insertion order; its keys are distinct, and a lookup
    takes the first binding. *)

#[warnings="-register-all"]
Inductive JsVal : Type :=
| JUndefined
| JNull
| JBool (b : bool)
| JNum (n : JsNum)
| JStr (s : string)
| JArr (items : list JsVal)
| JObj (props : list (string * JsVal))
| JNative (name : string).

Definition JInt (z : Z) : JsVal := JNum (num_of_Z z).

(** Induction on a value, through the elements of an array and the
    values of an object. *)
Section Induction.
Variable P : JsVal -> Prop.
Hypothesis P_undefined : P JUndefined.
Hypothesis P_null : P JNull.
Hypothesis P_bool : forall b, P (JBool b).
Hypothesis P_num : forall n, P (JNum n).
Hypothesis P_str : forall s, P (JStr s).
Hypothesis P_arr : forall items, Forall P items -> P (JArr items).
Hypothesis P_obj :
  forall props, Forall (fun kv => P (snd kv)) props -> P (JObj props).
Hypothesis P_native : forall name, P (JNative name).

Fixpoint JsVal_induction (v : JsVal) : P v :=
  match v with
  | JUndefined => P_undefined
  | JNull => P_null
  | JBool b => P_bool b
  | JNum n => P_num n
  | JStr s => P_str s
  | JArr items =>
      P_arr items
        ((fix all (l : list JsVal) : Forall P l :=
            match l with
            | [] => Forall_nil P
            | x :: r => Forall_cons x (JsVal_induction x) (all r)
            end) items)
  | JObj props =>
      P_obj props
        ((fix all (l : list (string * JsVal))
            : Forall (fun kv => P (snd kv)) l :=
            match l with
            | [] => Forall_nil _
            | kv :: r =>
                Forall_cons kv
                  (match kv as p return P (snd p) with
                   | (_, x) => JsVal_induction x
                   end)
                  (all r)
            end) props)
  | JNative name => P_native name
  end.

End Induction.

(** [!!v] *)
Definition truthy (v : JsVal) : bool :=
  match v with
  | JUndefined | JNull => false
  | JBool b => b
  | JNum NaN => false
  | JNum (Fin q) => negb (Qsign q =? 0)
  | JNum _ => true
  | JStr s => negb (String.eqb s "")
  | JArr _ | JObj _ | JNative _ => true
  end.

(** [v == null] *)
Definition nullish (v : JsVal) : bool :=
  match v with
  | JUndefined | JNull => true
  | _ => false
  end.

(** [typeof v === "string"] *)
Definition is_string (v : JsVal) : bool :=
  match v with JStr _ => true | _ => false end.

(** [v === "lit"] *)
Definition strict_eq_str (v : JsVal) (lit : string) : bool :=
  match v with JStr s => String.eqb s lit | _ => false end.

(** [a || b] and [a ?? b] *)
Definition js_or (a b : JsVal) : JsVal := if truthy a then a else b.
Definition js_coalesce (a b : JsVal) : JsVal := if nullish a then b else a.

(** ** Exceptions *)

Record JsError : Type := mkError { err_name : string; err_message : string }.

Definition TypeError (msg : string) : JsError := mkError "TypeError" msg.
Definition SyntaxError (msg : string) : JsError := mkError "SyntaxError" msg.
Definition Error (msg : string) : JsError := mkError "Error" msg.

(** [String(err)], that is [Error.prototype.toString]: the name alone
    when the message is empty, the message alone when the name is. *)
Definition error_string (e : JsError) : string :=
  if String.eqb (err_message e) "" then err_name e
  else if String.eqb (err_name e) "" then err_message e
  else err_name e ++ ": " ++ err_message e.

Inductive Completion (A : Type) : Type :=
| Normal (a : A)
| Throw (e : JsError).

Arguments Normal {A} a.
Arguments Throw {A} e.

(** One step after another, as long as none throws. *)
Definition and_then {A B} (c : Completion A) (k : A -> Completion B)
  : Completion B :=
  match c with
  | Normal a => k a
  | Throw e => Throw e
  end.

Declare Scope completion_scope.
Delimit Scope completion_scope with completion.
Notation "x <~ c ;; k" := (and_then c (fun x => k))
  (at level 61, c at next level, right associativity) : completion_scope.

(** ** Property access *)

Fixpoint own_lookup (k : string) (props : list (string * JsVal)) : option JsVal :=
  match props with
  | [] => None
  | (k', v) :: rest => if String.eqb k k' then Some v else own_lookup k rest
  end.

Definition digit_value (c : ascii) : option N :=
  let n := N_of_ascii c in
  if (48 <=? n)%N && (n <=? 57)%N then Some (n - 48)%N else None.

Fixpoint parse_digits (acc : N) (s : string) : option N :=
  match s with
  | EmptyString => Some acc
  | String c r =>
      match digit_value c with
      | Some d => parse_digits (acc * 10 + d)%N r
      | None => None
      end
  end.

(** The array index a property key denotes: a canonical decimal numeral
    ("0", "7", "12"; not "", "07" or "+7"). *)
Definition array_index (k : string) : option N :=
  match k with
  | EmptyString => None
  | _ =>
      match parse_digits 0%N k with
      | Some n => if String.eqb (string_of_Z (Z.of_N n)) k then Some n else None
      | None => None
      end
  end.

(** Members of the built-in prototypes (ECMAScript 2023, Annex B
    included).  They matter only when [g] is given a path that names
    one of them: the payload keys the scripts use are not among them. *)
Definition Object_prototype : list string :=
  ["constructor"; "hasOwnProperty"; "isPrototypeOf"; "propertyIsEnumerable";
   "toLocaleString"; "toString"; "valueOf"; "__proto__";
   "__defineGetter__"; "__defineSetter__"; "__lookupGetter__"; "__lookupSetter__"].

Definition Function_prototype : list string :=
  ["length"; "name"; "prototype"; "arguments"; "caller"; "apply"; "bind"; "call"].

Definition Array_prototype : list string :=
  ["at"; "concat"; "copyWithin"; "entries"; "every"; "fill"; "filter"; "find";
   "findIndex"; "findLast"; "findLastIndex"; "flat"; "flatMap"; "forEach";
   "includes"; "indexOf"; "join"; "keys"; "lastIndexOf"; "map"; "pop"; "push";
   "reduce"; "reduceRight"; "reverse"; "shift"; "slice"; "some"; "sort";
   "splice"; "toReversed"; "toSorted"; "toSpliced"; "unshift"; "values"; "with"].

Definition String_prototype : list string :=
  ["at"; "charAt"; "charCodeAt"; "codePointAt"; "concat"; "endsWith";
   "includes"; "indexOf"; "isWellFormed"; "lastIndexOf"; "localeCompare";
   "match"; "matchAll"; "normalize"; "padEnd"; "padStart"; "repeat"; "replace";
   "replaceAll"; "search"; "slice"; "split"; "startsWith"; "substring";
   "toLocaleLowerCase"; "toLocaleUpperCase"; "toLowerCase"; "toUpperCase";
   "toWellFormed"; "trim"; "trimEnd"; "trimStart"; "substr"; "anchor"; "big";
   "blink"; "bold"; "fixed"; "fontcolor"; "fontsize"; "italics"; "link";
   "small"; "strike"; "sub"; "sup"; "trimLeft"; "trimRight"].

Definition Number_prototype : list string :=
  ["toExponential"; "toFixed"; "toPrecision"].

Definition mem_string (k : string) (l : list string) : bool :=
  existsb (String.eqb k) l.

(** What the prototype chain yields for a key that is no own property. *)
Definition inherited (proto : string) (members : list string) (k : string) : JsVal :=
  if mem_string k members then JNative (proto ++ ".prototype." ++ k)
  else if mem_string k Object_prototype then JNative ("Object.prototype." ++ k)
  else JUndefined.

Definition char_at (s : string) (n : nat) : JsVal :=
  match String.get n s with
  | Some c => JStr (String c EmptyString)
  | None => JUndefined
  end.

(** [v[k]] for a value that is neither [null] nor [undefined]; on those
    two the access throws, see [member].  A property of a built-in is
    again an opaque built-in. *)
Definition prop (v : JsVal) (k : string) : JsVal :=
  match v with
  | JUndefined | JNull => JUndefined
  | JObj props =>
      match own_lookup k props with
      | Some x => x
      | None => inherited "Object" [] k
      end
  | JArr items =>
      match array_index k with
      | Some n =>
          if (n <? N.of_nat (List.length items))%N
          then nth (N.to_nat n) items JUndefined
          else JUndefined
      | None =>
          if String.eqb k "length" then JInt (Z.of_nat (List.length items))
          else inherited "Array" Array_prototype k
      end
  | JStr s =>
      match array_index k with
      | Some n =>
          if (n <? N.of_nat (String.length s))%N
          then char_at s (N.to_nat n)
          else JUndefined
      | None =>
          if String.eqb k "length" then JInt (Z.of_nat (String.length s))
          else inherited "String" String_prototype k
      end
  | JNum _ => inherited "Number" Number_prototype k
  | JBool _ => inherited "Boolean" [] k
  | JNative name =>
      if mem_string k Function_prototype || mem_string k Object_prototype
      then JNative (name ++ "." ++ k)
      else JUndefined
  end.

(** [v.k] where [v] may be [null] or [undefined]. *)
Definition member (v : JsVal) (k : string) : Completion JsVal :=
  if nullish v
  then Throw (TypeError ("cannot read property " ++ k))
  else Normal (prop v k).

(** [Array.isArray(v)] *)
Definition isArray (v : JsVal) : bool :=
  match v with JArr _ => true | _ => false end.

(** The elements of an array, in order. *)
Definition array_items (v : JsVal) : list JsVal :=
  match v with JArr items => items | _ => [] end.

(** [v === z] for an integer literal [z]. *)
Definition strict_eq_num (v : JsVal) (z : Z) : bool :=
  match v with JNum n => num_eq n (num_of_Z z) | _ => false end.

End Js.

(* ================================================================== *)
(** * The host and the effects of a script run *)
(* ================================================================== *)

Module Runtime.
Import Js.

(** What the scripts take from the JavaScript engine and from
    Scriptable without defining it.  [JSON_parse] is [None] where
    [JSON.parse] throws a SyntaxError. *)
Record Host : Type := {
  JSON_parse : string -> option JsVal;
  JSON_stringify : JsVal -> string;
  (** the numeric value of a string ([Number(s)]) *)
  StringToNumber : string -> JsNum;
  (** the decimal form of a number that is no integer below 10^21 *)
  NumberToString_host : Q -> string;
  (** the text of a built-in *)
  native_toString : string -> string;
  (** [new Date(ms).toLocaleTimeString([], {hour, minute})] *)
  toLocaleTimeString : Z -> string;
  (** [new Date(y, m, d).toLocaleDateString([], {weekday: "short"})] *)
  toLocaleWeekday : JsNum -> JsNum -> JsNum -> string;
  (** [x.toFixed(2)] *)
  toFixed2 : Q -> string
}.

Section Coercions.
Context (host : Host).

(** [String(n)] for a number. *)
Definition NumberToString (n : JsNum) : string :=
  match n with
  | NaN => "NaN"
  | PInf => "Infinity"
  | NInf => "-Infinity"
  | Fin q =>
      match as_integer n with
      | Some z =>
          if Z.abs z <? 10 ^ 21 then string_of_Z z
          else NumberToString_host host q
      | None => NumberToString_host host q
      end
  end.

(** The text a value converts to, where the conversion returns. *)
Fixpoint text_of (v : JsVal) : string :=
  match v with
  | JUndefined => "undefined"
  | JNull => "null"
  | JBool true => "true"
  | JBool false => "false"
  | JNum n => NumberToString n
  | JStr s => s
  | JArr items =>
      join ","
        ((fix elems (l : list JsVal) : list string :=
            match l with
            | [] => []
            | x :: r => (if nullish x then "" else text_of x) :: elems r
            end) items)
  | JObj _ => "[object Object]"
  | JNative name => native_toString host name
  end.

(** The number a value converts to, where the conversion returns. *)
Definition number_of (v : JsVal) : JsNum :=
  match v with
  | JUndefined => NaN
  | JNull => Fin 0
  | JBool true => Fin 1
  | JBool false => Fin 0
  | JNum n => n
  | JStr s => StringToNumber host s
  | JArr _ | JObj _ | JNative _ => StringToNumber host (text_of v)
  end.

(** Whether [ToPrimitive] returns.  It asks an object for its
    [valueOf] and its [toString] and calls what is callable.  An own
    property is never callable and [Object.prototype.valueOf] returns
    the object itself, so an object converts, through
    [Object.prototype.toString], exactly when it has no own property
    [toString].  An array converts through [join], which converts
    every element that is neither [null] nor [undefined]. *)
Fixpoint convertible (v : JsVal) : bool :=
  match v with
  | JObj props =>
      match own_lookup "toString" props with
      | Some _ => false
      | None => true
      end
  | JArr items =>
      (fix all (l : list JsVal) : bool :=
         match l with
         | [] => true
         | x :: r => (nullish x || convertible x) && all r
         end) items
  | _ => true
  end.

Definition cannot_convert : JsError :=
  TypeError "Cannot convert object to primitive value".

(** [String(v)], which is also what a template literal and [v + ""]
    do. *)
Definition ToString (v : JsVal) : Completion string :=
  if convertible v then Normal (text_of v) else Throw cannot_convert.

(** [Number(v)], the coercion behind [-], [*], [/], [%], [>], [>=],
    [Math.round], [isNaN] and the arguments of [new Date(y, m, d)]. *)
Definition ToNumber (v : JsVal) : Completion JsNum :=
  if convertible v then Normal (number_of v) else Throw cannot_convert.

Definition isNaN (v : JsVal) : Completion bool :=
  and_then (ToNumber v) (fun n => Normal (num_isNaN n)).

End Coercions.

(** ** The world a run starts in and leaves behind *)

Record Location : Type := {
  latitude : Q;
  longitude : Q;
  name : option string            (* [null] or the place name *)
}.

(** One HTTP exchange: what [req.loadJSON()] does, and the status code
    Scriptable exposes afterwards, if any. *)
Record Exchange : Type := {
  loadJSON : Completion JsVal;
  statusCode : option Z
}.

Record World : Type := {
  file : option string;           (* the cache file, [None] when missing *)
  writable : bool;                (* whether [fm.writeString] succeeds *)
  time : nat -> Z;                (* successive readings of [Date.now()] *)
  ticks : nat;                    (* readings taken so far *)
  apiKey : Completion string;     (* outcome of [getApiKey()] *)
  location : Completion Location; (* outcome of [getLocation()] *)
  network : Exchange;             (* outcome of the one request *)
  runsInWidget : bool             (* [config.runsInWidget] *)
}.

Definition set_file (w : World) (f : option string) : World :=
  {| file := f; writable := writable w; time := time w; ticks := ticks w;
     apiKey := apiKey w; location := location w; network := network w;
     runsInWidget := runsInWidget w |}.

Definition set_ticks (w : World) (n : nat) : World :=
  {| file := file w; writable := writable w; time := time w; ticks := n;
     apiKey := apiKey w; location := location w; network := network w;
     runsInWidget := runsInWidget w |}.

(** ** Computations: state passing with exceptions *)

Definition M (A : Type) : Type := World -> Completion A * World.

Definition ret {A} (a : A) : M A := fun w => (Normal a, w).

Definition throw {A} (e : JsError) : M A := fun w => (Throw e, w).

Definition bind {A B} (c : M A) (k : A -> M B) : M B :=
  fun w =>
    match c w with
    | (Normal a, w') => k a w'
    | (Throw e, w') => (Throw e, w')
    end.

(** [try { c } catch (e) { h e }] *)
Definition try_catch {A} (c : M A) (h : JsError -> M A) : M A :=
  fun w =>
    match c w with
    | (Normal a, w') => (Normal a, w')
    | (Throw e, w') => h e w'
    end.

Definition lift {A} (c : Completion A) : M A := fun w => (c, w).

Declare Scope js_scope.
Delimit Scope js_scope with js.
Notation "x <- c ;; k" := (bind c (fun x => k))
  (at level 61, c at next level, right associativity) : js_scope.
Notation "c ;;; k" := (bind c (fun _ => k))
  (at level 61, right associativity) : js_scope.

(** [Date.now()] *)
Definition Date_now : M Z :=
  fun w => (Normal (time w (ticks w)), set_ticks w (S (ticks w))).

(** [fm.fileExists(cachePath)] *)
Definition fileExists : M bool :=
  fun w => (Normal (match file w with Some _ => true | None => false end), w).

(** [fm.readString(cachePath)] *)
Definition readString : M string :=
  fun w =>
    match file w with
    | Some s => (Normal s, w)
    | None => (Throw (Error "file not found"), w)
    end.

(** [fm.writeString(cachePath, s)] *)
Definition writeString (s : string) : M unit :=
  fun w =>
    if writable w then (Normal tt, set_file w (Some s))
    else (Throw (Error "write failed"), w).

(** One request, as [fetchWeather] and [fetchForecast] issue it: the
    query string only reaches the host, whose answer is the world's
    [network]; a status code of 400 or more becomes an [Error]. *)
Definition fetch : M JsVal :=
  fun w =>
    match loadJSON (network w) with
    | Throw e => (Throw e, w)
    | Normal json =>
        match statusCode (network w) with
        | Some code =>
            if negb (code =? 0) && (400 <=? code)
            then (Throw (Error ("HTTP " ++ string_of_Z code)), w)
            else (Normal json, w)
        | None => (Normal json, w)
        end
    end.

(** [try { c }], with the outcome in hand. *)
Definition attempt {A} (c : M A) : M (Completion A) :=
  fun w => let '(r, w') := c w in (Normal r, w').

End Runtime.

(* ================================================================== *)
(** * Functions the two scripts share verbatim *)
(* ================================================================== *)

Module Shared.
Import Js Runtime.
Local Open Scope js_scope.

Section Script.
Context (host : Host).
(** The [CACHE_MIN] constant of the script, in minutes. *)
Variable CACHE_MIN : Z.

(** ** Cache helpers *)

Definition parse_json (s : string) : M JsVal :=
  match JSON_parse host s with
  | Some v => ret v
  | None => throw (SyntaxError "JSON Parse error")
  end.

Definition readCache : M JsVal :=
  present <- fileExists ;;
  if negb present then ret JNull else
  try_catch
    (s <- readString ;;
     obj <- parse_json s ;;
     timestamp <- lift (member obj "timestamp") ;;
     if negb (truthy timestamp) then ret JNull else
     now <- Date_now ;;
     stamp <- lift (ToNumber host timestamp) ;;
     let ageMin :=
       num_div (num_sub (num_of_Z now) stamp) (num_of_Z 60000) in
     if num_gt ageMin (num_of_Z CACHE_MIN) then ret JNull else
     lift (member obj "data"))
    (fun _ => ret JNull).

(** The object literal [{ timestamp: now, data }]. *)
Definition cache_record (now : Z) (data : JsVal) : JsVal :=
  JObj [("timestamp", JInt now); ("data", data)].

Definition writeCache (data : JsVal) : M unit :=
  try_catch
    (now <- Date_now ;;
     writeString (JSON_stringify host (cache_record now data)))
    (fun _ => ret tt).

(** ** The fetch-or-cache decision of the main block

    [data = readCache(); try { fresh = await fetch...(); data = fresh;
    writeCache(fresh); } catch (netErr) { if (!data) throw netErr; }]:
    the value of [data] the widget is then built from. *)

(** What the [catch (netErr)] block does with the [data] it finds. *)
Definition onNetErr (data : JsVal) (netErr : JsError) : M JsVal :=
  if negb (truthy data) then throw netErr else ret data.

Definition settle : M JsVal :=
  data <- readCache ;;
  fetched <- attempt fetch ;;
  match fetched with
  | Normal fresh =>
      (* data = fresh; writeCache(fresh); *)
      written <- attempt (writeCache fresh) ;;
      match written with
      | Normal _ => ret fresh
      | Throw netErr => onNetErr fresh netErr
      end
  | Throw netErr => onNetErr data netErr
  end.

(** ** Safe getter *)

(** The reducer [(o, k) => (o && o[k] !== undefined ? o[k] : null)]. *)
Definition g_step (o : JsVal) (k : string) : JsVal :=
  if truthy o && negb (match prop o k with JUndefined => true | _ => false end)
  then prop o k
  else JNull.

(** [g(obj, path, fallback = null)]: an [undefined] third argument is
    the omitted one. *)
Definition g (obj : JsVal) (path : string) (fallback : JsVal) : JsVal :=
  let fallback := match fallback with JUndefined => JNull | _ => fallback end in
  js_coalesce (fold_left g_step (split "." path) obj) fallback.

(** [g(obj, path)] *)
Definition g2 (obj : JsVal) (path : string) : JsVal := g obj path JUndefined.

(** The same reduction with the TypeError a property access raises on
    [null] and [undefined] kept in sight: [o[k]] is evaluated only
    behind the guard [o &&]. *)
Definition g_step_run (acc : Completion JsVal) (k : string) : Completion JsVal :=
  match acc with
  | Throw e => Throw e
  | Normal o =>
      if truthy o then
        match member o k with
        | Normal x =>
            Normal (match x with JUndefined => JNull | _ => x end)
        | Throw e => Throw e
        end
      else Normal JNull
  end.

Definition g_run (obj : JsVal) (path : string) (fallback : JsVal)
  : Completion JsVal :=
  let fallback := match fallback with JUndefined => JNull | _ => fallback end in
  match fold_left g_step_run (split "." path) (Normal obj) with
  | Normal v => Normal (js_coalesce v fallback)
  | Throw e => Throw e
  end.

(** ** Condition text normalisation *)

Definition normalizeConditionText (weatherCondition : JsVal) : JsVal :=
  if negb (truthy weatherCondition) then JNull else
  if is_string weatherCondition then weatherCondition else
  let desc := prop weatherCondition "description" in
  if is_string desc then desc else
  if truthy desc && is_string (prop desc "text") then prop desc "text" else
  if is_string (prop weatherCondition "type") then prop weatherCondition "type"
  else JNull.

(** ** Unit helpers *)

Definition fmtTemp (tempObj : JsVal) : Completion string :=
  let val := g2 tempObj "degrees" in
  let unit := g2 tempObj "unit" in
  if nullish val then Normal "—" else
  let sym := if strict_eq_str unit "FAHRENHEIT" then "°F" else "°C" in
  (n <~ ToNumber host val ;;
   Normal (NumberToString host (Math_round n) ++ sym))%completion.

Definition parseTempC (tempObj : JsVal) : Completion JsVal :=
  let val := g2 tempObj "degrees" in
  let unit := g2 tempObj "unit" in
  if nullish val then Normal JNull else
  if strict_eq_str unit "FAHRENHEIT"
  then (n <~ ToNumber host val ;;
        Normal (JNum (Math_round
                        (double_div (double_mul (double_sub n (num_of_Z 32))
                                                (num_of_Z 5))
                                    (num_of_Z 9)))))%completion
  else (n <~ ToNumber host val ;;
        Normal (JNum (Math_round n)))%completion.

Definition dirs : list JsVal :=
  map JStr ["N"; "NNE"; "NE"; "ENE"; "E"; "ESE"; "SE"; "SSE";
            "S"; "SSW"; "SW"; "WSW"; "W"; "WNW"; "NW"; "NNW"].

Definition degToDir (deg : JsVal) : Completion JsVal :=
  if nullish deg then Normal (JStr "") else
  (nan <~ isNaN host deg ;;
   if nan : bool then Normal (JStr "") else
   n <~ ToNumber host deg ;;
   let idx :=
     num_rem (Math_round (num_div (num_rem n (num_of_Z 360)) (Fin (225 # 10))))
             (num_of_Z 16) in
   Normal (prop (JArr dirs) (NumberToString host idx)))%completion.

Definition fmtWind (windObj : JsVal) : Completion string :=
  let spdVal := g2 windObj "speed.value" in
  let spdUnit := g2 windObj "speed.unit" in
  let sym :=
    if strict_eq_str spdUnit "MILE_PER_HOUR" then "mph"
    else if strict_eq_str spdUnit "METER_PER_SECOND" then "m/s"
    else "km/h" in
  if nullish spdVal then Normal "—" else
  let dirDeg := g2 windObj "direction.degrees" in
  (dirTxt <~ degToDir dirDeg ;;
   n <~ ToNumber host spdVal ;;
   suffix <~ (if truthy dirTxt
              then t <~ ToString host dirTxt ;; Normal (" " ++ t)
              else Normal "") ;;
   Normal (NumberToString host (Math_round n) ++ " " ++ sym ++ suffix))%completion.

End Script.
End Shared.

(* ================================================================== *)
(** * Scriptable widgets, as the data a script leaves on screen *)
(* ================================================================== *)

Module Scriptable.
Import Js Runtime.

Inductive Font : Type :=
| systemFont (size : Z)
| regularSystemFont (size : Z)
| mediumSystemFont (size : Z)
| boldSystemFont (size : Z).

(** [new Color(hex)]; [Color.white()] and [Color.red()] keep their names. *)
Inductive Color : Type :=
| hex (code : string)
| white
| red.

Inductive Layout : Type := horizontally | vertically.

(** What [addText], [addImage], [addSpacer] and [addStack] put into a
    widget or a stack, with the properties the scripts set on them.
    [SFSymbol.named] is taken to know the eight symbol names used. *)
#[warnings="-register-all"]
Inductive Element : Type :=
| Text (text : string) (font : Font) (textColor : Color)
       (lineLimit : option Z) (minimumScaleFactor : option Q)
| Image (symbol : string) (imageSize : Z * Z) (tintColor : Color)
| Spacer (length : option Z)
| Stack (layout : option Layout) (centerAlignContent : bool)
        (children : list Element).

(** [LinearGradient] *)
Record Gradient : Type := {
  colors : list Color;
  locations : list Z
}.

Record ListWidget : Type := {
  padding : Z * Z * Z * Z;
  backgroundGradient : option Gradient;
  elements : list Element;
  refreshAfterDate : option Z
}.

(** How a run ends: [presentMedium], [presentSmall] or
    [Script.setWidget]. *)
Inductive Display : Type :=
| presentMedium (w : ListWidget)
| presentSmall (w : ListWidget)
| setWidget (w : ListWidget).

(** The place label of both scripts. *)
Definition placeName_of (host : Host) (loc : Location) : string :=
  match name loc with
  | Some n =>
      if negb (String.eqb n "") then n
      else "Lat " ++ toFixed2 host (latitude loc) ++ ", Lon "
                  ++ toFixed2 host (longitude loc)
  | None =>
      "Lat " ++ toFixed2 host (latitude loc) ++ ", Lon "
             ++ toFixed2 host (longitude loc)
  end.

(** The widget of the outer [catch] of both scripts. *)
Definition errorWidget (title : string) (minutes : Z) (err : JsError)
  : M Display :=
  bind Date_now (fun now =>
  fun w =>
    let widget :=
      {| padding := (16, 16, 16, 16);
         backgroundGradient := None;
         elements :=
           [Text title (boldSystemFont 16) red None None;
            Spacer (Some 6);
            Text (error_string err) (systemFont 12) white None None];
         refreshAfterDate := Some (now + minutes * 60 * 1000) |} in
    (Normal (if negb (runsInWidget w) then presentSmall widget
             else setWidget widget), w)).

End Scriptable.

(* ================================================================== *)
(** * weatherwidget.js: current conditions *)
(* ================================================================== *)

Module Current.
Import Js Runtime Shared Scriptable.
Local Open Scope js_scope.

Definition CACHE_MIN : Z := 5.
Definition REFRESH_MIN : Z := 10.

Section Script.
Context (host : Host).

Definition readCache : M JsVal := Shared.readCache host CACHE_MIN.
Definition writeCache : JsVal -> M unit := Shared.writeCache host.
Definition fetchWeather : M JsVal := fetch.

(** ** Condition to SF Symbol *)

Definition pickSymbol (weatherCondition isDaytime : JsVal) : Completion string :=
  (text <~ ToString host (js_or (normalizeConditionText weatherCondition) (JStr "")) ;;
   let t := toLowerCase (text ++ "") in
   let day := truthy isDaytime in
   Normal
     (if includes t "thunder" || includes t "storm" then "cloud.bolt.rain.fill" else
      if includes t "snow" || includes t "sleet" then "cloud.snow.fill" else
      if includes t "rain" || includes t "drizzle" then "cloud.rain.fill" else
      if includes t "fog" || includes t "mist" || includes t "haze" then "cloud.fog.fill" else
      if includes t "overcast" then "smoke.fill" else
      if includes t "cloud" then (if day then "cloud.sun.fill" else "cloud.moon.fill") else
      if includes t "clear" || includes t "sunny"
      then (if day then "sun.max.fill" else "moon.stars.fill") else
      if day then "sun.max.fill" else "moon.stars.fill"))%completion.

(** ** Background gradient based on temperature and day or night *)

Definition cold : list Color := [hex "#1e3c72"; hex "#2a5298"].
Definition mild : list Color := [hex "#396afc"; hex "#2948ff"].
Definition hot : list Color := [hex "#ff512f"; hex "#dd2476"].
Definition night : list Color := [hex "#0f2027"; hex "#203a43"].

Definition gradientFor (tempC isDay : JsVal) : Completion Gradient :=
  (colors <~ (if negb (nullish tempC) then
                n <~ ToNumber host tempC ;;
                if num_ge n (num_of_Z 24) then Normal hot else
                m <~ ToNumber host tempC ;;
                if num_ge m (num_of_Z 10) then Normal mild else Normal cold
              else Normal cold) ;;
   let colors := if negb (truthy isDay) then night else colors in
   Normal {| colors := colors; locations := [0; 1] |})%completion.

(** ** The widget *)

Definition kv (label value : string) : Element :=
  Stack (Some vertically) false
    [Text label (systemFont 10) (hex "#dddddd") None None;
     Text value (mediumSystemFont 12) white None None].

Definition buildWidget (data : JsVal) (placeName : string) : M ListWidget :=
  let weatherCond := g2 data "weatherCondition" in
  let condTextNorm := normalizeConditionText weatherCond in
  condStr <- lift (if truthy condTextNorm then ToString host condTextNorm
                   else Normal "—") ;;
  let isDay := JBool (truthy (g2 data "isDaytime")) in
  let tempObj := g2 data "temperature" in
  let feelsObj := g2 data "feelsLikeTemperature" in
  let hum := g2 data "relativeHumidity" in
  let windObj := g2 data "wind" in
  tempStr <- lift (fmtTemp host tempObj) ;;
  feelsStr <- lift (fmtTemp host feelsObj) ;;
  windStr <- lift (fmtWind host windObj) ;;
  tempC <- lift (parseTempC host tempObj) ;;
  gradient <- lift (gradientFor tempC isDay) ;;
  now <- Date_now ;;
  let top :=
    Stack (Some horizontally) true
      [Text (if negb (String.eqb placeName "") then placeName else "Current location")
            (mediumSystemFont 13) white (Some 1) None;
       Spacer None;
       Text (toLocaleTimeString host now) (regularSystemFont 11) (hex "#eaeaea")
            None None] in
  symName <- lift (pickSymbol weatherCond isDay) ;;
  let mid :=
    Stack None true
      [Image symName (34, 34) white;
       Spacer (Some 10);
       Text tempStr (systemFont 40) white None None] in
  let cond := Text condStr (mediumSystemFont 14) (hex "#f5f5f7") (Some 1) None in
  humStr <- lift (if negb (nullish hum)
                  then and_then (ToString host hum) (fun t => Normal (t ++ "%"))
                  else Normal "—") ;;
  let row :=
    Stack (Some horizontally) false
      [kv "Feels" feelsStr;
       Spacer None;
       kv "Hum" humStr;
       Spacer None;
       kv "Wind" windStr] in
  later <- Date_now ;;
  ret {| padding := (14, 16, 14, 16);
         backgroundGradient := Some gradient;
         elements := [top; Spacer (Some 6); mid; Spacer (Some 2); cond;
                      Spacer (Some 6); row];
         refreshAfterDate := Some (later + REFRESH_MIN * 60 * 1000) |}.

(** ** Main *)

(** From "Try cache" to the end of the inner [try]/[catch]. *)
Definition settle : M JsVal := Shared.settle host CACHE_MIN.

Definition main : M Display :=
  try_catch
    (fun w =>
       (_ <- lift (apiKey w) ;;
        loc <- lift (location w) ;;
        data <- settle ;;
        widget <- buildWidget data (placeName_of host loc) ;;
        fun w' =>
          (Normal (if negb (runsInWidget w') then presentMedium widget
                   else setWidget widget), w')) w)
    (errorWidget "Weather error" 15).

End Script.
End Current.

(* ================================================================== *)
(** * weatherwidget_daily.js: multi-day forecast *)
(* ================================================================== *)

Module Daily.
Import Js Runtime Shared Scriptable.
Local Open Scope js_scope.

Definition DAYS : Z := 6.
Definition CACHE_MIN : Z := 20.
Definition REFRESH_MIN : Z := 30.

Section Script.
Context (host : Host).

Definition readCache : M JsVal := Shared.readCache host CACHE_MIN.
Definition writeCache : JsVal -> M unit := Shared.writeCache host.
Definition fetchForecast : M JsVal := fetch.

(** ** Condition type *)

Definition getConditionType (weatherCondition : JsVal) : Completion string :=
  if negb (truthy weatherCondition) then Normal "" else
  let type := prop weatherCondition "type" in
  if negb (truthy type) then Normal "" else
  (text <~ ToString host type ;; Normal (toUpperCase text))%completion.

(** ** Condition to SF Symbol, based on the type *)

Definition pickSymbol (weatherCondition isDaytime : JsVal) : Completion string :=
  (type <~ getConditionType weatherCondition ;;
   let t := toUpperCase type in
   let day := truthy isDaytime in
   if includes t "THUNDER" || includes t "STORM" then Normal "cloud.bolt.rain.fill" else
   if includes t "SNOW" then Normal "cloud.snow.fill" else
   if includes t "RAIN" then Normal "cloud.rain.fill" else
   if includes t "SHOWERS" then Normal "cloud.rain.fill" else
   if includes t "FOG" then Normal "cloud.fog.fill" else
   if includes t "HAZE" || includes t "MIST" then Normal "cloud.fog.fill" else
   if includes t "OVERCAST" then Normal "smoke.fill" else
   if includes t "MOSTLY_CLOUDY" || includes t "CLOUDY"
   then Normal (if day then "cloud.sun.fill" else "cloud.moon.fill") else
   if includes t "PARTLY_CLOUDY"
   then Normal (if day then "cloud.sun.fill" else "cloud.moon.fill") else
   if includes t "CLEAR" || includes t "SUNNY"
   then Normal (if day then "sun.max.fill" else "moon.stars.fill") else
   (* Fallback: try description string (for unknown types) *)
   text <~ ToString host (js_or (normalizeConditionText weatherCondition) (JStr "")) ;;
   let desc := toLowerCase text in
   Normal
     (if includes desc "storm" || includes desc "thunder" then "cloud.bolt.rain.fill" else
      if includes desc "snow" then "cloud.snow.fill" else
      if includes desc "rain" then "cloud.rain.fill" else
      if includes desc "fog" || includes desc "mist" || includes desc "haze"
      then "cloud.fog.fill" else
      if includes desc "cloud"
      then (if day then "cloud.sun.fill" else "cloud.moon.fill") else
      if includes desc "clear" || includes desc "sunny"
      then (if day then "sun.max.fill" else "moon.stars.fill") else
      if day then "sun.max.fill" else "moon.stars.fill"))%completion.

(** ** Temperature helper of this script only *)

Definition fmtTempCompact (tempObj : JsVal) : Completion string :=
  let val := g2 tempObj "degrees" in
  if nullish val then Normal "—" else
  (n <~ ToNumber host val ;;
   Normal (NumberToString host (Math_round n) ++ "°"))%completion.

(** ** Gradient based on today's maximum *)

Definition cold : list Color := [hex "#1e3c72"; hex "#2a5298"].
Definition mild : list Color := [hex "#396afc"; hex "#2948ff"].
Definition hot : list Color := [hex "#ff512f"; hex "#dd2476"].

Definition gradientFor (tempC : JsVal) : Completion Gradient :=
  (colors <~ (if negb (nullish tempC) then
                n <~ ToNumber host tempC ;;
                if num_ge n (num_of_Z 24) then Normal hot else
                m <~ ToNumber host tempC ;;
                if num_ge m (num_of_Z 10) then Normal mild else Normal cold
              else Normal cold) ;;
   Normal {| colors := colors; locations := [0; 1] |})%completion.

(** ** The widget *)

Definition kv (label value : string) : Element :=
  Stack (Some vertically) false
    [Text label (systemFont 9) (hex "#dddddd") None None;
     Text value (mediumSystemFont 11) white None None].

(** The weekday label of day [i] of the mini row.  The month loses
    its 1 while the arguments of [new Date] are evaluated, before the
    constructor converts the year and the day. *)
Definition weekdayLabel (i : nat) (d : JsVal) : Completion string :=
  let dd := g2 d "displayDate" in
  (weekday <~ (if truthy dd && truthy (prop dd "year") && truthy (prop dd "month")
                  && truthy (prop dd "day")
               then
                 month <~ ToNumber host (prop dd "month") ;;
                 year <~ ToNumber host (prop dd "year") ;;
                 day <~ ToNumber host (prop dd "day") ;;
                 Normal (toLocaleWeekday host year
                           (num_sub month (num_of_Z 1)) day)
               else Normal "") ;;
   Normal (if String.eqb weekday ""
           then (if Nat.eqb i 0 then "Today" else "+" ++ string_of_nat i)
           else weekday))%completion.

(** One pass of the loop body: the stack of day [i]. *)
Definition dayStack (i : nat) (d : JsVal) : Completion Element :=
  let dMax := g2 d "maxTemperature" in
  let dMin := g2 d "minTemperature" in
  let dDayPart := g2 d "daytimeForecast" in
  let dNightPart := g2 d "nighttimeForecast" in
  let dCond := js_or (g2 dDayPart "weatherCondition")
                     (g2 dNightPart "weatherCondition") in
  (weekday <~ weekdayLabel i d ;;
   dSymName <~ pickSymbol dCond (JBool true) ;;
   maxStr <~ fmtTempCompact dMax ;;
   minStr <~ fmtTempCompact dMin ;;
   Normal
     (Stack (Some horizontally) true
        [Image dSymName (16, 16) white;
         Spacer (Some 3);
         Stack (Some vertically) false
           [Text weekday
                 (if Nat.eqb i 0 then boldSystemFont 10 else mediumSystemFont 9)
                 white (Some 1) (Some (7 # 10));
            Text (maxStr ++ " / " ++ minStr)
                 (systemFont 9) (hex "#f5f5f7") (Some 1) (Some (7 # 10))]]))%completion.

(** The [for] loop, from index [i] on, over the days still to show:
    a pass that throws ends the loop and the function. *)
Fixpoint miniRow (maxDays i : nat) (days : list JsVal)
  : Completion (list Element) :=
  match days with
  | [] => Normal []
  | d :: rest =>
      (stack <~ dayStack i d ;;
       more <~ miniRow maxDays (S i) rest ;;
       Normal (stack
                 :: (if (i <? maxDays - 1)%nat then [Spacer (Some 6)] else [])
                 ++ more))%completion
  end.

Definition placeholder : ListWidget :=
  {| padding := (10, 12, 10, 12);
     backgroundGradient := None;
     elements := [Text "No forecast data" (boldSystemFont 14) red None None];
     refreshAfterDate := None |}.

Definition buildWidget (forecast : JsVal) (placeName : string) : M ListWidget :=
  let daysArr := g forecast "forecastDays" (JArr []) in
  if negb (isArray daysArr) || strict_eq_num (prop daysArr "length") 0
  then ret placeholder
  else
      let days := array_items daysArr in
      let today := prop daysArr "0" in
      let maxTempObj := g2 today "maxTemperature" in
      let feelsMaxObj := g2 today "feelsLikeMaxTemperature" in
      let feelsMinObj := g2 today "feelsLikeMinTemperature" in
      let dayPart := g2 today "daytimeForecast" in
      let nightPart := g2 today "nighttimeForecast" in
      let dayCond := g2 dayPart "weatherCondition" in
      let nightCond := g2 nightPart "weatherCondition" in
      let dayHum := g2 dayPart "relativeHumidity" in
      let dayWindObj := g2 dayPart "wind" in
      maxTempC <- lift (parseTempC host maxTempObj) ;;
      gradient <- lift (gradientFor maxTempC) ;;
      currentTempStr <- lift (fmtTemp host maxTempObj) ;;
      feelsMaxStr <- lift (fmtTemp host feelsMaxObj) ;;
      feelsMinStr <- lift (fmtTemp host feelsMinObj) ;;
      windStr <- lift (fmtWind host dayWindObj) ;;
      humStr <- lift (if negb (nullish dayHum)
                      then and_then (ToString host dayHum)
                                    (fun t => Normal (t ++ "%"))
                      else Normal "—") ;;
      now <- Date_now ;;
      let header :=
        Stack (Some horizontally) true
          [Text (if negb (String.eqb placeName "") then placeName else "Location")
                (mediumSystemFont 13) white (Some 1) None;
           Spacer None;
           Text (toLocaleTimeString host now) (regularSystemFont 11)
                (hex "#e0e0e0") None None] in
      todaySymbolName <- lift (pickSymbol (js_or dayCond nightCond) (JBool true)) ;;
      let todayStack :=
        Stack (Some horizontally) true
          [Image todaySymbolName (30, 30) white;
           Spacer (Some 10);
           Stack (Some vertically) false
             [Text currentTempStr (systemFont 32) white None None]] in
      let detailRow :=
        Stack (Some horizontally) false
          [kv "Feels" (feelsMaxStr ++ "/" ++ feelsMinStr);
           Spacer None;
           kv "Hum" humStr;
           Spacer None;
           kv "Wind" windStr] in
      let maxDays := Nat.min (Z.to_nat DAYS) (List.length days) in
      row <- lift (miniRow maxDays 0 (firstn maxDays days)) ;;
      let miniRow := Stack (Some horizontally) true row in
      later <- Date_now ;;
      ret {| padding := (10, 12, 10, 12);
             backgroundGradient := Some gradient;
             elements := [header; Spacer (Some 4); todayStack; Spacer (Some 4);
                          detailRow; Spacer (Some 6); miniRow];
             refreshAfterDate := Some (later + REFRESH_MIN * 60 * 1000) |}.

(** ** Main *)

(** From "Try cache first" to the end of the inner [try]/[catch]. *)
Definition settle : M JsVal := Shared.settle host CACHE_MIN.

Definition main : M Display :=
  try_catch
    (fun w =>
       (_ <- lift (apiKey w) ;;
        loc <- lift (location w) ;;
        data <- settle ;;
        widget <- buildWidget data (placeName_of host loc) ;;
        fun w' =>
          (Normal (if negb (runsInWidget w') then presentMedium widget
                   else setWidget widget), w')) w)
    (errorWidget "Forecast error" 30).

End Script.
End Daily.

(* ================================================================== *)
(** * A reference host

    A small executable host, so that the scripts can be run on concrete
    inputs: JSON restricted to strings without escapes and to decimal
    numerals, a UTC clock face and the proleptic Gregorian calendar. *)
(* ================================================================== *)

Module RefHost.
Import Js Runtime.

(** ** Numerals *)

Definition is_digit (c : ascii) : bool :=
  match digit_value c with Some _ => true | None => false end.

Fixpoint take_digits (s : string) : string * string :=
  match s with
  | String c r =>
      if is_digit c then let '(d, rest) := take_digits r in (String c d, rest)
      else (EmptyString, s)
  | EmptyString => (EmptyString, EmptyString)
  end.

Definition digits_value (d : string) : Z :=
  match parse_digits 0%N d with Some n => Z.of_N n | None => 0 end.

(** An optional sign, digits, an optional fraction; the rest of the
    input comes back with the value. *)
Definition read_number (s : string) : option (Q * string) :=
  let '(neg, s1) :=
    match s with
    | String "-" r => (true, r)
    | _ => (false, s)
    end in
  let '(ip, s2) := take_digits s1 in
  if String.eqb ip "" then None else
  let '(fp, s3) :=
    match s2 with
    | String "." r => take_digits r
    | _ => (EmptyString, s2)
    end in
  let scale := 10 ^ Z.of_nat (String.length fp) in
  let mag := Qred (Qmake (digits_value ip * scale + digits_value fp) (Z.to_pos scale)) in
  Some (if neg then Qred (- mag) else mag, s3).

Fixpoint pad_left (n : nat) (s : string) : string :=
  if (String.length s <? n)%nat
  then match n with
       | O => s
       | S m => pad_left m (String "0" s)
       end
  else s.

(** A rational with [k] fractional digits, the last one rounded. *)
Definition fixed (k : nat) (q : Q) : string :=
  let scale := 10 ^ Z.of_nat k in
  let n := Qfloor (Qabs q * inject_Z scale + (1 # 2)) in
  (if (Qsign q <? 0) && negb (n =? 0) then "-" else "")
    ++ string_of_Z (n / scale)
    ++ (if Nat.eqb k 0 then "" else "." ++ pad_left k (string_of_Z (n mod scale))).

Fixpoint strip_zeros (fuel : nat) (s : string) : string :=
  match fuel with
  | O => s
  | S f =>
      match String.length s with
      | O => s
      | S n =>
          match String.get n s with
          | Some "0"%char => strip_zeros f (String.substring 0 n s)
          | Some "."%char => String.substring 0 n s
          | _ => s
          end
      end
  end.

Definition print_number (q : Q) : string :=
  if Qeq_bool q (inject_Z (Qfloor q)) then string_of_Z (Qfloor q)
  else strip_zeros 17 (fixed 15 q).

(** ** JSON *)

Fixpoint skip_ws (s : string) : string :=
  match s with
  | String c r =>
      if Ascii.eqb c " " || Ascii.eqb c "010" || Ascii.eqb c "009" || Ascii.eqb c "013"
      then skip_ws r else s
  | EmptyString => s
  end.

Fixpoint read_string (s : string) : option (string * string) :=
  match s with
  | EmptyString => None
  | String c r =>
      if Ascii.eqb c "034" then Some (EmptyString, r)
      else if Ascii.eqb c "\" then None
      else match read_string r with
           | Some (t, rest) => Some (String c t, rest)
           | None => None
           end
  end.

Definition expect (word : string) (v : JsVal) (s : string) : option (JsVal * string) :=
  if starts_with word s
  then Some (v, String.substring (String.length word)
                                 (String.length s - String.length word) s)
  else None.

Fixpoint read_value (fuel : nat) (s : string) : option (JsVal * string) :=
  match fuel with
  | O => None
  | S f =>
      match skip_ws s with
      | String "n" _ as t => expect "null" JNull t
      | String "t" _ as t => expect "true" (JBool true) t
      | String "f" _ as t => expect "false" (JBool false) t
      | String "034" r =>
          match read_string r with
          | Some (str, rest) => Some (JStr str, rest)
          | None => None
          end
      | String "[" r =>
          match skip_ws r with
          | String "]" rest => Some (JArr [], rest)
          | r' =>
              match read_items f r' with
              | Some (items, rest) => Some (JArr items, rest)
              | None => None
              end
          end
      | String "{" r =>
          match skip_ws r with
          | String "}" rest => Some (JObj [], rest)
          | r' =>
              match read_members f r' with
              | Some (props, rest) => Some (JObj props, rest)
              | None => None
              end
          end
      | t =>
          match read_number t with
          | Some (q, rest) => Some (JNum (Fin q), rest)
          | None => None
          end
      end
  end

with read_items (fuel : nat) (s : string) : option (list JsVal * string) :=
  match fuel with
  | O => None
  | S f =>
      match read_value f s with
      | Some (v, rest) =>
          match skip_ws rest with
          | String "]" rest' => Some ([v], rest')
          | String "," rest' =>
              match read_items f rest' with
              | Some (vs, rest'') => Some (v :: vs, rest'')
              | None => None
              end
          | _ => None
          end
      | None => None
      end
  end

with read_members (fuel : nat) (s : string)
  : option (list (string * JsVal) * string) :=
  match fuel with
  | O => None
  | S f =>
      match skip_ws s with
      | String "034" r =>
          match read_string r with
          | Some (key, rest) =>
              match skip_ws rest with
              | String ":" rest1 =>
                  match read_value f rest1 with
                  | Some (v, rest2) =>
                      match skip_ws rest2 with
                      | String "}" rest3 => Some ([(key, v)], rest3)
                      | String "," rest3 =>
                          match read_members f rest3 with
                          | Some (ps, rest4) =>
                              (* a repeated key keeps its last value *)
                              Some (match own_lookup key ps with
                                    | Some _ => ps
                                    | None => (key, v) :: ps
                                    end, rest4)
                          | None => None
                          end
                      | _ => None
                      end
                  | None => None
                  end
              | _ => None
              end
          | None => None
          end
      | _ => None
      end
  end.

Definition parse (s : string) : option JsVal :=
  match read_value (2 * String.length s + 2) s with
  | Some (v, rest) =>
      match skip_ws rest with
      | EmptyString => Some v
      | _ => None
      end
  | None => None
  end.

(** The text between two double quotes (character 34). *)
Definition quote (s : string) : string :=
  String "034" (s ++ String "034" EmptyString).

(** [JSON.stringify]: a property holding [undefined] or a built-in is
    left out of an object and printed as [null] inside an array, and so
    is a number that is not finite. *)
Fixpoint stringify (v : JsVal) : string :=
  match v with
  | JUndefined | JNull | JNative _ => "null"
  | JBool true => "true"
  | JBool false => "false"
  | JNum (Fin q) => print_number q
  | JNum _ => "null"
  | JStr s => quote s
  | JArr items =>
      "[" ++ join ","
               ((fix each (l : list JsVal) : list string :=
                   match l with
                   | [] => []
                   | x :: r => stringify x :: each r
                   end) items) ++ "]"
  | JObj props =>
      "{" ++ join ","
               ((fix each (l : list (string * JsVal)) : list string :=
                   match l with
                   | [] => []
                   | (k, (JUndefined | JNative _)) :: r => each r
                   | (k, x) :: r => (quote k ++ ":" ++ stringify x) :: each r
                   end) props) ++ "}"
  end.

(** ** Coercion of strings, clock face, calendar *)

Definition string_to_number (s : string) : JsNum :=
  match skip_ws s with
  | EmptyString => Fin 0
  | t =>
      match read_number t with
      | Some (q, rest) =>
          match skip_ws rest with
          | EmptyString => Fin q
          | _ => NaN
          end
      | None => NaN
      end
  end.

Definition two_digits (z : Z) : string := pad_left 2 (string_of_Z z).

Definition clock_face (ms : Z) : string :=
  two_digits ((ms / 3600000) mod 24) ++ ":" ++ two_digits ((ms / 60000) mod 60).

(** Days from 1970-01-01 to the given civil date; [m] counts from 0. *)
Definition days_from_civil (y m d : Z) : Z :=
  let y' := y + m / 12 in
  let m' := m mod 12 + 1 in
  let y'' := if m' <=? 2 then y' - 1 else y' in
  let era := y'' / 400 in
  let yoe := y'' - era * 400 in
  let mp := (m' + 9) mod 12 in
  let doy := (153 * mp + 2) / 5 + d - 1 in
  let doe := yoe * 365 + yoe / 4 - yoe / 100 + doy in
  era * 146097 + doe - 719468.

Definition weekday (y m d : JsNum) : string :=
  match as_integer y, as_integer m, as_integer d with
  | Some y, Some m, Some d =>
      nth (Z.to_nat ((days_from_civil y m d + 4) mod 7))
          ["Sun"; "Mon"; "Tue"; "Wed"; "Thu"; "Fri"; "Sat"] ""
  | _, _, _ => "Invalid Date"
  end.

Definition host : Host :=
  {| JSON_parse := parse;
     JSON_stringify := stringify;
     StringToNumber := string_to_number;
     NumberToString_host := print_number;
     native_toString := fun name => "function " ++ name ++ "() { [native code] }";
     toLocaleTimeString := clock_face;
     toLocaleWeekday := weekday;
     toFixed2 := fixed 2 |}.

(** ** Worlds to run in *)

(** A world with the given cache file and network outcome, whose clock
    starts at [start] and advances one second per reading. *)
Definition world (content : option string) (start : Z) (net : Exchange) : World :=
  {| file := content;
     writable := true;
     time := fun n => start + 1000 * Z.of_nat n;
     ticks := 0;
     apiKey := Normal "key";
     location := Normal {| latitude := 500647 # 10000;
                           longitude := 19945 # 1000;
                           name := Some "Krakow" |};
     network := net;
     runsInWidget := true |}.

(** The text of a cache file holding the given timestamp and data. *)
Definition file_of (timestamp data : JsVal) : string :=
  stringify (JObj [("timestamp", timestamp); ("data", data)]).

Definition offline : Exchange :=
  {| loadJSON := Throw (Error "The request timed out.");
     statusCode := None |}.

Definition answers (json : JsVal) : Exchange :=
  {| loadJSON := Normal json; statusCode := Some 200 |}.

End RefHost.

(* ================================================================== *)
(** * The specification's own words, as definitions *)
(* ================================================================== *)

Module Spec.
Import Js Runtime.

(** ** Paths in a JSON tree *)

(** The value under a key of a JSON object; nothing else has keys. *)
Definition field (v : JsVal) (k : string) : option JsVal :=
  match v with
  | JObj props => own_lookup k props
  | _ => None
  end.

(** The value at a path: every key along it has to exist. *)
Fixpoint value_at (v : JsVal) (keys : list string) : option JsVal :=
  match keys with
  | [] => Some v
  | k :: rest =>
      match field v k with
      | Some x => value_at x rest
      | None => None
      end
  end.

(** The fallback a caller supplies, absent by default. *)
Definition supplied (fallback : JsVal) : JsVal :=
  match fallback with JUndefined => JNull | _ => fallback end.

(** "The value at that path if every key exists and is non-null, else
    the fallback". *)
Definition safe_get (obj : JsVal) (path : string) (fallback : JsVal) : JsVal :=
  match value_at obj (split "." path) with
  | Some v => if nullish v then supplied fallback else v
  | None => supplied fallback
  end.

(** The same lookup with JavaScript's notion of a key, whatever a
    property access finds: every intermediate value has to be there
    and be neither [null] nor [undefined]. *)
Fixpoint property_at (v : JsVal) (keys : list string) : option JsVal :=
  match keys with
  | [] => Some v
  | k :: rest =>
      if nullish v then None
      else match prop v k with
           | JUndefined => None
           | x => property_at x rest
           end
  end.

Definition safe_get_property (obj : JsVal) (path : string) (fallback : JsVal)
  : JsVal :=
  match property_at obj (split "." path) with
  | Some v => if nullish v then supplied fallback else v
  | None => supplied fallback
  end.

(** A key that names nothing but a payload field: no array index, not
    [length], no member of a built-in prototype. *)
Definition plain_key (k : string) : bool :=
  match array_index k with
  | Some _ => false
  | None =>
      negb (String.eqb k "length")
      && negb (mem_string k Object_prototype)
      && negb (mem_string k Function_prototype)
      && negb (mem_string k Array_prototype)
      && negb (mem_string k String_prototype)
      && negb (mem_string k Number_prototype)
  end.

Definition plain_path (path : string) : bool :=
  forallb plain_key (split "." path).

(** ** Condition normalisation *)

(** A field that holds a string. *)
Definition string_field (v : JsVal) (k : string) : option string :=
  match field v k with
  | Some (JStr s) => Some s
  | _ => None
  end.

(** The ordered rule list of the specification:
    1. a string is returned verbatim;
    2. else a string [description];
    3. else the string [text] of a [description] object;
    4. else a string [type];
    5. else absent. *)
Definition normalize_rules (raw : JsVal) : JsVal :=
  match raw with
  | JStr s => JStr s
  | _ =>
      match string_field raw "description" with
      | Some d => JStr d
      | None =>
          match field raw "description" with
          | Some (JObj dprops) =>
              match string_field (JObj dprops) "text" with
              | Some t => JStr t
              | None =>
                  match string_field raw "type" with
                  | Some t => JStr t
                  | None => JNull
                  end
              end
          | _ =>
              match string_field raw "type" with
              | Some t => JStr t
              | None => JNull
              end
          end
      end
  end.

(** ** Icon selection *)

Definition stormy : string := "cloud.bolt.rain.fill".
Definition snow : string := "cloud.snow.fill".
Definition rain : string := "cloud.rain.fill".
Definition fog : string := "cloud.fog.fill".
Definition smoke : string := "smoke.fill".
Definition cloud (day : bool) : string :=
  if day then "cloud.sun.fill" else "cloud.moon.fill".
Definition clear_sky (day : bool) : string :=
  if day then "sun.max.fill" else "moon.stars.fill".

(** A rule: the substrings that trigger it and the icon it selects. *)
Definition Rule : Type := list string * (bool -> string).

(** The first rule one of whose substrings occurs in [t] wins. *)
Fixpoint first_match (rules : list Rule) (t : string) (day : bool)
  : option string :=
  match rules with
  | [] => None
  | (needles, icon) :: rest =>
      if existsb (includes t) needles then Some (icon day)
      else first_match rest t day
  end.

(** Typed path: rules on the upper-cased [type]. *)
Definition typed_rules : list Rule :=
  [(["THUNDER"; "STORM"], fun _ => stormy);
   (["SNOW"], fun _ => snow);
   (["RAIN"; "SHOWERS"], fun _ => rain);
   (["FOG"; "HAZE"; "MIST"], fun _ => fog);
   (["OVERCAST"], fun _ => smoke);
   (["MOSTLY_CLOUDY"; "CLOUDY"; "PARTLY_CLOUDY"], cloud);
   (["CLEAR"; "SUNNY"], clear_sky)].

(** Text path of the current-conditions script: rules on the
    lower-cased description. *)
Definition text_rules : list Rule :=
  [(["thunder"; "storm"], fun _ => stormy);
   (["snow"; "sleet"], fun _ => snow);
   (["rain"; "drizzle"], fun _ => rain);
   (["fog"; "mist"; "haze"], fun _ => fog);
   (["overcast"], fun _ => smoke);
   (["cloud"], cloud);
   (["clear"; "sunny"], clear_sky)].

(** Text path of the forecast script, its fallback. *)
Definition fallback_text_rules : list Rule :=
  [(["storm"; "thunder"], fun _ => stormy);
   (["snow"], fun _ => snow);
   (["rain"], fun _ => rain);
   (["fog"; "mist"; "haze"], fun _ => fog);
   (["cloud"], cloud);
   (["clear"; "sunny"], clear_sky)].

(** The icon a rule list selects, the clear sky when no rule matches. *)
Definition icon_by (rules : list Rule) (t : string) (day : bool) : string :=
  match first_match rules t day with
  | Some icon => icon
  | None => clear_sky day
  end.

(** The lower-cased display text of a condition, empty when it
    normalises to absent. *)
Definition condition_text (raw : JsVal) : string :=
  match Shared.normalizeConditionText raw with
  | JStr s => toLowerCase s
  | _ => ""
  end.

(** The upper-cased [type] tag of a condition that carries a [type]
    field holding a string. *)
Definition type_tag (raw : JsVal) : option string :=
  match string_field raw "type" with
  | Some t => Some (toUpperCase t)
  | None => None
  end.

(** ** Wind and temperature *)

(** Rounding to the nearest integer, halves upwards. *)
Definition round_half_up (q : Q) : Z := Qfloor (q + (1 # 2)).

(** [a mod m], between 0 and [m] for a positive [m]. *)
Definition Qmod (a m : Q) : Q := a - m * inject_Z (Qfloor (a / m)).

Definition compass : list string :=
  ["N"; "NNE"; "NE"; "ENE"; "E"; "ESE"; "SE"; "SSE";
   "S"; "SSW"; "SW"; "WSW"; "W"; "WNW"; "NW"; "NNW"].

(** [round((deg mod 360) / 22.5) mod 16] *)
Definition compass_index (deg : Q) : Z :=
  round_half_up (Qmod deg (360 # 1) / (225 # 10)) mod 16.

Definition compass_label (deg : Q) : string :=
  nth (Z.to_nat (compass_index deg)) compass "".

Definition unit_symbol (unit : JsVal) : string :=
  if strict_eq_str unit "MILE_PER_HOUR" then "mph"
  else if strict_eq_str unit "METER_PER_SECOND" then "m/s"
  else "km/h".

(** The payload field at a dotted path, absent ([null]) when missing. *)
Definition at_path (obj : JsVal) (path : string) : JsVal :=
  safe_get obj path JUndefined.

(** Celsius from a reading in the given unit: [round((v - 32) * 5/9)]
    for FAHRENHEIT, the subtraction, the product and the quotient each
    being the double the language delivers, and [round(v)] otherwise. *)
Definition celsius (unit : JsVal) (v : Q) : JsNum :=
  if strict_eq_str unit "FAHRENHEIT"
  then Math_round
         (double_div (double_mul (double_sub (Fin v) (num_of_Z 32)) (num_of_Z 5))
                     (num_of_Z 9))
  else Math_round (Fin v).

Inductive Scheme : Type := Cold | Mild | Hot | Night.

(** Below 10 cold, 10 through 23 mild, 24 and above hot; cold when the
    temperature is absent. *)
Definition scheme_for (c : option Z) : Scheme :=
  match c with
  | None => Cold
  | Some c => if c <? 10 then Cold else if c <=? 23 then Mild else Hot
  end.

Definition palette (s : Scheme) : list Scriptable.Color :=
  match s with
  | Cold => [Scriptable.hex "#1e3c72"; Scriptable.hex "#2a5298"]
  | Mild => [Scriptable.hex "#396afc"; Scriptable.hex "#2948ff"]
  | Hot => [Scriptable.hex "#ff512f"; Scriptable.hex "#dd2476"]
  | Night => [Scriptable.hex "#0f2027"; Scriptable.hex "#203a43"]
  end.

(** The gradient of a scheme, from top to bottom. *)
Definition gradient_of (s : Scheme) : Scriptable.Gradient :=
  {| Scriptable.colors := palette s; Scriptable.locations := [0; 1] |}.

(** ** Forecast payload *)

(** The days of a forecast payload: the list its [forecastDays] field
    holds, when the field is there and holds an array. *)
Definition forecast_days (forecast : JsVal) : option (list JsVal) :=
  match field forecast "forecastDays" with
  | Some (JArr days) => Some days
  | _ => None
  end.

(** ** Cache *)

(** The age in minutes, at time [now], of a record stamped [timestamp]. *)
Definition age_minutes (host : Host) (now : Z) (timestamp : JsVal) : JsNum :=
  num_div (num_sub (num_of_Z now) (number_of host timestamp)) (num_of_Z 60000).

(** [a <= b] on numbers. *)
Definition num_le (a b : JsNum) : bool := num_lt a b || num_eq a b.

(** The stored [data] of a record, [undefined] when it has none. *)
Definition stored_data (record : JsVal) : JsVal :=
  match field record "data" with
  | Some d => d
  | None => JUndefined
  end.

(** The cache read as the specification words it: the stored data when
    the file exists, parses, carries a timestamp and its age is at most
    the lifetime; absent otherwise. *)
Definition cache_as_stated (host : Host) (ttl : Z) (content : option string)
           (now : Z) : JsVal :=
  match content with
  | None => JNull
  | Some s =>
      match JSON_parse host s with
      | None => JNull
      | Some record =>
          match field record "timestamp" with
          | Some timestamp =>
              if num_le (age_minutes host now timestamp) (num_of_Z ttl)
              then stored_data record
              else JNull
          | None => JNull
          end
      end
  end.

(** The cache read as the scripts decide it: the timestamp has to be
    truthy and has to convert to a number, and the record is dropped
    only when its age exceeds the lifetime. *)
Definition cached_value (host : Host) (ttl : Z) (content : option string)
           (now : Z) : JsVal :=
  match content with
  | None => JNull
  | Some s =>
      match JSON_parse host s with
      | None => JNull
      | Some record =>
          match field record "timestamp" with
          | Some timestamp =>
              if truthy timestamp && convertible timestamp
              then if num_gt (age_minutes host now timestamp) (num_of_Z ttl)
                   then JNull
                   else stored_data record
              else JNull
          | None => JNull
          end
      end
  end.

(** The reading [Date.now()] gives next in a world. *)
Definition now (w : World) : Z := time w (ticks w).

End Spec.

(* ================================================================== *)
(** * The request both scripts send *)
(* ================================================================== *)

Module Request.
Import Js Runtime.

(** [fetchWeather] and [fetchForecast] with the request they build
    in sight: [Runtime.fetch] above only keeps the answer. *)

(** ** [encodeURIComponent]

    On a byte string (UTF-8): the unreserved characters stay, every
    other byte becomes a percent sign and two upper-case hex digits.
    A string is a sequence of bytes here, so the URIError of a lone
    surrogate has no counterpart. *)

Definition is_alnum (c : ascii) : bool :=
  let n := nat_of_ascii c in
  ((48 <=? n) && (n <=? 57) || (65 <=? n) && (n <=? 90)
   || (97 <=? n) && (n <=? 122))%nat.

Definition is_mark (c : ascii) : bool :=
  existsb (Ascii.eqb c)
    ["-"; "_"; "."; "!"; "~"; "*"; "'"; "("; ")"]%char.

Definition unreserved (c : ascii) : bool := is_alnum c || is_mark c.

Definition hex_digit (n : nat) : ascii :=
  if (n <? 10)%nat then ascii_of_nat (48 + n) else ascii_of_nat (55 + n).

Definition percent (c : ascii) : string :=
  let n := nat_of_ascii c in
  String "%" (String (hex_digit (n / 16)) (String (hex_digit (n mod 16)) EmptyString)).

Fixpoint encodeURIComponent (s : string) : string :=
  match s with
  | EmptyString => EmptyString
  | String c r =>
      (if unreserved c then String c EmptyString else percent c)
        ++ encodeURIComponent r
  end.

(** ** The request *)

Definition LANGUAGE : string := "pl".
Definition UNITS_SYSTEM : string := "METRIC".

(** What a script sets on [new Request(url)]. *)
Record Request : Type := {
  url : string;
  timeoutInterval : Z;
  headers : list (string * string)
}.

Section Script.
Context (host : Host).

(** [encodeURIComponent(x)] for a number [x]. *)
Definition encodeNumber (x : JsNum) : string :=
  encodeURIComponent (NumberToString host x).

(** The [params] array of [fetchWeather], before [join("&")]. *)
Definition weatherParams (key : string) (lat lon : JsNum) : list string :=
  ["key=" ++ encodeURIComponent key;
   "location.latitude=" ++ encodeNumber lat;
   "location.longitude=" ++ encodeNumber lon;
   "languageCode=" ++ encodeURIComponent LANGUAGE;
   "unitsSystem=" ++ encodeURIComponent UNITS_SYSTEM].

(** The [params] array of [fetchForecast]. *)
Definition forecastParams (key : string) (lat lon : JsNum) : list string :=
  ["key=" ++ encodeURIComponent key;
   "location.latitude=" ++ encodeNumber lat;
   "location.longitude=" ++ encodeNumber lon;
   "days=" ++ encodeNumber (num_of_Z Daily.DAYS);
   "languageCode=" ++ encodeURIComponent LANGUAGE;
   "unitsSystem=" ++ encodeURIComponent UNITS_SYSTEM].

Definition weatherRequest (key : string) (lat lon : JsNum) : Request :=
  {| url := "https://weather.googleapis.com/v1/currentConditions:lookup?"
            ++ join "&" (weatherParams key lat lon);
     timeoutInterval := 12;
     headers := [("Accept", "application/json")] |}.

Definition forecastRequest (key : string) (lat lon : JsNum) : Request :=
  {| url := "https://weather.googleapis.com/v1/forecast/days:lookup?"
            ++ join "&" (forecastParams key lat lon);
     timeoutInterval := 12;
     headers := [("Accept", "application/json")] |}.

(** What follows [await req.loadJSON()]: the body, unless the load
    threw or the status code is 400 or more. *)
Definition answer (x : Exchange) : Completion JsVal :=
  match loadJSON x with
  | Throw e => Throw e
  | Normal json =>
      match statusCode x with
      | Some code =>
          if negb (code =? 0) && (400 <=? code)
          then Throw (Error ("HTTP " ++ string_of_Z code))
          else Normal json
      | None => Normal json
      end
  end.

(** [fetchWeather(key, lat, lon)] and [fetchForecast(key, lat, lon)]
    against a server that answers each request in its own way. *)
Definition fetchWeather (server : Request -> Exchange)
           (key : string) (lat lon : JsNum) : Completion JsVal :=
  answer (server (weatherRequest key lat lon)).

Definition fetchForecast (server : Request -> Exchange)
           (key : string) (lat lon : JsNum) : Completion JsVal :=
  answer (server (forecastRequest key lat lon)).

End Script.
End Request.

(* ================================================================== *)
(** * The API key and the location *)
(* ================================================================== *)

Module Credentials.
Import Js Runtime.

(** ** [String.prototype.trim]

    White space is what ECMAScript calls WhiteSpace and LineTerminator:
    the tab, the line feed, the vertical tab, the form feed, the
    carriage return and the blank of ASCII, and beyond ASCII the
    no-break space U+00A0, U+1680, U+2000 to U+200A, the line and
    paragraph separators U+2028 and U+2029, U+202F, U+205F, U+3000 and
    the byte order mark U+FEFF, each in its UTF-8 bytes. *)

Definition is_space (c : ascii) : bool :=
  let n := nat_of_ascii c in
  ((n =? 32) || (9 <=? n) && (n <=? 13))%nat.

(** The white space of three bytes. *)
Definition white3 (a b c : nat) : bool :=
  ((a =? 225) && (b =? 154) && (c =? 128)
   || (a =? 226) && (b =? 128)
      && ((128 <=? c) && (c <=? 138) || (c =? 168) || (c =? 169) || (c =? 175))
   || (a =? 226) && (b =? 129) && (c =? 159)
   || (a =? 227) && (b =? 128) && (c =? 128)
   || (a =? 239) && (b =? 187) && (c =? 191))%nat.

(** The number of bytes of the white space [s] begins with, 0 when it
    begins with none. *)
Definition white_width (s : string) : nat :=
  match s with
  | EmptyString => 0
  | String a r =>
      if is_space a then 1
      else
        match r with
        | EmptyString => 0
        | String b r' =>
            if ((nat_of_ascii a =? 194) && (nat_of_ascii b =? 160))%nat then 2
            else
              match r' with
              | EmptyString => 0
              | String c _ =>
                  if white3 (nat_of_ascii a) (nat_of_ascii b) (nat_of_ascii c)
                  then 3 else 0
              end
        end
  end.

Fixpoint trim_start (s : string) : string :=
  match s with
  | EmptyString => EmptyString
  | String _ r =>
      match white_width s, r with
      | 1%nat, _ => trim_start r
      | 2%nat, String _ r' => trim_start r'
      | 3%nat, String _ (String _ r'') => trim_start r''
      | _, _ => s
      end
  end.

(** Cut where nothing but white space follows. *)
Fixpoint trim_end (s : string) : string :=
  match s with
  | EmptyString => EmptyString
  | String c r =>
      if String.eqb (trim_start s) "" then EmptyString
      else String c (trim_end r)
  end.

Definition trim (s : string) : string := trim_end (trim_start s).

(** The white space beyond ASCII, each in its UTF-8 bytes: U+00A0,
    U+1680, U+2000 to U+200A, U+2028, U+2029, U+202F, U+205F, U+3000
    and U+FEFF. *)
Definition utf8 (bytes : list nat) : string :=
  fold_right (fun b s => String (ascii_of_nat b) s) EmptyString bytes.

Definition white_space : list string :=
  map utf8
    [[194; 160]; [225; 154; 128];
     [226; 128; 128]; [226; 128; 129]; [226; 128; 130]; [226; 128; 131];
     [226; 128; 132]; [226; 128; 133]; [226; 128; 134]; [226; 128; 135];
     [226; 128; 136]; [226; 128; 137]; [226; 128; 138];
     [226; 128; 168]; [226; 128; 169]; [226; 128; 175];
     [226; 129; 159]; [227; 128; 128]; [239; 187; 191]]%nat.

(** ** The Keychain entry and the alert *)

(** The device as [getApiKey] meets it: what the Keychain holds under
    [KEYCHAIN_KEY], what the user does with the alert (the index of
    the action chosen, -1 for Cancel, and the text typed), and how
    often the alert was presented. *)
Record Device : Type := {
  keychain : option string;
  chosen : Z;
  typed : string;
  presented : nat
}.

(** The body of [if (!key) { ... }]: the alert is presented, the text
    typed is trimmed, and a key that is not empty goes to the Keychain. *)
Definition ask (d : Device) : Completion string * Device :=
  let d1 := {| keychain := keychain d; chosen := chosen d;
               typed := typed d; presented := S (presented d) |} in
  if chosen d =? -1
  then (Throw (Error "API key input cancelled."), d1)
  else
    let key := trim (typed d) in
    if negb (truthy (JStr key)) then (Throw (Error "Empty API key."), d1)
    else (Normal key,
          {| keychain := Some key; chosen := chosen d;
             typed := typed d; presented := S (presented d) |}).

Definition getApiKey (d : Device) : Completion string * Device :=
  match keychain d with
  | Some key => if negb (truthy (JStr key)) then ask d else (Normal key, d)
  | None => ask d
  end.

End Credentials.

Module Geo.
Import Js Runtime.

Definition USE_CURRENT_LOCATION : bool := true.
Definition FIXED_LAT : Q := 500647 # 10000.
Definition FIXED_LON : Q := 199450 # 10000.

(** The location service: [Location.current()] and
    [Location.reverseGeocode(lat, lon)], each with its outcome.
    [Location.setAccuracyToTenMeters()] returns nothing and is left
    out. *)
Record Service : Type := {
  current : Completion (Q * Q);
  reverseGeocode : Q -> Q -> Completion JsVal
}.

(** The object [getLocation] returns. *)
Record Place : Type := {
  latitude : Q;
  longitude : Q;
  name : JsVal
}.

(** [v?.[k]] and [v?.k] *)
Definition optional (v : JsVal) (k : string) : JsVal :=
  if nullish v then JUndefined else prop v k.

(** [getLocation()] for a given value of the [USE_CURRENT_LOCATION]
    switch. *)
Definition getLocation_when (use_current : bool) (service : Service)
  : Completion Place :=
  if negb use_current
  then Normal {| latitude := FIXED_LAT; longitude := FIXED_LON; name := JNull |}
  else
    match current service with
    | Throw e => Throw e
    | Normal (lat, lon) =>
        let placemarks :=
          match reverseGeocode service lat lon with
          | Normal found => found
          | Throw _ => JArr []
          end in
        let first := optional placemarks "0" in
        let name :=
          js_or (js_or (js_or (optional first "locality")
                              (optional first "subLocality"))
                       (optional first "administrativeArea"))
                JNull in
        Normal {| latitude := lat; longitude := lon; name := name |}
    end.

Definition getLocation : Service -> Completion Place :=
  getLocation_when USE_CURRENT_LOCATION.

End Geo.

(* ================================================================== *)
(** * What a widget shows, for the statements below *)
(* ================================================================== *)

Module Observe.
Import Js Scriptable.

(** Every character of [s] satisfies [p]. *)
Fixpoint all_chars (p : ascii -> bool) (s : string) : bool :=
  match s with
  | EmptyString => true
  | String c r => p c && all_chars p r
  end.

(** What [encodeURIComponent] lets through: the unreserved characters
    and the percent sign of an escape. *)
Definition escaped (c : ascii) : bool :=
  Request.unreserved c || Ascii.eqb c "%".

(** The SF Symbol names of the images in an element, stacks included. *)
Fixpoint symbols_of (e : Element) : list string :=
  match e with
  | Image symbol _ _ => [symbol]
  | Stack _ _ children => flat_map symbols_of children
  | _ => []
  end.

Definition symbols (w : ListWidget) : list string :=
  flat_map symbols_of (elements w).

(** The texts of an element, stacks included. *)
Fixpoint texts_of (e : Element) : list string :=
  match e with
  | Text text _ _ _ _ => [text]
  | Stack _ _ children => flat_map texts_of children
  | _ => []
  end.

Definition texts (w : ListWidget) : list string :=
  flat_map texts_of (elements w).

(** The widget a run ends with, however it is shown. *)
Definition shown (d : Display) : ListWidget :=
  match d with
  | presentMedium w | presentSmall w | setWidget w => w
  end.

(** The icons of weather that does not depend on the time of day, of
    the day and of the night. *)
Definition weather_symbols : list string :=
  ["cloud.bolt.rain.fill"; "cloud.snow.fill"; "cloud.rain.fill";
   "cloud.fog.fill"; "smoke.fill"].
Definition day_symbols : list string := ["cloud.sun.fill"; "sun.max.fill"].
Definition night_symbols : list string := ["cloud.moon.fill"; "moon.stars.fill"].

(** A payload none of whose objects, at any depth, has a property of
    its own named [toString]: every object in it converts to a string
    and to a number through [Object.prototype.toString]. *)
Fixpoint no_own_toString (v : JsVal) : bool :=
  match v with
  | JObj props =>
      match own_lookup "toString" props with
      | Some _ => false
      | None => true
      end
      && (fix all (l : list (string * JsVal)) : bool :=
            match l with
            | [] => true
            | (_, x) :: r => no_own_toString x && all r
            end) props
  | JArr items =>
      (fix all (l : list JsVal) : bool :=
         match l with
         | [] => true
         | x :: r => no_own_toString x && all r
         end) items
  | _ => true
  end.

(** How the [try] block of a script ends, up to the widget: with the
    widget built from the data the fetch-or-cache block adopted, or
    with the first error raised, by [getApiKey], by [getLocation], by
    the fetch-or-cache block or by [buildWidget]; and the world it
    leaves. *)
Inductive Tried (settle : Runtime.M JsVal)
          (build : JsVal -> Runtime.Location -> Runtime.M ListWidget)
          (w : Runtime.World)
  : Completion ListWidget -> Runtime.World -> Prop :=
| Built key loc data w1 widget w2 :
    Runtime.apiKey w = Normal key ->
    Runtime.location w = Normal loc ->
    settle w = (Normal data, w1) ->
    build data loc w1 = (Normal widget, w2) ->
    Tried settle build w (Normal widget) w2
| No_key err :
    Runtime.apiKey w = Throw err ->
    Tried settle build w (Throw err) w
| No_location key err :
    Runtime.apiKey w = Normal key ->
    Runtime.location w = Throw err ->
    Tried settle build w (Throw err) w
| No_data key loc err w1 :
    Runtime.apiKey w = Normal key ->
    Runtime.location w = Normal loc ->
    settle w = (Throw err, w1) ->
    Tried settle build w (Throw err) w1
| No_widget key loc data w1 err w2 :
    Runtime.apiKey w = Normal key ->
    Runtime.location w = Normal loc ->
    settle w = (Normal data, w1) ->
    build data loc w1 = (Throw err, w2) ->
    Tried settle build w (Throw err) w2.

(** How a run ends on screen, given how its [try] block ended: the
    widget that was built, previewed in the app or set on the home
    screen, or the error widget, with the title of the script and the
    text of the error that was raised. *)
Inductive Ending (title : string) (inWidget : bool)
  : Completion ListWidget -> Display -> Prop :=
| Shows_data widget :
    Ending title inWidget (Normal widget)
           (if inWidget then setWidget widget else presentMedium widget)
| Shows_error err widget :
    texts widget = [title; error_string err] ->
    Ending title inWidget (Throw err)
           (if inWidget then setWidget widget else presentSmall widget).

End Observe.

(* ================================================================== *)
(** * Properties *)
(* ================================================================== *)

Import Js Runtime Shared Scriptable Spec.

(** ** The string helpers *)

Lemma starts_with_iff needle : forall hay,
  starts_with needle hay = true <-> exists rest, hay = (needle ++ rest)%string.
Proof.
  induction needle as [|a n IH]; intros hay; simpl.
  - split; [intros _; now exists hay | reflexivity].
  - destruct hay as [|b h].
    + split; [discriminate | intros [rest H]; discriminate H].
    + rewrite andb_true_iff, Ascii.eqb_eq, IH. split.
      * intros [-> [rest ->]]. now exists rest.
      * intros [rest [= -> ->]]. split; [reflexivity | now exists rest].
Qed.

(** [includes] finds exactly the substrings. *)
Lemma includes_iff hay needle :
  includes hay needle = true
  <-> exists pre post, hay = (pre ++ needle ++ post)%string.
Proof.
  induction hay as [|c h IH].
  - cbn [includes]. rewrite orb_false_r, starts_with_iff. split.
    + intros [rest H]. now exists EmptyString, rest.
    + intros [pre [post H]]. destruct pre; [|discriminate H].
      now exists post.
  - cbn [includes]. rewrite orb_true_iff, starts_with_iff, IH. split.
    + intros [[rest H] | [pre [post H]]].
      * now exists EmptyString, rest.
      * exists (String c pre), post. simpl. now rewrite H.
    + intros [pre [post H]]. destruct pre as [|c' pre].
      * left. now exists post.
      * right. injection H as _ H. now exists pre, post.
Qed.

Lemma split_nonempty sep s : split sep s <> [].
Proof.
  destruct s as [|c r]; simpl; [discriminate|].
  destruct (Ascii.eqb c sep); [discriminate|].
  destruct (split sep r); discriminate.
Qed.

(** Joining the pieces of a split with the separator gives the string
    back. *)
Lemma join_split sep s :
  join (String sep EmptyString) (split sep s) = s.
Proof.
  induction s as [|c r IH]; simpl; [reflexivity|].
  pose proof (split_nonempty sep r) as Hne.
  destruct (Ascii.eqb_spec c sep) as [-> | Hc].
  - destruct (split sep r) as [|w ws]; [contradiction|].
    change (join (String sep "") ("" :: w :: ws))
      with (String sep (join (String sep "") (w :: ws))).
    now rewrite IH.
  - destruct (split sep r) as [|w ws]; [contradiction|].
    destruct ws as [|w' ws].
    + simpl in *. now rewrite IH.
    + change (join (String sep "") (String c w :: w' :: ws))
        with (String c (join (String sep "") (w :: w' :: ws))).
      now rewrite IH.
Qed.

Lemma toLowerCase_length s : String.length (toLowerCase s) = String.length s.
Proof.
  unfold toLowerCase. induction s as [|c s IH]; simpl; [reflexivity | now rewrite IH].
Qed.

(** ** Property access on payload keys *)

Lemma inherited_plain proto members k :
  mem_string k members = false ->
  mem_string k Object_prototype = false ->
  inherited proto members k = JUndefined.
Proof.
  intros Hm Ho. unfold inherited. now rewrite Hm, Ho.
Qed.

Lemma plain_key_inv k :
  plain_key k = true ->
  array_index k = None /\ String.eqb k "length" = false
  /\ mem_string k Object_prototype = false
  /\ mem_string k Function_prototype = false
  /\ mem_string k Array_prototype = false
  /\ mem_string k String_prototype = false
  /\ mem_string k Number_prototype = false.
Proof.
  unfold plain_key. destruct (array_index k); [discriminate|].
  rewrite !andb_true_iff, !negb_true_iff. tauto.
Qed.

(** On a plain key, property access sees the own properties of objects
    and nothing else. *)
Lemma prop_plain v k :
  plain_key k = true ->
  prop v k = match field v k with Some x => x | None => JUndefined end.
Proof.
  intros Hk. destruct (plain_key_inv k Hk) as (Hi & Hl & Ho & Hf & Ha & Hs & Hn).
  destruct v; unfold prop, field; try reflexivity.
  - apply inherited_plain; [reflexivity | exact Ho].
  - apply inherited_plain; [exact Hn | exact Ho].
  - rewrite Hi, Hl. apply inherited_plain; [exact Hs | exact Ho].
  - rewrite Hi, Hl. apply inherited_plain; [exact Ha | exact Ho].
  - destruct (own_lookup k props); [reflexivity|].
    apply inherited_plain; [reflexivity | exact Ho].
  - now rewrite Hf, Ho.
Qed.

(** ** The safe getter *)

Lemma g_step_null k : g_step JNull k = JNull.
Proof. reflexivity. Qed.

Lemma fold_g_step_null keys : fold_left g_step keys JNull = JNull.
Proof. induction keys as [|k keys IH]; simpl; [reflexivity | exact IH]. Qed.

Lemma value_at_dead v keys :
  nullish v = true ->
  match value_at v keys with
  | Some x => nullish x = true
  | None => True
  end.
Proof.
  intros Hv. destruct keys as [|k keys]; simpl; [exact Hv|].
  destruct v; simpl in *; try discriminate; exact I.
Qed.

Lemma g_step_plain o k :
  plain_key k = true ->
  g_step o k =
    match field o k with
    | Some x => if nullish x then JNull else x
    | None => JNull
    end.
Proof.
  intros Hk. unfold g_step. rewrite (prop_plain o k Hk).
  destruct o; simpl; try reflexivity.
  - destruct b; reflexivity.
  - destruct n as [| | |q]; simpl; try reflexivity.
    now destruct (Qsign q =? 0).
  - now destruct (String.eqb s "").
  - destruct (own_lookup k props) as [x|]; [|reflexivity].
    destruct x; reflexivity.
Qed.

Lemma fold_g_step_plain keys : forall o d,
  forallb plain_key keys = true ->
  js_coalesce (fold_left g_step keys o) d =
    match value_at o keys with
    | Some v => if nullish v then d else v
    | None => d
    end.
Proof.
  induction keys as [|k keys IH]; intros o d Hp; simpl in *.
  - reflexivity.
  - apply andb_true_iff in Hp as [Hk Hks].
    rewrite (g_step_plain o k Hk).
    destruct (field o k) as [x|].
    + destruct (nullish x) eqn:Hx.
      * rewrite fold_g_step_null. simpl.
        pose proof (value_at_dead x keys Hx) as Hd.
        destruct (value_at x keys) as [y|]; [now rewrite Hd | reflexivity].
      * apply IH; exact Hks.
    + now rewrite fold_g_step_null.
Qed.

Lemma fold_g_step_run keys : forall o,
  fold_left g_step_run keys (Normal o) = Normal (fold_left g_step keys o).
Proof.
  induction keys as [|k keys IH]; intros o; simpl; [reflexivity|].
  unfold g_step, member.
  destruct (truthy o) eqn:Ht; simpl.
  - assert (Hn : nullish o = false) by (destruct o; simpl in *; congruence).
    rewrite Hn. rewrite <- IH. f_equal. destruct (prop o k); reflexivity.
  - apply IH.
Qed.

Lemma g_run_normal obj path fallback :
  g_run obj path fallback = Normal (g obj path fallback).
Proof.
  unfold g_run, g. now rewrite fold_g_step_run.
Qed.

(** The getter on a plain path is the lookup of the specification. *)
Lemma g_safe_get obj path fallback :
  plain_path path = true ->
  g obj path fallback = safe_get obj path fallback.
Proof.
  intros Hp. unfold g, safe_get, supplied.
  apply fold_g_step_plain. exact Hp.
Qed.

(** A string has no key [length] in a JSON tree, yet the getter finds one. *)
Lemma g_length_of_string :
  g2 (JObj [("a", JStr "xy")]) "a.length" = JInt 2
  /\ safe_get (JObj [("a", JStr "xy")]) "a.length" JUndefined = JNull.
Proof. split; reflexivity. Qed.

(** A last key that holds [null] gives the fallback, not [null]. *)
Lemma g_null_leaf :
  g (JObj [("a", JNull)]) "a" (JInt 7) = JInt 7.
Proof. reflexivity. Qed.

(** An intermediate value that is falsy without being [null] stops the
    walk, although JavaScript finds the next key on it. *)
Lemma g_falsy_intermediate :
  g2 (JObj [("a", JStr "")]) "a.length" = JNull
  /\ safe_get_property (JObj [("a", JStr "")]) "a.length" JUndefined = JInt 0.
Proof. split; reflexivity. Qed.

(** C9, as stated, fails, whichever way "the value at that path" is
    read.  Read on the JSON tree, [{a: "xy"}] has no value at
    ["a.length"], and [g] returns 2 instead of the fallback.  Read with
    JavaScript's property access, [{a: ""}] has the value 0 at
    ["a.length"] behind an intermediate key that exists and is not
    null, and [g] returns the fallback. *)
Lemma g_as_stated_fails :
  ~ (forall obj path fallback, g obj path fallback = safe_get obj path fallback)
  /\ ~ (forall obj path fallback,
          g obj path fallback = safe_get_property obj path fallback).
Proof.
  split; intros H.
  - specialize (H (JObj [("a", JStr "xy")]) "a.length" JUndefined).
    vm_compute in H. discriminate H.
  - specialize (H (JObj [("a", JStr "")]) "a.length" JUndefined).
    vm_compute in H. discriminate H.
Qed.

(** C9 (amended): [g] never raises; and for every JSON tree and every
    dotted path whose keys are plain (no array index, not [length], no
    member of a built-in prototype) it returns the value at that path
    when every key along the path, the last one included, exists and
    holds a non-null value, and the caller's fallback (absent by
    default) otherwise. *)
Theorem g_safe_on_plain_paths : forall obj path fallback,
  (exists v, g_run obj path fallback = Normal v)
  /\ (plain_path path = true ->
      g_run obj path fallback = Normal (safe_get obj path fallback)).
Proof.
  intros obj path fallback. rewrite g_run_normal. split.
  - eexists; reflexivity.
  - intros Hp. f_equal. apply g_safe_get. exact Hp.
Qed.

Lemma g_safe_on_plain_paths_witness :
  plain_path "wind.speed.value" = true
  /\ g_run (JObj [("wind", JObj [("speed", JObj [("value", JInt 8)])])])
           "wind.speed.value" JUndefined
     = Normal (JInt 8)
  /\ g_run (JObj [("wind", JNull)]) "wind.speed.value" (JStr "none")
     = Normal (JStr "none").
Proof.
  split; [reflexivity|]. split.
  - exact (proj2 (g_safe_on_plain_paths
                    (JObj [("wind", JObj [("speed", JObj [("value", JInt 8)])])])
                    "wind.speed.value" JUndefined) eq_refl).
  - exact (proj2 (g_safe_on_plain_paths
                    (JObj [("wind", JNull)]) "wind.speed.value" (JStr "none"))
                 eq_refl).
Defined.

(** ** Condition normalisation *)

Lemma normalize_object props :
  normalizeConditionText (JObj props) = normalize_rules (JObj props).
Proof.
  unfold normalizeConditionText, normalize_rules, string_field.
  rewrite (prop_plain (JObj props) "description" eq_refl).
  rewrite (prop_plain (JObj props) "type" eq_refl).
  cbn [truthy negb is_string field].
  destruct (own_lookup "description" props) as [desc|].
  - rewrite (prop_plain desc "text" eq_refl).
    destruct desc as [| |b|n|s|items|dprops|nm]; cbn;
      try (destruct (own_lookup "type" props) as [[]|]; reflexivity).
    + destruct b; cbn; destruct (own_lookup "type" props) as [[]|]; reflexivity.
    + destruct n as [| | |q]; cbn;
        try (destruct (own_lookup "type" props) as [[]|]; reflexivity).
      destruct (Qsign q =? 0); cbn;
        destruct (own_lookup "type" props) as [[]|]; reflexivity.
    + destruct (own_lookup "text" dprops) as [[]|]; cbn;
        destruct (own_lookup "type" props) as [[]|]; reflexivity.
  - cbn. destruct (own_lookup "type" props) as [[]|]; reflexivity.
Qed.

Lemma normalize_other raw :
  (forall s, raw <> JStr s) -> (forall props, raw <> JObj props) ->
  normalizeConditionText raw = JNull /\ normalize_rules raw = JNull.
Proof.
  intros Hs Ho.
  unfold normalizeConditionText, normalize_rules, string_field.
  rewrite (prop_plain raw "description" eq_refl).
  rewrite (prop_plain raw "type" eq_refl).
  destruct raw as [| |b|n|s|items|props|nm]; cbn; try (split; reflexivity).
  - destruct b; split; reflexivity.
  - destruct n as [| | |q]; cbn; try (split; reflexivity).
    destruct (Qsign q =? 0); split; reflexivity.
  - now contradiction (Hs s).
  - now contradiction (Ho props).
Qed.

(** C3, as stated, fails on the empty string: rule 1 returns it
    verbatim, the code treats it like any other falsy input. *)
Lemma normalize_empty_string :
  normalize_rules (JStr "") = JStr ""
  /\ normalizeConditionText (JStr "") = JNull
  /\ ~ (forall raw, normalizeConditionText raw = normalize_rules raw).
Proof.
  split; [reflexivity|]. split; [reflexivity|].
  intros H. specialize (H (JStr "")). discriminate H.
Qed.

(** C3 (amended): [normalizeConditionText] resolves a raw condition by
    the ordered rule list -- a non-empty string verbatim, else a string
    [description], else the string [text] of a [description] object,
    else a string [type], else absent -- and the empty string, like
    every other falsy input, gives absent.  So "Sunny" gives "Sunny",
    [{description:{text:"Cloudy"}}] gives "Cloudy", [{type:"RAIN"}]
    gives "RAIN" and [{}] gives absent. *)
Theorem normalizeConditionText_rules :
  (forall raw,
     normalizeConditionText raw =
       if strict_eq_str raw "" then JNull else normalize_rules raw)
  /\ normalizeConditionText (JStr "Sunny") = JStr "Sunny"
  /\ normalizeConditionText
       (JObj [("description", JObj [("text", JStr "Cloudy")])]) = JStr "Cloudy"
  /\ normalizeConditionText (JObj [("type", JStr "RAIN")]) = JStr "RAIN"
  /\ normalizeConditionText (JObj []) = JNull.
Proof.
  split; [|repeat split; reflexivity].
  intros raw.
  destruct raw as [| |b|n|s|items|props|nm];
    try (cbn [strict_eq_str];
         match goal with
         | |- normalizeConditionText ?r = normalize_rules ?r =>
             let H := fresh in
             assert (H : normalizeConditionText r = JNull /\ normalize_rules r = JNull)
               by (apply normalize_other; intros; discriminate);
             destruct H as [-> ->]; reflexivity
         end).
  - cbn [strict_eq_str]. unfold normalizeConditionText, normalize_rules.
    cbn [truthy is_string negb].
    destruct (String.eqb s ""); reflexivity.
  - apply normalize_object.
Qed.

(** ** Icon selection *)

Lemma is_string_inv v : is_string v = true -> exists s, v = JStr s.
Proof. destruct v; try discriminate; intros _; eexists; reflexivity. Qed.

Lemma normalize_is_text raw :
  normalizeConditionText raw = JNull
  \/ exists s, normalizeConditionText raw = JStr s.
Proof.
  unfold normalizeConditionText.
  destruct (negb (truthy raw)); [left; reflexivity|].
  destruct (is_string raw) eqn:E1; [right; now apply is_string_inv|].
  destruct (is_string (prop raw "description")) eqn:E2;
    [right; now apply is_string_inv|].
  destruct (truthy (prop raw "description")
            && is_string (prop (prop raw "description") "text")) eqn:E3.
  - apply andb_true_iff in E3 as [_ E3]. right; now apply is_string_inv.
  - destruct (is_string (prop raw "type")) eqn:E4;
      [right; now apply is_string_inv | left; reflexivity].
Qed.

(** The normalised condition is a string or absent: its conversion
    to a string never raises. *)
Lemma text_of_condition host raw :
  exists s,
    ToString host (js_or (normalizeConditionText raw) (JStr "")) = Normal s
    /\ toLowerCase s = condition_text raw.
Proof.
  unfold condition_text, js_or.
  destruct (normalize_is_text raw) as [-> | [s ->]];
    [exists ""%string; split; reflexivity|].
  cbn [truthy]. destruct (String.eqb s "") eqn:E.
  - apply String.eqb_eq in E. subst s. exists ""%string. split; reflexivity.
  - exists s. split; reflexivity.
Qed.

Lemma append_empty (s : string) : (s ++ "")%string = s.
Proof. induction s as [|c s IH]; simpl; [reflexivity | now rewrite IH]. Qed.

Lemma append_assoc (a b c : string) :
  ((a ++ b) ++ c)%string = (a ++ (b ++ c))%string.
Proof. induction a as [|x a IH]; simpl; [reflexivity | now rewrite IH]. Qed.

Ltac step_rule :=
  match goal with
  | |- context [includes ?t ?n] =>
      destruct (includes t n) eqn:?; cbn [orb andb]; try reflexivity
  end.

(** The current-conditions chain of tests is the text rule list. *)
Lemma Current_pickSymbol_rules host raw isDaytime :
  Current.pickSymbol host raw isDaytime
  = Normal (icon_by text_rules (condition_text raw) (truthy isDaytime)).
Proof.
  unfold Current.pickSymbol.
  destruct (text_of_condition host raw) as (s & -> & Hs).
  cbn [and_then]. rewrite append_empty, Hs. f_equal.
  unfold icon_by, text_rules, first_match, existsb.
  set (t := condition_text raw). set (day := truthy isDaytime).
  repeat step_rule.
Qed.

Lemma upper_char_idem c : upper_char (upper_char c) = upper_char c.
Proof.
  unfold upper_char.
  destruct (is_lower c) eqn:E; [|now rewrite E].
  destruct c as [[] [] [] [] [] [] [] []]; try discriminate E; reflexivity.
Qed.

Lemma toUpperCase_idem s : toUpperCase (toUpperCase s) = toUpperCase s.
Proof.
  unfold toUpperCase. induction s as [|c s IH]; simpl; [reflexivity|].
  now rewrite upper_char_idem, IH.
Qed.

Lemma getConditionType_upper host raw t :
  Daily.getConditionType host raw = Normal t -> toUpperCase t = t.
Proof.
  unfold Daily.getConditionType.
  destruct (negb (truthy raw)); [now intros [= <-]|].
  destruct (negb (truthy (prop raw "type"))); [now intros [= <-]|].
  destruct (ToString host (prop raw "type")) as [text|e]; cbn [and_then];
    [|discriminate].
  intros [= <-]. apply toUpperCase_idem.
Qed.

(** The forecast chain of tests is the typed rule list, then, when no
    typed rule matches, the fallback text rule list. *)
Lemma Daily_pickSymbol_rules host raw isDaytime :
  Daily.pickSymbol host raw isDaytime
  = and_then (Daily.getConditionType host raw)
      (fun tag =>
         Normal
           match first_match typed_rules tag (truthy isDaytime) with
           | Some icon => icon
           | None =>
               icon_by fallback_text_rules (condition_text raw) (truthy isDaytime)
           end).
Proof.
  unfold Daily.pickSymbol.
  destruct (Daily.getConditionType host raw) as [t|e] eqn:Et; [|reflexivity].
  cbn [and_then]. rewrite (getConditionType_upper host raw t Et).
  destruct (text_of_condition host raw) as (s & -> & Hs).
  cbn [and_then]. rewrite Hs.
  unfold icon_by, typed_rules, fallback_text_rules, first_match, existsb.
  set (d := condition_text raw). set (day := truthy isDaytime).
  repeat step_rule.
Qed.

Lemma getConditionType_tag host raw tag :
  type_tag raw = Some tag -> Daily.getConditionType host raw = Normal tag.
Proof.
  unfold type_tag, string_field, Daily.getConditionType.
  rewrite (prop_plain raw "type" eq_refl).
  destruct raw as [| |b|n|s|items|props|nm]; cbn [field]; try discriminate.
  destruct (own_lookup "type" props) as [[| |b|n|t|items|tprops|nm]|];
    try discriminate.
  intros [= <-]. cbn [truthy negb].
  destruct (String.eqb t "") eqn:E; [|reflexivity].
  apply String.eqb_eq in E. now subst t.
Qed.

Lemma getConditionType_absent host raw :
  field raw "type" = None -> Daily.getConditionType host raw = Normal "".
Proof.
  intros H. unfold Daily.getConditionType.
  rewrite (prop_plain raw "type" eq_refl), H.
  now destruct (negb (truthy raw)).
Qed.

(** C4, as stated, fails: a condition that carries the type "WINDY" and
    the description "Light rain" gets the rain icon from the text path,
    not the clear sky the typed rules alone would give. *)
Lemma typed_rules_alone_fails :
  ~ (forall raw isDaytime tag,
       type_tag raw = Some tag ->
       Daily.pickSymbol RefHost.host raw isDaytime
       = Normal (icon_by typed_rules tag (truthy isDaytime))).
Proof.
  intros H.
  specialize (H (JObj [("type", JStr "WINDY");
                       ("description", JObj [("text", JStr "Light rain")])])
                (JBool true) "WINDY" eq_refl).
  vm_compute in H. discriminate H.
Qed.

(** C4 (amended): in the forecast script's [pickSymbol] the icon is the
    one of the first typed rule that matches the upper-cased [type]; the
    description is looked at only when no typed rule matches, which is
    the case when the [type] field is absent and also when it holds a
    tag no rule knows; then the text rules decide alone.  The result
    never combines matches of the two lists. *)
Theorem Daily_pickSymbol_typed_first : forall host raw isDaytime,
  let day := truthy isDaytime in
  Daily.pickSymbol host raw isDaytime
  = and_then (Daily.getConditionType host raw)
      (fun type =>
         Normal
           match first_match typed_rules type day with
           | Some icon => icon
           | None => icon_by fallback_text_rules (condition_text raw) day
           end)
  /\ (forall tag icon,
        type_tag raw = Some tag ->
        first_match typed_rules tag day = Some icon ->
        Daily.pickSymbol host raw isDaytime = Normal icon)
  /\ (forall tag,
        type_tag raw = Some tag ->
        first_match typed_rules tag day = None ->
        Daily.pickSymbol host raw isDaytime
        = Normal (icon_by fallback_text_rules (condition_text raw) day))
  /\ (field raw "type" = None ->
      Daily.pickSymbol host raw isDaytime
      = Normal (icon_by fallback_text_rules (condition_text raw) day)).
Proof.
  intros host raw isDaytime day.
  pose proof (Daily_pickSymbol_rules host raw isDaytime) as E. fold day in E.
  split; [exact E|]. split; [|split].
  - intros tag icon Ht Hm.
    rewrite (getConditionType_tag host raw tag Ht) in E. cbn [and_then] in E.
    rewrite Hm in E. exact E.
  - intros tag Ht Hm.
    rewrite (getConditionType_tag host raw tag Ht) in E. cbn [and_then] in E.
    rewrite Hm in E. exact E.
  - intros Ha. rewrite (getConditionType_absent host raw Ha) in E. exact E.
Qed.

Lemma Daily_pickSymbol_typed_first_witness :
  let raw := JObj [("type", JStr "partly_cloudy");
                   ("description", JObj [("text", JStr "Light rain")])] in
  type_tag raw = Some "PARTLY_CLOUDY"
  /\ first_match typed_rules "PARTLY_CLOUDY" false = Some "cloud.moon.fill"
  /\ Daily.pickSymbol RefHost.host raw (JBool false) = Normal "cloud.moon.fill"
  /\ type_tag (JObj [("type", JStr "WINDY")]) = Some "WINDY"
  /\ first_match typed_rules "WINDY" true = None
  /\ Daily.pickSymbol RefHost.host (JObj [("type", JStr "WINDY")]) (JBool true)
     = Normal (icon_by fallback_text_rules "windy" true)
  /\ field (JStr "Light rain") "type" = None
  /\ Daily.pickSymbol RefHost.host (JStr "Light rain") (JBool true)
     = Normal (icon_by fallback_text_rules "light rain" true).
Proof.
  intros raw.
  split; [reflexivity|]. split; [reflexivity|]. split.
  - exact (proj1 (proj2 (Daily_pickSymbol_typed_first RefHost.host raw (JBool false)))
                 "PARTLY_CLOUDY" "cloud.moon.fill" eq_refl eq_refl).
  - split; [reflexivity|]. split; [reflexivity|]. split.
    + exact (proj1 (proj2 (proj2 (Daily_pickSymbol_typed_first RefHost.host
                                    (JObj [("type", JStr "WINDY")]) (JBool true))))
                   "WINDY" eq_refl eq_refl).
    + split; [reflexivity|].
      exact (proj2 (proj2 (proj2 (Daily_pickSymbol_typed_first RefHost.host
                                    (JStr "Light rain") (JBool true))))
                   eq_refl).
Defined.



(** ** Numbers *)

Lemma Qsign_nonneg q : (0 <= q)%Q -> (Qsign q <? 0) = false.
Proof.
  unfold Qle, Qsign. simpl. intros H. rewrite Z.mul_1_r in H.
  apply Z.ltb_ge. destruct (Qnum q); simpl; lia.
Qed.

Lemma Qtrunc_nonneg q : (0 <= q)%Q -> Qtrunc q = Qfloor q.
Proof. intros H. unfold Qtrunc. now rewrite (Qsign_nonneg q H). Qed.

Lemma Qmod_360_bounds d :
  (0 <= d)%Q -> (0 <= Qmod d (360 # 1) /\ Qmod d (360 # 1) < 360 # 1)%Q.
Proof.
  intros H. unfold Qmod.
  pose proof (Qlt_floor (d / (360 # 1))) as Hu.
  pose proof (Qfloor_le (d / (360 # 1))) as Hl.
  rewrite inject_Z_plus in Hu. change (inject_Z 1) with 1%Q in Hu.
  unfold Qdiv in *. change (/ (360 # 1))%Q with (1 # 360)%Q in *.
  set (f := inject_Z (Qfloor _)) in *. split; lra.
Qed.

Lemma round_sixteenths_bounds x :
  (0 <= x)%Q -> (x < 360 # 1)%Q ->
  0 <= round_half_up (x / (225 # 10)) <= 16.
Proof.
  intros H0 H1. unfold round_half_up.
  set (y := (x / (225 # 10) + (1 # 2))%Q).
  assert (Hy : (inject_Z 0 <= y /\ y <= 33 # 2)%Q).
  { unfold y, Qdiv. change (/ (225 # 10))%Q with (10 # 225)%Q.
    change (inject_Z 0) with 0%Q. split; lra. }
  destruct Hy as [Hy0 Hy1].
  apply Qfloor_resp_le in Hy0, Hy1. rewrite Qfloor_Z in Hy0.
  change (Qfloor (33 # 2)) with 16 in Hy1. lia.
Qed.

(** The index the code computes from a non-negative reading is the
    one of the formula, and it lies in the list. *)
Lemma compass_index_range d :
  (0 <= d)%Q -> 0 <= compass_index d < 16.
Proof. intros _. unfold compass_index. apply Z.mod_pos_bound. lia. Qed.

Lemma code_index_nonneg d :
  (0 <= d)%Q ->
  num_rem (Math_round (num_div (num_rem (Fin d) (num_of_Z 360)) (Fin (225 # 10))))
          (num_of_Z 16)
  = num_of_Z (compass_index d).
Proof.
  intros Hd. unfold compass_index.
  destruct (Qmod_360_bounds d Hd) as [Hm0 Hm1].
  pose proof (round_sixteenths_bounds _ Hm0 Hm1) as Hk.
  assert (E : Math_round (num_div (num_rem (Fin d) (num_of_Z 360)) (Fin (225 # 10)))
              = num_of_Z (round_half_up (Qmod d (360 # 1) / (225 # 10)))).
  { unfold num_rem, num_of_Z, num_div, Math_round, round_half_up.
    change (Qsign (inject_Z 360) =? 0) with false.
    change (Qsign (225 # 10) =? 0) with false. cbv iota.
    change (inject_Z 360) with (360 # 1)%Q.
    rewrite Qtrunc_nonneg.
    2:{ unfold Qdiv. change (/ (360 # 1))%Q with (1 # 360)%Q. lra. }
    fold (Qmod d (360 # 1)).
    do 2 f_equal. apply Qfloor_comp. now rewrite !Qred_correct. }
  rewrite E. clear E.
  set (k := round_half_up (Qmod d (360 # 1) / (225 # 10))) in *.
  assert (Hcases : k = 0 \/ k = 1 \/ k = 2 \/ k = 3 \/ k = 4 \/ k = 5 \/ k = 6
                   \/ k = 7 \/ k = 8 \/ k = 9 \/ k = 10 \/ k = 11 \/ k = 12
                   \/ k = 13 \/ k = 14 \/ k = 15 \/ k = 16) by lia.
  clearbody k.
  repeat (destruct Hcases as [-> | Hcases]; [reflexivity|]).
  subst k. reflexivity.
Qed.

Lemma compass_entry host i :
  0 <= i < 16 ->
  prop (JArr dirs) (NumberToString host (num_of_Z i))
  = JStr (nth (Z.to_nat i) compass "")
  /\ truthy (JStr (nth (Z.to_nat i) compass "")) = true.
Proof.
  intros Hi.
  assert (Hcases : i = 0 \/ i = 1 \/ i = 2 \/ i = 3 \/ i = 4 \/ i = 5 \/ i = 6
                   \/ i = 7 \/ i = 8 \/ i = 9 \/ i = 10 \/ i = 11 \/ i = 12
                   \/ i = 13 \/ i = 14 \/ i = 15) by lia.
  repeat (destruct Hcases as [-> | Hcases]; [split; reflexivity|]).
  subst i. split; reflexivity.
Qed.

Lemma degToDir_nonneg host deg d :
  nullish deg = false -> ToNumber host deg = Normal (Fin d) -> (0 <= d)%Q ->
  degToDir host deg = Normal (JStr (compass_label d)).
Proof.
  intros Hn Ht Hd. unfold degToDir, isNaN.
  rewrite Hn, Ht. cbn [and_then num_isNaN].
  rewrite (code_index_nonneg d Hd). f_equal.
  apply (compass_entry host (compass_index d) (compass_index_range d Hd)).
Qed.

Lemma degToDir_absent host deg :
  nullish deg = true \/ isNaN host deg = Normal true ->
  degToDir host deg = Normal (JStr "").
Proof.
  intros H. unfold degToDir.
  destruct (nullish deg); [reflexivity|].
  destruct H as [H | H]; [discriminate | now rewrite H].
Qed.

(** A reading that does not convert to a number ends [degToDir] with
    the TypeError of the conversion. *)
Lemma degToDir_raises host deg :
  nullish deg = false -> convertible deg = false ->
  degToDir host deg = Throw cannot_convert.
Proof.
  intros Hn Hc. unfold degToDir, isNaN, ToNumber. now rewrite Hn, Hc.
Qed.

(** [degToDir] returns a string or [undefined], which convert. *)
Lemma degToDir_text host deg v :
  degToDir host deg = Normal v -> convertible v = true.
Proof.
  unfold degToDir.
  destruct (nullish deg); [now intros [= <-]|].
  destruct (isNaN host deg) as [[|]|e]; cbn [and_then];
    [now intros [= <-] | | discriminate].
  destruct (ToNumber host deg) as [n|e]; cbn [and_then]; [|discriminate].
  intros [= <-]. unfold prop.
  destruct (array_index _) as [i|].
  - destruct (_ <? _)%N; [|reflexivity].
    generalize (N.to_nat i). intros k. unfold dirs. cbn [map].
    do 16 (destruct k as [|k]; [reflexivity|]).
    destruct k; reflexivity.
  - destruct (String.eqb _ "length"); [reflexivity|].
    unfold inherited.
    destruct (mem_string _ Array_prototype); [reflexivity|].
    destruct (mem_string _ Object_prototype); reflexivity.
Qed.
(** ** Wind *)

Lemma g2_at_path obj path :
  plain_path path = true -> g2 obj path = at_path obj path.
Proof. intros H. unfold g2, at_path. now apply g_safe_get. Qed.

Lemma fmtWind_shape host wind :
  fmtWind host wind =
    if nullish (at_path wind "speed.value") then Normal "—"
    else
      (dirTxt <~ degToDir host (at_path wind "direction.degrees") ;;
       n <~ ToNumber host (at_path wind "speed.value") ;;
       Normal (NumberToString host (Math_round n)
                 ++ " " ++ unit_symbol (at_path wind "speed.unit")
                 ++ (if truthy dirTxt then " " ++ text_of host dirTxt
                     else "")))%completion.
Proof.
  unfold fmtWind.
  rewrite (g2_at_path wind "speed.value" eq_refl).
  rewrite (g2_at_path wind "speed.unit" eq_refl).
  rewrite (g2_at_path wind "direction.degrees" eq_refl).
  destruct (nullish (at_path wind "speed.value")); [reflexivity|].
  destruct (degToDir host (at_path wind "direction.degrees")) as [dirTxt|e] eqn:Ed;
    [|reflexivity].
  cbn [and_then].
  destruct (ToNumber host (at_path wind "speed.value")) as [n|e]; [|reflexivity].
  cbn [and_then]. unfold ToString.
  rewrite (degToDir_text host _ dirTxt Ed).
  destruct (truthy dirTxt); reflexivity.
Qed.

Lemma unit_symbol_other u :
  u <> JStr "MILE_PER_HOUR" -> u <> JStr "METER_PER_SECOND" ->
  unit_symbol u = "km/h".
Proof.
  intros H1 H2. unfold unit_symbol.
  destruct u as [| |b|n|s|items|props|nm]; try reflexivity.
  cbn [strict_eq_str].
  destruct (String.eqb_spec s "MILE_PER_HOUR") as [->|_]; [now contradiction H1|].
  destruct (String.eqb_spec s "METER_PER_SECOND") as [->|_];
    [now contradiction H2 | reflexivity].
Qed.

(** [fmtWind] by cases of the speed and of the degrees. *)
Lemma fmtWind_cases host wind :
  let speed := at_path wind "speed.value" in
  let unit := at_path wind "speed.unit" in
  let deg := at_path wind "direction.degrees" in
  (nullish speed = true -> fmtWind host wind = Normal "—")
  /\ (forall n,
        nullish speed = false -> ToNumber host speed = Normal n ->
        let head :=
          (NumberToString host (Math_round n) ++ " " ++ unit_symbol unit)%string in
        (nullish deg = true \/ isNaN host deg = Normal true ->
         fmtWind host wind = Normal head)
        /\ (forall d,
              nullish deg = false -> ToNumber host deg = Normal (Fin d) ->
              (0 <= d)%Q ->
              fmtWind host wind = Normal (head ++ " " ++ compass_label d)%string)).
Proof.
  intros speed unit deg.
  pose proof (fmtWind_shape host wind) as E.
  fold speed unit deg in E.
  split.
  - intros Hs. now rewrite Hs in E.
  - intros n Hs Hn head. rewrite Hs, Hn in E. split.
    + intros Hd. rewrite (degToDir_absent host deg Hd) in E.
      cbn [and_then truthy String.eqb negb] in E. rewrite E. unfold head.
      now rewrite append_empty.
    + intros d Hnd Ht Hd. rewrite (degToDir_nonneg host deg d Hnd Ht Hd) in E.
      cbn [and_then] in E.
      destruct (compass_entry host (compass_index d) (compass_index_range d Hd))
        as [_ Htruthy].
      fold (compass_label d) in Htruthy. rewrite Htruthy in E.
      cbn [text_of] in E. rewrite E. unfold head.
      rewrite append_assoc. reflexivity.
Qed.

(** C6: the claim does not hold of the code at a reading below zero.
    For the wind [{speed:{value:3}, direction:{degrees:-45}}] the
    formula round((deg mod 360) / 22.5) mod 16 gives the index 14 and
    the label "NW"; in the script the remainder [%] keeps the sign of
    the reading, the index is -2, [dirs[-2]] is [undefined] and
    [fmtWind] appends no label at all: "3 km/h". *)
Theorem fmtWind_negative_degrees :
  let wind := JObj [("speed", JObj [("value", JInt 3)]);
                    ("direction", JObj [("degrees", JInt (-45))])] in
  at_path wind "speed.value" = JInt 3
  /\ at_path wind "direction.degrees" = JInt (-45)
  /\ compass_index (-45 # 1) = 14
  /\ compass_label (-45 # 1) = "NW"
  /\ num_rem (Math_round (num_div (num_rem (num_of_Z (-45)) (num_of_Z 360))
                                  (Fin (225 # 10))))
             (num_of_Z 16)
     = num_of_Z (-2)
  /\ degToDir RefHost.host (JInt (-45)) = Normal JUndefined
  /\ fmtWind RefHost.host wind = Normal "3 km/h"
  /\ fmtWind RefHost.host wind
     <> Normal (NumberToString RefHost.host (num_of_Z (round_half_up (3 # 1)))
                  ++ " " ++ unit_symbol (at_path wind "speed.unit")
                  ++ " " ++ compass_label (-45 # 1))%string.
Proof.
  intros wind. repeat split; try reflexivity.
  vm_compute. discriminate.
Qed.
(** ** Temperature and colour scheme *)

Lemma num_ge_int a b : num_ge (num_of_Z a) (num_of_Z b) = (b <=? a).
Proof.
  unfold num_ge, num_lt, num_eq, num_of_Z.
  destruct (Z.leb_spec b a) as [H | H].
  - destruct (Qeq_bool (inject_Z a) (inject_Z b)) eqn:E; [apply orb_true_r|].
    rewrite orb_false_r. apply negb_true_iff.
    destruct (Qle_bool (inject_Z a) (inject_Z b)) eqn:L; [|reflexivity].
    apply Qle_bool_iff in L. rewrite <- Zle_Qle in L.
    assert (a = b) by lia. subst b.
    assert (T : Qeq_bool (inject_Z a) (inject_Z a) = true)
      by (apply Qeq_bool_iff; reflexivity).
    congruence.
  - apply orb_false_iff. split.
    + apply negb_false_iff. apply Qle_bool_iff. rewrite <- Zle_Qle. lia.
    + destruct (Qeq_bool (inject_Z a) (inject_Z b)) eqn:E; [|reflexivity].
      apply Qeq_bool_iff in E. rewrite inject_Z_injective in E. lia.
Qed.

(** *** Doubles: an operation on numbers gives a number *)

Lemma round_to_double_number q : num_isNaN (round_to_double q) = false.
Proof.
  unfold round_to_double. cbv zeta.
  repeat match goal with
         | |- context [if ?b then _ else _] => destruct b
         end; reflexivity.
Qed.

Lemma fl_number a : num_isNaN a = false -> num_isNaN (fl a) = false.
Proof.
  destruct a as [| | |q]; try (intros H; exact H).
  intros _. apply round_to_double_number.
Qed.

Lemma fl_32 : fl (num_of_Z 32) = num_of_Z 32.
Proof. vm_compute. reflexivity. Qed.

Lemma fl_5 : fl (num_of_Z 5) = num_of_Z 5.
Proof. vm_compute. reflexivity. Qed.

Lemma fl_9 : fl (num_of_Z 9) = num_of_Z 9.
Proof. vm_compute. reflexivity. Qed.

Lemma double_sub_32_number a :
  num_isNaN a = false -> num_isNaN (double_sub a (num_of_Z 32)) = false.
Proof.
  intros H. unfold double_sub. rewrite fl_32. apply fl_number.
  apply fl_number in H. destruct (fl a); try discriminate; reflexivity.
Qed.

Lemma double_mul_5_number a :
  num_isNaN a = false -> num_isNaN (double_mul a (num_of_Z 5)) = false.
Proof.
  intros H. unfold double_mul. rewrite fl_5. apply fl_number.
  apply fl_number in H. destruct (fl a); try discriminate; reflexivity.
Qed.

Lemma double_div_9_number a :
  num_isNaN a = false -> num_isNaN (double_div a (num_of_Z 9)) = false.
Proof.
  intros H. unfold double_div. rewrite fl_9. apply fl_number.
  apply fl_number in H. destruct (fl a); try discriminate; reflexivity.
Qed.

Lemma Math_round_whole a :
  num_isNaN a = false ->
  (exists c, Math_round a = num_of_Z c) \/ Math_round a = PInf \/ Math_round a = NInf.
Proof.
  destruct a as [| | |q]; try discriminate; intros _.
  - right. left. reflexivity.
  - right. right. reflexivity.
  - left. eexists. reflexivity.
Qed.

(** The Celsius value is a whole number of degrees, or an infinity
    when the product of a very large reading overflows. *)
Lemma celsius_whole unit v :
  (exists c, celsius unit v = num_of_Z c)
  \/ celsius unit v = PInf \/ celsius unit v = NInf.
Proof.
  unfold celsius. destruct (strict_eq_str unit "FAHRENHEIT").
  - apply Math_round_whole, double_div_9_number, double_mul_5_number,
      double_sub_32_number. reflexivity.
  - apply Math_round_whole. reflexivity.
Qed.

Lemma parseTempC_shape host tempObj :
  parseTempC host tempObj =
    if nullish (at_path tempObj "degrees") then Normal JNull
    else
      (n <~ ToNumber host (at_path tempObj "degrees") ;;
       Normal
         (JNum (if strict_eq_str (at_path tempObj "unit") "FAHRENHEIT"
                then Math_round
                       (double_div (double_mul (double_sub n (num_of_Z 32))
                                               (num_of_Z 5))
                                   (num_of_Z 9))
                else Math_round n)))%completion.
Proof.
  unfold parseTempC.
  rewrite (g2_at_path tempObj "degrees" eq_refl).
  rewrite (g2_at_path tempObj "unit" eq_refl).
  destruct (nullish _); [reflexivity|].
  destruct (strict_eq_str _ _); reflexivity.
Qed.

Lemma parseTempC_number host tempObj v :
  at_path tempObj "degrees" = JNum (Fin v) ->
  parseTempC host tempObj = Normal (JNum (celsius (at_path tempObj "unit") v)).
Proof.
  intros Hv. rewrite parseTempC_shape, Hv. unfold celsius.
  cbn [nullish ToNumber convertible number_of and_then].
  destruct (strict_eq_str (at_path tempObj "unit") "FAHRENHEIT"); reflexivity.
Qed.

(** [parseTempC] returns a number or [null], or raises. *)
Lemma parseTempC_value host tempObj t :
  parseTempC host tempObj = Normal t -> t = JNull \/ exists n, t = JNum n.
Proof.
  rewrite parseTempC_shape.
  destruct (nullish _); [intros [= <-]; now left|].
  destruct (ToNumber host _) as [n|e]; cbn [and_then]; [|discriminate].
  intros [= <-]. right. eexists. reflexivity.
Qed.

Lemma Daily_gradient_int host c :
  Daily.gradientFor host (JInt c) = Normal (gradient_of (scheme_for (Some c))).
Proof.
  unfold Daily.gradientFor, JInt, scheme_for, gradient_of.
  cbn [nullish negb ToNumber convertible number_of and_then].
  rewrite !num_ge_int.
  destruct (Z.leb_spec 24 c), (Z.leb_spec 10 c), (Z.ltb_spec c 10),
    (Z.leb_spec c 23); try lia; reflexivity.
Qed.

Lemma Daily_gradient_absent host :
  Daily.gradientFor host JNull = Normal (gradient_of Cold).
Proof. reflexivity. Qed.

Lemma Daily_gradient_infinite host :
  Daily.gradientFor host (JNum PInf) = Normal (gradient_of Hot)
  /\ Daily.gradientFor host (JNum NInf) = Normal (gradient_of Cold).
Proof. split; reflexivity. Qed.

Lemma Current_gradient_day host tempC isDay :
  truthy isDay = true ->
  Current.gradientFor host tempC isDay = Daily.gradientFor host tempC.
Proof.
  intros H. unfold Current.gradientFor, Daily.gradientFor.
  rewrite H. reflexivity.
Qed.

Lemma Current_gradient_night host tempC isDay :
  truthy isDay = false -> nullish tempC || convertible tempC = true ->
  Current.gradientFor host tempC isDay = Normal (gradient_of Night).
Proof.
  intros H Hc. unfold Current.gradientFor, ToNumber. rewrite H.
  destruct (nullish tempC); [reflexivity|].
  cbn [orb] in Hc. rewrite Hc. cbn [negb and_then].
  destruct (num_ge _ _); [reflexivity|].
  destruct (num_ge _ _); reflexivity.
Qed.

(** C7: the colour scheme is keyed by the Celsius-converted reading --
    FAHRENHEIT gives round((v - 32) * 5 / 9), in the arithmetic of the
    language (doubles), any other unit round(v), absent degrees an
    absent value -- with below 10 cold, 10 through 23 mild, 24 and above
    hot, and cold for an absent temperature; in the current-conditions
    script, and only there, a false [isDaytime] replaces the result by
    the night scheme whatever the temperature.  The Celsius value is a
    whole number, or an infinity where the conversion overflows (hot
    above, cold below).  In doubles 74.3 F is 23.5, so 24 and hot, and
    41.9 F is just below 5.5, so 5. *)
Theorem color_scheme_by_celsius : forall host tempObj isDay,
  let degrees := at_path tempObj "degrees" in
  let unit := at_path tempObj "unit" in
  let tempC := parseTempC host tempObj in
  let daily := and_then tempC (Daily.gradientFor host) in
  let current := and_then tempC (fun t => Current.gradientFor host t isDay) in
  (nullish degrees = true ->
     tempC = Normal JNull
     /\ daily = Normal (gradient_of Cold)
     /\ (truthy isDay = true -> current = Normal (gradient_of Cold)))
  /\ (forall v,
        degrees = JNum (Fin v) ->
        tempC = Normal (JNum (celsius unit v))
        /\ (forall c,
              celsius unit v = num_of_Z c ->
              daily = Normal (gradient_of (scheme_for (Some c)))
              /\ (truthy isDay = true ->
                  current = Normal (gradient_of (scheme_for (Some c)))))
        /\ (celsius unit v = PInf ->
            daily = Normal (gradient_of Hot)
            /\ (truthy isDay = true -> current = Normal (gradient_of Hot)))
        /\ (celsius unit v = NInf ->
            daily = Normal (gradient_of Cold)
            /\ (truthy isDay = true -> current = Normal (gradient_of Cold))))
  /\ (forall u v,
        (exists c, celsius u v = num_of_Z c)
        \/ celsius u v = PInf \/ celsius u v = NInf)
  /\ (truthy isDay = false ->
      current = and_then tempC (fun _ => Normal (gradient_of Night)))
  /\ (forall n,
        truthy isDay = false ->
        Current.gradientFor host (JNum n) isDay = Normal (gradient_of Night)
        /\ Current.gradientFor host JNull isDay = Normal (gradient_of Night))
  /\ (forall v,
        celsius (JStr "FAHRENHEIT") v
        = Math_round (double_div (double_mul (double_sub (Fin v) (num_of_Z 32))
                                             (num_of_Z 5))
                                 (num_of_Z 9))
        /\ celsius (JStr "CELSIUS") v = num_of_Z (round_half_up v))
  /\ (celsius (JStr "FAHRENHEIT") (50 # 1) = num_of_Z 10
      /\ celsius (JStr "FAHRENHEIT") (986 # 10) = num_of_Z 37
      /\ celsius (JStr "FAHRENHEIT") (743 # 10) = num_of_Z 24
      /\ celsius (JStr "FAHRENHEIT") (419 # 10) = num_of_Z 5)
  /\ (forall c,
        (c < 10 -> scheme_for (Some c) = Cold)
        /\ (10 <= c <= 23 -> scheme_for (Some c) = Mild)
        /\ (24 <= c -> scheme_for (Some c) = Hot))
  /\ scheme_for None = Cold
  /\ (forall s, colors (gradient_of s) = palette s).
Proof.
  intros host tempObj isDay degrees unit tempC daily current.
  split; [|split; [|split; [|split; [|split; [|split; [|split; [|split; [|split]]]]]]]].
  - intros Hn.
    assert (E : tempC = Normal JNull).
    { unfold tempC. rewrite parseTempC_shape. fold degrees. now rewrite Hn. }
    unfold daily, current. rewrite E. cbn [and_then].
    split; [reflexivity|]. split; [reflexivity|].
    intros Hd. now rewrite (Current_gradient_day host JNull isDay Hd).
  - intros v Hv.
    assert (E : tempC = Normal (JNum (celsius unit v)))
      by (apply parseTempC_number; exact Hv).
    unfold daily, current. rewrite E. cbn [and_then].
    split; [reflexivity|]. split; [|split].
    + intros c Hc. rewrite Hc. fold (JInt c).
      split; [apply Daily_gradient_int|].
      intros Hd. rewrite (Current_gradient_day host _ isDay Hd).
      apply Daily_gradient_int.
    + intros Hc. rewrite Hc. split; [reflexivity|].
      intros Hd. now rewrite (Current_gradient_day host _ isDay Hd).
    + intros Hc. rewrite Hc. split; [reflexivity|].
      intros Hd. now rewrite (Current_gradient_day host _ isDay Hd).
  - intros u v. apply celsius_whole.
  - intros Hd. unfold current.
    destruct tempC as [t|e] eqn:E; [|reflexivity]. cbn [and_then].
    apply (Current_gradient_night host t isDay Hd).
    destruct (parseTempC_value host tempObj t E) as [-> | [n ->]]; reflexivity.
  - intros n Hd.
    split; apply (Current_gradient_night host _ isDay Hd); reflexivity.
  - intros v. split; reflexivity.
  - repeat split; vm_compute; reflexivity.
  - intros c. unfold scheme_for.
    destruct (Z.ltb_spec c 10), (Z.leb_spec c 23); repeat split; intros; try lia;
      reflexivity.
  - reflexivity.
  - intros s. reflexivity.
Qed.

Lemma color_scheme_by_celsius_witness :
  let body := JObj [("degrees", JNum (Fin (743 # 10))); ("unit", JStr "FAHRENHEIT")] in
  let warm := and_then (parseTempC RefHost.host body) (Daily.gradientFor RefHost.host) in
  at_path body "degrees" = JNum (Fin (743 # 10))
  /\ celsius (at_path body "unit") (743 # 10) = num_of_Z 24
  /\ parseTempC RefHost.host body = Normal (JInt 24)
  /\ warm = Normal (gradient_of Hot)
  /\ truthy (JBool true) = true
  /\ and_then (parseTempC RefHost.host body)
       (fun t => Current.gradientFor RefHost.host t (JBool true))
     = Normal (gradient_of Hot)
  /\ truthy (JBool false) = false
  /\ and_then (parseTempC RefHost.host body)
       (fun t => Current.gradientFor RefHost.host t (JBool false))
     = Normal (gradient_of Night)
  /\ nullish (at_path (JObj []) "degrees") = true
  /\ and_then (parseTempC RefHost.host (JObj [])) (Daily.gradientFor RefHost.host)
     = Normal (gradient_of Cold)
  /\ (10 <= 10 <= 23) /\ scheme_for (Some 10) = Mild
  /\ (24 <= 24) /\ scheme_for (Some 24) = Hot
  /\ (5 < 10) /\ scheme_for (Some 5) = Cold.
Proof.
  intros body warm.
  pose proof (color_scheme_by_celsius RefHost.host body (JBool true)) as Hday.
  pose proof (color_scheme_by_celsius RefHost.host body (JBool false)) as Hnight.
  pose proof (color_scheme_by_celsius RefHost.host (JObj []) (JBool true)) as Hnone.
  cbv zeta in Hday, Hnight, Hnone.
  destruct Hday as (_ & Hnum & _ & _ & _ & _ & _ & Hscheme & _).
  destruct Hnight as (_ & _ & _ & Hdark & _).
  destruct Hnone as (Habsent & _).
  destruct (Hnum (743 # 10)%Q eq_refl) as (H1 & H2 & _).
  assert (Hc : celsius (at_path body "unit") (743 # 10) = num_of_Z 24)
    by (vm_compute; reflexivity).
  destruct (H2 24 Hc) as [H3 H4].
  split; [reflexivity|]. split; [exact Hc|].
  split; [rewrite H1, Hc; reflexivity|]. split; [exact H3|].
  split; [reflexivity|]. split; [exact (H4 eq_refl)|].
  split; [reflexivity|]. split; [rewrite (Hdark eq_refl), H1; reflexivity|].
  split; [reflexivity|]. split; [exact (proj1 (proj2 (Habsent eq_refl)))|].
  split; [lia|]. split; [apply (proj1 (proj2 (Hscheme 10))); lia|].
  split; [lia|]. split; [apply (proj2 (proj2 (Hscheme 24))); lia|].
  split; [lia|]. apply (proj1 (Hscheme 5)); lia.
Defined.
(** ** The forecast widget without days *)

Lemma forecastDays_getter forecast :
  g forecast "forecastDays" (JArr []) =
    match field forecast "forecastDays" with
    | Some v => if nullish v then JArr [] else v
    | None => JArr []
    end.
Proof.
  rewrite (g_safe_get forecast "forecastDays" (JArr []) eq_refl).
  unfold safe_get, supplied.
  change (split "." "forecastDays") with ["forecastDays"]. unfold value_at.
  destruct (field forecast "forecastDays"); reflexivity.
Qed.

(** C10: when the payload has no [forecastDays], or holds something
    that is no array there, or an empty array, the forecast script's
    [buildWidget] completes without raising and yields the placeholder
    widget with the text "No forecast data"; no clock is read and no
    per-day field enters the result. *)
Theorem Daily_buildWidget_no_days : forall host forecast placeName w,
  forecast_days forecast = None \/ forecast_days forecast = Some [] ->
  Daily.buildWidget host forecast placeName w = (Normal Daily.placeholder, w)
  /\ elements Daily.placeholder
     = [Text "No forecast data" (boldSystemFont 14) red None None].
Proof.
  intros host forecast placeName w H. split; [|reflexivity].
  unfold Daily.buildWidget. rewrite forecastDays_getter.
  unfold forecast_days in H.
  destruct (field forecast "forecastDays") as [v|]; [|reflexivity].
  destruct v as [| |b|n|s|items|props|nm]; try reflexivity.
  destruct H as [H | H]; [discriminate H|].
  injection H as ->. reflexivity.
Qed.

Lemma Daily_buildWidget_no_days_witness :
  let w := RefHost.world None 1700000000000 RefHost.offline in
  forecast_days (JObj [("forecastDays", JArr [])]) = Some []
  /\ Daily.buildWidget RefHost.host (JObj [("forecastDays", JArr [])]) "Home" w
     = (Normal Daily.placeholder, w)
  /\ forecast_days (JObj [("timeZone", JObj [])]) = None
  /\ Daily.buildWidget RefHost.host (JObj [("timeZone", JObj [])]) "Home" w
     = (Normal Daily.placeholder, w).
Proof.
  intros w. split; [reflexivity|]. split.
  - exact (proj1 (Daily_buildWidget_no_days RefHost.host
                    (JObj [("forecastDays", JArr [])]) "Home" w (or_intror eq_refl))).
  - split; [reflexivity|].
    exact (proj1 (Daily_buildWidget_no_days RefHost.host
                    (JObj [("timeZone", JObj [])]) "Home" w (or_introl eq_refl))).
Defined.

(** ** The cache *)

Lemma minutes_expired now t ttl :
  num_gt (num_div (num_sub (num_of_Z now) (num_of_Z t)) (num_of_Z 60000))
         (num_of_Z ttl)
  = (ttl * 60000 <? now - t).
Proof.
  unfold num_gt, num_lt, num_div, num_sub, num_add, num_neg, num_of_Z.
  change (Qsign (inject_Z 60000) =? 0) with false. cbv iota.
  set (a := Qred (Qred (inject_Z now + Qred (- inject_Z t)) / inject_Z 60000)).
  assert (Ha : (a == (inject_Z now - inject_Z t) * (1 # 60000))%Q).
  { unfold a. rewrite !Qred_correct. reflexivity. }
  destruct (Z.ltb_spec (ttl * 60000) (now - t)) as [H | H].
  - apply negb_true_iff.
    destruct (Qle_bool a (inject_Z ttl)) eqn:L; [|reflexivity].
    apply Qle_bool_iff in L. rewrite Ha in L.
    assert (L' : (inject_Z (now - t) <= inject_Z (ttl * 60000))%Q).
    { unfold Z.sub. rewrite inject_Z_plus, inject_Z_opp, inject_Z_mult.
      change (inject_Z 60000) with (60000 # 1)%Q. lra. }
    rewrite <- Zle_Qle in L'. lia.
  - apply negb_false_iff. apply Qle_bool_iff. rewrite Ha.
    assert (L' : (inject_Z (now - t) <= inject_Z (ttl * 60000))%Q)
      by (rewrite <- Zle_Qle; exact H).
    unfold Z.sub in L'. rewrite inject_Z_plus, inject_Z_opp, inject_Z_mult in L'.
    change (inject_Z 60000) with (60000 # 1)%Q in L'. lra.
Qed.

(** What [readCache] returns and what it leaves behind: it never
    raises, and never touches the file. *)
Lemma readCache_value host ttl w :
  exists w',
    Shared.readCache host ttl w
    = (Normal (cached_value host ttl (file w) (now w)), w')
    /\ file w' = file w /\ writable w' = writable w /\ time w' = time w
    /\ network w' = network w
    /\ (ticks w' = ticks w \/ ticks w' = S (ticks w)).
Proof.
  unfold Shared.readCache, cached_value, bind, fileExists, try_catch, readString,
    parse_json, ret, throw.
  destruct (file w) as [s|] eqn:Hf; cbn [negb].
  2:{ exists w. rewrite Hf. repeat split; auto. }
  rewrite Hf.
  destruct (JSON_parse host s) as [record|].
  2:{ exists w. rewrite Hf. repeat split; auto. }
  unfold lift, member.
  rewrite (prop_plain record "timestamp" eq_refl).
  rewrite (prop_plain record "data" eq_refl).
  destruct (nullish record) eqn:Hn.
  { exists w. rewrite Hf.
    destruct record; try discriminate Hn; repeat split; auto. }
  unfold stored_data.
  destruct (field record "timestamp") as [timestamp|];
    cbn [truthy negb].
  2:{ exists w. rewrite Hf. repeat split; auto. }
  destruct (truthy timestamp); cbn [negb andb].
  2:{ exists w. rewrite Hf. repeat split; auto. }
  unfold Date_now, age_minutes, now, ToNumber.
  destruct (convertible timestamp).
  2:{ exists (set_ticks w (S (ticks w))). repeat split; auto. }
  destruct (num_gt _ _);
    exists (set_ticks w (S (ticks w))); repeat split; auto.
Qed.

Lemma cached_value_numeric host ttl s props t clock :
  JSON_parse host s = Some (JObj props) ->
  own_lookup "timestamp" props = Some (JInt t) ->
  t <> 0 ->
  cached_value host ttl (Some s) clock
  = if ttl * 60000 <? clock - t then JNull else stored_data (JObj props).
Proof.
  intros Hp Ht Hz. unfold cached_value. rewrite Hp. cbn [field]. rewrite Ht.
  unfold JInt at 1. cbn [truthy num_of_Z].
  assert (Hs : (Qsign (inject_Z t) =? 0) = false).
  { unfold Qsign. simpl. apply Z.eqb_neq. destruct t; simpl; lia. }
  rewrite Hs. cbn [negb convertible andb].
  unfold age_minutes, JInt. cbn [number_of].
  now rewrite minutes_expired.
Qed.

(** C2: the claim does not hold of the code at a record whose
    timestamp is no number.  The file [{"timestamp":"x","data":1}]
    exists, parses and carries a timestamp; its age is NaN, which is
    not at most the lifetime, so the claim has [readCache] return
    absent.  In the script [NaN > CACHE_MIN] is false, the record is
    not dropped and the stored data comes back, in both scripts. *)
Theorem readCache_timestamp_not_a_number :
  let content := RefHost.file_of (JStr "x") (JInt 1) in
  let w := RefHost.world (Some content) 1700000000000 RefHost.offline in
  JSON_parse RefHost.host content
  = Some (JObj [("timestamp", JStr "x"); ("data", JInt 1)])
  /\ age_minutes RefHost.host (now w) (JStr "x") = NaN
  /\ num_le NaN (num_of_Z Current.CACHE_MIN) = false
  /\ num_gt NaN (num_of_Z Current.CACHE_MIN) = false
  /\ cache_as_stated RefHost.host Current.CACHE_MIN (file w) (now w) = JNull
  /\ cache_as_stated RefHost.host Daily.CACHE_MIN (file w) (now w) = JNull
  /\ fst (Current.readCache RefHost.host w) = Normal (JInt 1)
  /\ fst (Daily.readCache RefHost.host w) = Normal (JInt 1).
Proof.
  intros content w. repeat split; vm_compute; reflexivity.
Qed.

(** What [writeCache] does: it never raises; it reads the clock once
    and, when the host accepts the write, replaces the file. *)
Lemma writeCache_effect host data w :
  Shared.writeCache host data w
  = (Normal tt,
     if writable w
     then set_file (set_ticks w (S (ticks w)))
            (Some (JSON_stringify host (cache_record (now w) data)))
     else set_ticks w (S (ticks w))).
Proof.
  unfold Shared.writeCache, try_catch, bind, Date_now, writeString, ret, now.
  cbn [writable set_ticks]. now destruct (writable w).
Qed.

(** C8: after [writeCache(data)] has written the record (the host
    accepted the write, at a clock reading other than 0, and the
    record survives the JSON round trip, which is what serialisable
    means), a [readCache] that follows within the lifetime returns the
    very data that was written. *)
Theorem write_then_read : forall host ttl data w,
  writable w = true ->
  now w <> 0 ->
  JSON_parse host (JSON_stringify host (cache_record (now w) data))
    = Some (cache_record (now w) data) ->
  time w (S (ticks w)) - now w <= ttl * 60000 ->
  let written := snd (Shared.writeCache host data w) in
  file written = Some (JSON_stringify host (cache_record (now w) data))
  /\ fst (Shared.readCache host ttl written) = Normal data
  /\ Current.writeCache host = Shared.writeCache host
  /\ Daily.writeCache host = Shared.writeCache host.
Proof.
  intros host ttl data w Hw Hz Hrt Hage written.
  unfold written. rewrite writeCache_effect, Hw. cbn [snd].
  split; [reflexivity|]. split; [|split; reflexivity].
  set (w1 := set_file _ _).
  destruct (readCache_value host ttl w1) as (w' & E & _).
  rewrite E. cbn [fst]. f_equal.
  change (file w1) with (Some (JSON_stringify host (cache_record (now w) data))).
  change (now w1) with (time w (S (ticks w))).
  rewrite (cached_value_numeric host ttl _ _ (now w) _ Hrt eq_refl Hz).
  destruct (Z.ltb_spec (ttl * 60000) (time w (S (ticks w)) - now w)); [lia|].
  reflexivity.
Qed.

Lemma write_then_read_witness :
  let data := JObj [("temperature",
                     JObj [("degrees", JNum (Fin (137 # 10)));
                           ("unit", JStr "CELSIUS")]);
                    ("isDaytime", JBool true)] in
  let w := RefHost.world None 1700000000000 RefHost.offline in
  writable w = true
  /\ now w <> 0
  /\ JSON_parse RefHost.host
       (JSON_stringify RefHost.host (cache_record (now w) data))
     = Some (cache_record (now w) data)
  /\ time w (S (ticks w)) - now w <= 5 * 60000
  /\ fst (Shared.readCache RefHost.host 5
            (snd (Shared.writeCache RefHost.host data w))) = Normal data.
Proof.
  intros data w.
  assert (Hz : now w <> 0) by (vm_compute; discriminate).
  assert (Hrt : JSON_parse RefHost.host
                  (JSON_stringify RefHost.host (cache_record (now w) data))
                = Some (cache_record (now w) data)) by (vm_compute; reflexivity).
  assert (Hage : time w (S (ticks w)) - now w <= 5 * 60000)
    by (vm_compute; discriminate).
  split; [reflexivity|]. split; [exact Hz|]. split; [exact Hrt|].
  split; [exact Hage|].
  exact (proj1 (proj2 (write_then_read RefHost.host 5 data w eq_refl Hz Hrt Hage))).
Defined.

(** ** The fetch-or-cache decision *)

Lemma fetch_pure w : snd (fetch w) = w.
Proof.
  unfold fetch. destruct (loadJSON (network w)); [|reflexivity].
  destruct (statusCode (network w)) as [code|]; [|reflexivity].
  now destruct (negb (code =? 0) && (400 <=? code)).
Qed.

Lemma fetch_network w w' : network w' = network w -> fst (fetch w') = fst (fetch w).
Proof.
  intros H. unfold fetch. rewrite H.
  destruct (loadJSON (network w)); [|reflexivity].
  destruct (statusCode (network w)) as [code|]; [|reflexivity].
  now destruct (negb (code =? 0) && (400 <=? code)).
Qed.

(** The decision, case by case. *)
Lemma settle_cases host ttl w :
  let cached := cached_value host ttl (file w) (now w) in
  let stamp := now (snd (Shared.readCache host ttl w)) in
  match fst (fetch w) with
  | Normal fresh =>
      exists w',
        Shared.settle host ttl w = (Normal fresh, w')
        /\ file w' = if writable w
                     then Some (JSON_stringify host (cache_record stamp fresh))
                     else file w
  | Throw netErr =>
      exists w',
        Shared.settle host ttl w
        = (if truthy cached then Normal cached else Throw netErr, w')
        /\ file w' = file w
  end.
Proof.
  intros cached stamp. unfold Shared.settle, bind. subst stamp.
  destruct (readCache_value host ttl w)
    as (w1 & E & Hfile & Hwr & Htime & Hnet & _).
  rewrite E. fold cached. cbn [snd]. unfold attempt.
  pose proof (fetch_pure w1) as Hpure.
  pose proof (fetch_network w w1 Hnet) as Hout.
  destruct (fetch w1) as [r w2]. cbn [fst snd] in Hpure, Hout. subst w2.
  rewrite <- Hout. destruct r as [fresh | netErr].
  - rewrite writeCache_effect. unfold ret. rewrite Hwr.
    destruct (writable w).
    + eexists; split; reflexivity.
    + eexists; split; [reflexivity | exact Hfile].
  - unfold onNetErr, throw, ret.
    destruct (truthy cached); eexists; (split; [reflexivity | exact Hfile]).
Qed.

Lemma Current_main_cases host w key loc :
  apiKey w = Normal key -> location w = Normal loc ->
  Current.main host w =
    match Current.settle host w with
    | (Normal data, w1) =>
        match Current.buildWidget host data (placeName_of host loc) w1 with
        | (Normal widget, w2) =>
            (Normal (if negb (runsInWidget w2) then presentMedium widget
                     else setWidget widget), w2)
        | (Throw e, w2) => errorWidget "Weather error" 15 e w2
        end
    | (Throw e, w1) => errorWidget "Weather error" 15 e w1
    end.
Proof.
  intros Hk Hl. unfold Current.main, try_catch, bind, lift. rewrite Hk, Hl.
  destruct (Current.settle host w) as [[data|e] w1]; [|reflexivity].
  destruct (Current.buildWidget host data (placeName_of host loc) w1)
    as [[widget|e] w2]; reflexivity.
Qed.

Lemma Daily_main_cases host w key loc :
  apiKey w = Normal key -> location w = Normal loc ->
  Daily.main host w =
    match Daily.settle host w with
    | (Normal data, w1) =>
        match Daily.buildWidget host data (placeName_of host loc) w1 with
        | (Normal widget, w2) =>
            (Normal (if negb (runsInWidget w2) then presentMedium widget
                     else setWidget widget), w2)
        | (Throw e, w2) => errorWidget "Forecast error" 30 e w2
        end
    | (Throw e, w1) => errorWidget "Forecast error" 30 e w1
    end.
Proof.
  intros Hk Hl. unfold Daily.main, try_catch, bind, lift. rewrite Hk, Hl.
  destruct (Daily.settle host w) as [[data|e] w1]; [|reflexivity].
  destruct (Daily.buildWidget host data (placeName_of host loc) w1)
    as [[widget|e] w2]; reflexivity.
Qed.

(** C1: the claim does not hold of the code at a cached value that is
    falsy.  With the cache file [{"timestamp":t,"data":0}] a minute old,
    [readCache] returns the stored value 0, a valid cache value; the
    fetch fails; the claim has the run go on with the cached 0 and no
    error.  The [catch] block tests [if (!data)], which is true of 0 as
    it is of [null], and throws the network error, which the run then
    shows in the error widget -- in both scripts.  The comments of the
    block say what the claim says: "keep using existing cache (if
    any)", "If there *is* cache, we silently continue". *)
Theorem cached_zero_is_dropped :
  let content := RefHost.file_of (JInt 1700000000000) (JInt 0) in
  let w := RefHost.world (Some content) 1700000060000 RefHost.offline in
  JSON_parse RefHost.host content
  = Some (JObj [("timestamp", JInt 1700000000000); ("data", JInt 0)])
  /\ fst (Current.readCache RefHost.host w) = Normal (JInt 0)
  /\ fst (Daily.readCache RefHost.host w) = Normal (JInt 0)
  /\ nullish (JInt 0) = false
  /\ fst (fetch w) = Throw (Error "The request timed out.")
  /\ fst (Current.settle RefHost.host w) = Throw (Error "The request timed out.")
  /\ fst (Daily.settle RefHost.host w) = Throw (Error "The request timed out.")
  /\ onNetErr (JInt 0) (Error "The request timed out.") w
     = (Throw (Error "The request timed out."), w)
  /\ (exists d,
        fst (Current.main RefHost.host w) = Normal d
        /\ Observe.texts (Observe.shown d)
           = ["Weather error"; "Error: The request timed out."])
  /\ (exists d,
        fst (Daily.main RefHost.host w) = Normal d
        /\ Observe.texts (Observe.shown d)
           = ["Forecast error"; "Error: The request timed out."]).
Proof.
  intros content w.
  split; [vm_compute; reflexivity|].
  split; [vm_compute; reflexivity|].
  split; [vm_compute; reflexivity|].
  split; [reflexivity|].
  split; [reflexivity|].
  split; [vm_compute; reflexivity|].
  split; [vm_compute; reflexivity|].
  split; [reflexivity|].
  split.
  - assert (H : Observe.texts
                  (Observe.shown
                     match fst (Current.main RefHost.host w) with
                     | Normal d => d
                     | Throw _ => setWidget Daily.placeholder
                     end)
                = ["Weather error"; "Error: The request timed out."])
      by (vm_compute; reflexivity).
    destruct (fst (Current.main RefHost.host w)) as [d|e];
      [exists d; split; [reflexivity | exact H]|].
    vm_compute in H. discriminate H.
  - assert (H : Observe.texts
                  (Observe.shown
                     match fst (Daily.main RefHost.host w) with
                     | Normal d => d
                     | Throw _ => setWidget Daily.placeholder
                     end)
                = ["Forecast error"; "Error: The request timed out."])
      by (vm_compute; reflexivity).
    destruct (fst (Daily.main RefHost.host w)) as [d|e];
      [exists d; split; [reflexivity | exact H]|].
    vm_compute in H. discriminate H.
Qed.
(** ** The widget builders, step by step *)

Lemma bind_lift_inv {A B} (c : Completion A) (k : A -> M B) w b w' :
  bind (lift c) k w = (Normal b, w') ->
  exists a, c = Normal a /\ k a w = (Normal b, w').
Proof.
  unfold bind, lift. destruct c as [a|e]; [|discriminate].
  intros H. exists a. split; [reflexivity | exact H].
Qed.

Lemma bind_now_inv {B} (k : Z -> M B) w r :
  bind Date_now k w = r -> k (now w) (set_ticks w (S (ticks w))) = r.
Proof. intros H. exact H. Qed.

(** A computation that reads the clock and nothing else leaves the
    world as it was, up to the readings taken. *)
Lemma clock_only_ret {A} (a : A) w :
  exists n, snd (ret a w) = set_ticks w n /\ (ticks w <= n)%nat.
Proof. exists (ticks w). split; [now destruct w | lia]. Qed.

Lemma clock_only_lift {A B} (c : Completion A) (k : A -> M B) :
  (forall a w, exists n, snd (k a w) = set_ticks w n /\ (ticks w <= n)%nat) ->
  forall w, exists n, snd (bind (lift c) k w) = set_ticks w n /\ (ticks w <= n)%nat.
Proof.
  intros Hk w. unfold bind, lift. destruct c as [a|e]; [apply Hk|].
  exists (ticks w). split; [now destruct w | lia].
Qed.

Lemma clock_only_now {B} (k : Z -> M B) :
  (forall a w, exists n, snd (k a w) = set_ticks w n /\ (ticks w <= n)%nat) ->
  forall w, exists n, snd (bind Date_now k w) = set_ticks w n /\ (ticks w <= n)%nat.
Proof.
  intros Hk w. unfold bind, Date_now.
  destruct (Hk (time w (ticks w)) (set_ticks w (S (ticks w)))) as (n & E & Hn).
  exists n. split; [exact E|]. cbn [ticks set_ticks] in Hn. lia.
Qed.

Ltac clock_only :=
  repeat first
    [ apply clock_only_lift; intros ?
    | apply clock_only_now; intros ?
    | intros ?; apply clock_only_ret ].

Lemma Current_buildWidget_clock host data placeName w :
  exists n,
    snd (Current.buildWidget host data placeName w) = set_ticks w n
    /\ (ticks w <= n)%nat.
Proof.
  revert w. unfold Current.buildWidget. cbv zeta. clock_only.
Qed.

Lemma Daily_buildWidget_clock host forecast placeName w :
  exists n,
    snd (Daily.buildWidget host forecast placeName w) = set_ticks w n
    /\ (ticks w <= n)%nat.
Proof.
  revert w. unfold Daily.buildWidget. cbv zeta.
  destruct (negb (isArray _) || strict_eq_num _ 0); clock_only.
Qed.

(** What a [buildWidget] that returns has computed on the way. *)
Lemma Current_buildWidget_inv host data placeName w widget w' :
  Current.buildWidget host data placeName w = (Normal widget, w') ->
  let weatherCond := g2 data "weatherCondition" in
  let isDay := JBool (truthy (g2 data "isDaytime")) in
  let hum := g2 data "relativeHumidity" in
  exists condStr tempStr feelsStr windStr tempC gradient symName humStr,
    (if truthy (normalizeConditionText weatherCond)
     then ToString host (normalizeConditionText weatherCond)
     else Normal "—") = Normal condStr
    /\ fmtTemp host (g2 data "temperature") = Normal tempStr
    /\ fmtTemp host (g2 data "feelsLikeTemperature") = Normal feelsStr
    /\ fmtWind host (g2 data "wind") = Normal windStr
    /\ parseTempC host (g2 data "temperature") = Normal tempC
    /\ Current.gradientFor host tempC isDay = Normal gradient
    /\ Current.pickSymbol host weatherCond isDay = Normal symName
    /\ (if negb (nullish hum)
        then and_then (ToString host hum) (fun t => Normal (t ++ "%"))
        else Normal "—") = Normal humStr
    /\ w' = set_ticks w (S (S (ticks w)))
    /\ widget =
       {| padding := (14, 16, 14, 16);
          backgroundGradient := Some gradient;
          elements :=
            [Stack (Some horizontally) true
               [Text (if negb (String.eqb placeName "") then placeName
                      else "Current location")
                     (mediumSystemFont 13) white (Some 1) None;
                Spacer None;
                Text (toLocaleTimeString host (now w)) (regularSystemFont 11)
                     (hex "#eaeaea") None None];
             Spacer (Some 6);
             Stack None true
               [Image symName (34, 34) white;
                Spacer (Some 10);
                Text tempStr (systemFont 40) white None None];
             Spacer (Some 2);
             Text condStr (mediumSystemFont 14) (hex "#f5f5f7") (Some 1) None;
             Spacer (Some 6);
             Stack (Some horizontally) false
               [Current.kv "Feels" feelsStr;
                Spacer None;
                Current.kv "Hum" humStr;
                Spacer None;
                Current.kv "Wind" windStr]];
          refreshAfterDate :=
            Some (time w (S (ticks w)) + Current.REFRESH_MIN * 60 * 1000) |}.
Proof.
  intros H weatherCond isDay hum. unfold Current.buildWidget in H.
  apply bind_lift_inv in H as (condStr & E0 & H).
  apply bind_lift_inv in H as (tempStr & E1 & H).
  apply bind_lift_inv in H as (feelsStr & E2 & H).
  apply bind_lift_inv in H as (windStr & E3 & H).
  apply bind_lift_inv in H as (tempC & E4 & H).
  apply bind_lift_inv in H as (gradient & E5 & H).
  apply bind_now_inv in H.
  apply bind_lift_inv in H as (symName & E6 & H).
  apply bind_lift_inv in H as (humStr & E7 & H).
  apply bind_now_inv in H. unfold ret in H.
  injection H as <- <-.
  exists condStr, tempStr, feelsStr, windStr, tempC, gradient, symName, humStr.
  repeat (split; [assumption|]). split; reflexivity.
Qed.

Lemma Daily_buildWidget_inv host forecast placeName w widget w' :
  Daily.buildWidget host forecast placeName w = (Normal widget, w') ->
  let daysArr := g forecast "forecastDays" (JArr []) in
  let days := array_items daysArr in
  let today := prop daysArr "0" in
  let dayPart := g2 today "daytimeForecast" in
  let nightPart := g2 today "nighttimeForecast" in
  let dayHum := g2 dayPart "relativeHumidity" in
  let maxDays := Nat.min (Z.to_nat Daily.DAYS) (List.length days) in
  (negb (isArray daysArr) || strict_eq_num (prop daysArr "length") 0 = true
   /\ widget = Daily.placeholder /\ w' = w)
  \/ (negb (isArray daysArr) || strict_eq_num (prop daysArr "length") 0 = false
      /\ exists maxTempC gradient currentTempStr feelsMaxStr feelsMinStr windStr
                humStr todaySymbolName row,
        parseTempC host (g2 today "maxTemperature") = Normal maxTempC
        /\ Daily.gradientFor host maxTempC = Normal gradient
        /\ fmtTemp host (g2 today "maxTemperature") = Normal currentTempStr
        /\ fmtTemp host (g2 today "feelsLikeMaxTemperature") = Normal feelsMaxStr
        /\ fmtTemp host (g2 today "feelsLikeMinTemperature") = Normal feelsMinStr
        /\ fmtWind host (g2 dayPart "wind") = Normal windStr
        /\ (if negb (nullish dayHum)
            then and_then (ToString host dayHum) (fun t => Normal (t ++ "%"))
            else Normal "—") = Normal humStr
        /\ Daily.pickSymbol host
             (js_or (g2 dayPart "weatherCondition")
                    (g2 nightPart "weatherCondition")) (JBool true)
           = Normal todaySymbolName
        /\ Daily.miniRow host maxDays 0 (firstn maxDays days) = Normal row
        /\ w' = set_ticks w (S (S (ticks w)))
        /\ widget =
           {| padding := (10, 12, 10, 12);
              backgroundGradient := Some gradient;
              elements :=
                [Stack (Some horizontally) true
                   [Text (if negb (String.eqb placeName "") then placeName
                          else "Location")
                         (mediumSystemFont 13) white (Some 1) None;
                    Spacer None;
                    Text (toLocaleTimeString host (now w)) (regularSystemFont 11)
                         (hex "#e0e0e0") None None];
                 Spacer (Some 4);
                 Stack (Some horizontally) true
                   [Image todaySymbolName (30, 30) white;
                    Spacer (Some 10);
                    Stack (Some vertically) false
                      [Text currentTempStr (systemFont 32) white None None]];
                 Spacer (Some 4);
                 Stack (Some horizontally) false
                   [Daily.kv "Feels" (feelsMaxStr ++ "/" ++ feelsMinStr);
                    Spacer None;
                    Daily.kv "Hum" humStr;
                    Spacer None;
                    Daily.kv "Wind" windStr];
                 Spacer (Some 6);
                 Stack (Some horizontally) true row];
              refreshAfterDate :=
                Some (time w (S (ticks w)) + Daily.REFRESH_MIN * 60 * 1000) |}).
Proof.
  intros H daysArr days today dayPart nightPart dayHum maxDays.
  unfold Daily.buildWidget in H. fold daysArr in H.
  destruct (negb (isArray daysArr) || strict_eq_num (prop daysArr "length") 0).
  - left. unfold ret in H. injection H as <- <-. repeat split.
  - right. split; [reflexivity|].
    apply bind_lift_inv in H as (maxTempC & E0 & H).
    apply bind_lift_inv in H as (gradient & E1 & H).
    apply bind_lift_inv in H as (currentTempStr & E2 & H).
    apply bind_lift_inv in H as (feelsMaxStr & E3 & H).
    apply bind_lift_inv in H as (feelsMinStr & E4 & H).
    apply bind_lift_inv in H as (windStr & E5 & H).
    apply bind_lift_inv in H as (humStr & E6 & H).
    apply bind_now_inv in H.
    apply bind_lift_inv in H as (todaySymbolName & E7 & H).
    apply bind_lift_inv in H as (row & E8 & H).
    apply bind_now_inv in H. unfold ret in H.
    injection H as <- <-.
    exists maxTempC, gradient, currentTempStr, feelsMaxStr, feelsMinStr, windStr,
      humStr, todaySymbolName, row.
    repeat (split; [assumption|]). split; reflexivity.
Qed.

(** From the first component of a run to the run. *)
Lemma fst_run {A} (c : M A) w a :
  fst (c w) = Normal a -> exists w', c w = (Normal a, w').
Proof. destruct (c w) as [r w']. cbn. intros ->. now exists w'. Qed.
(* ================================================================== *)
(** * Further properties of the two scripts *)
(* ================================================================== *)

Import Request Credentials Observe.

(** ** The safe getter, again *)

Lemma g_step_defined o k : g_step o k <> JUndefined.
Proof.
  unfold g_step. destruct (truthy o); simpl; [|discriminate].
  destruct (prop o k); simpl; discriminate.
Qed.

Lemma fold_left_last {A B} (f : A -> B -> A) l k a :
  fold_left f (l ++ [k])%list a = f (fold_left f l a) k.
Proof. now rewrite fold_left_app. Qed.

Lemma fold_g_step_defined keys o :
  keys <> [] -> fold_left g_step keys o <> JUndefined.
Proof.
  intros H. destruct (exists_last H) as (l & k & ->).
  rewrite fold_left_last. apply g_step_defined.
Qed.

Lemma walk_defined path o : fold_left g_step (split "." path) o <> JUndefined.
Proof. apply fold_g_step_defined, split_nonempty. Qed.

(** Splitting at a separator that is written out. *)
Lemma split_app sep p q :
  split sep (p ++ String sep q) = (split sep p ++ split sep q)%list.
Proof.
  induction p as [|c p IH]; simpl.
  - now rewrite Ascii.eqb_refl.
  - destruct (Ascii.eqb c sep); [now rewrite IH|].
    rewrite IH. destruct (split sep p) as [|w ws] eqn:E; [|reflexivity].
    now destruct (split_nonempty sep p).
Qed.

(** X1: [g] never returns [undefined], and with a fallback that is
    neither [null] nor [undefined] it never returns [null] either: a
    caller that supplies such a fallback can use the result without a
    further test. *)
Theorem g_result_defined : forall obj path fallback,
  g obj path fallback <> JUndefined
  /\ (nullish fallback = false -> nullish (g obj path fallback) = false)
  /\ (nullish (g2 obj path) = true -> g2 obj path = JNull).
Proof.
  intros obj path fallback.
  pose proof (walk_defined path obj) as Hw.
  unfold g2, g, js_coalesce.
  destruct (fold_left g_step (split "." path) obj) eqn:E; simpl;
    try congruence;
    (split; [|split]); try discriminate; try reflexivity; try congruence;
    destruct fallback; simpl; try discriminate; try congruence.
Qed.

Lemma g_result_defined_witness :
  nullish (JArr []) = false
  /\ nullish (g (JObj [("forecastDays", JNull)]) "forecastDays" (JArr [])) = false
  /\ g2 (JObj [("wind", JObj [])]) "wind.speed.value" = JNull.
Proof.
  split; [reflexivity|].
  split.
  - exact (proj1 (proj2 (g_result_defined (JObj [("forecastDays", JNull)])
                           "forecastDays" (JArr []))) eq_refl).
  - exact (proj2 (proj2 (g_result_defined (JObj [("wind", JObj [])])
                           "wind.speed.value" JUndefined)) eq_refl).
Defined.

(** X2: reading a path in two steps is reading the joined path in one:
    [g(g(obj, p), q, fallback)] equals [g(obj, p + "." + q, fallback)],
    for every value, every two paths and every fallback. *)
Theorem g_path_composition : forall obj p q fallback,
  g (g2 obj p) q fallback = g obj (p ++ "." ++ q) fallback.
Proof.
  intros obj p q fallback.
  assert (E : g2 obj p = fold_left g_step (split "." p) obj).
  { pose proof (walk_defined p obj) as Hw. unfold g2, g, js_coalesce.
    destruct (fold_left g_step (split "." p) obj); simpl; congruence. }
  rewrite E. unfold g.
  change (p ++ "." ++ q)%string with (p ++ String "." q)%string.
  now rewrite split_app, fold_left_app.
Qed.

(** ** Payloads that convert *)

Lemma clean_convertible v : no_own_toString v = true -> convertible v = true.
Proof.
  induction v as [| | b | n | s | items IH | props IH | name]
    using JsVal_induction; try reflexivity.
  - cbn [no_own_toString convertible].
    induction IH as [|x r Hx _ IHr]; [reflexivity|].
    intros H. apply andb_true_iff in H as [H1 H2].
    rewrite (Hx H1), orb_true_r. exact (IHr H2).
  - cbn [no_own_toString convertible]. intros H.
    apply andb_true_iff in H as [H _].
    destruct (own_lookup "toString" props); [discriminate | reflexivity].
Qed.

Lemma clean_own_lookup k : forall props x,
  (fix all (l : list (string * JsVal)) : bool :=
     match l with
     | [] => true
     | (_, x) :: r => no_own_toString x && all r
     end) props = true ->
  own_lookup k props = Some x -> no_own_toString x = true.
Proof.
  induction props as [|[k' v] props IH]; intros x H E; [discriminate|].
  apply andb_true_iff in H as [H1 H2]. cbn [own_lookup] in E.
  destruct (String.eqb k k'); [now injection E as <- | exact (IH x H2 E)].
Qed.

Lemma clean_nth : forall items n,
  (fix all (l : list JsVal) : bool :=
     match l with
     | [] => true
     | x :: r => no_own_toString x && all r
     end) items = true ->
  no_own_toString (nth n items JUndefined) = true.
Proof.
  induction items as [|x items IH]; intros n H; [now destruct n|].
  apply andb_true_iff in H as [H1 H2].
  destruct n as [|n]; [exact H1 | exact (IH n H2)].
Qed.

Lemma clean_inherited proto members k :
  no_own_toString (inherited proto members k) = true.
Proof.
  unfold inherited. destruct (mem_string k members); [reflexivity|].
  destruct (mem_string k Object_prototype); reflexivity.
Qed.

Lemma clean_prop v k : no_own_toString v = true -> no_own_toString (prop v k) = true.
Proof.
  intros H. destruct v as [| | b | n | s | items | props | name];
    cbn [prop]; try reflexivity; try apply clean_inherited.
  - destruct (array_index k) as [i|].
    + destruct (_ <? _)%N; [|reflexivity].
      unfold char_at. destruct (String.get _ s); reflexivity.
    + destruct (String.eqb k "length"); [reflexivity | apply clean_inherited].
  - destruct (array_index k) as [i|].
    + destruct (_ <? _)%N; [exact (clean_nth items _ H) | reflexivity].
    + destruct (String.eqb k "length"); [reflexivity | apply clean_inherited].
  - cbn [no_own_toString] in H. apply andb_true_iff in H as [_ H].
    destruct (own_lookup k props) as [x|] eqn:E;
      [exact (clean_own_lookup k props x H E) | apply clean_inherited].
  - destruct (_ || _); reflexivity.
Qed.

Lemma clean_g_step o k : no_own_toString o = true -> no_own_toString (g_step o k) = true.
Proof.
  intros H. unfold g_step. destruct (_ && _); [now apply clean_prop | reflexivity].
Qed.

Lemma clean_g2 obj path : no_own_toString obj = true -> no_own_toString (g2 obj path) = true.
Proof.
  intros H. unfold g2, g, js_coalesce.
  assert (F : forall keys o, no_own_toString o = true ->
                             no_own_toString (fold_left g_step keys o) = true).
  { induction keys as [|k keys IH]; intros o Ho; [exact Ho|].
    cbn [fold_left]. apply IH. now apply clean_g_step. }
  specialize (F (split "." path) obj H).
  destruct (nullish _); [reflexivity | exact F].
Qed.

Lemma clean_js_or a b :
  no_own_toString a = true -> no_own_toString b = true ->
  no_own_toString (js_or a b) = true.
Proof. intros Ha Hb. unfold js_or. now destruct (truthy a). Qed.

(** *** The helpers return on such a payload *)

Lemma ToNumber_clean host v :
  no_own_toString v = true -> ToNumber host v = Normal (number_of host v).
Proof. intros H. unfold ToNumber. now rewrite (clean_convertible v H). Qed.

Lemma ToString_clean host v :
  no_own_toString v = true -> ToString host v = Normal (text_of host v).
Proof. intros H. unfold ToString. now rewrite (clean_convertible v H). Qed.

Lemma fmtTemp_returns host t :
  no_own_toString t = true -> exists s, fmtTemp host t = Normal s.
Proof.
  intros H. unfold fmtTemp.
  destruct (nullish _); [eexists; reflexivity|].
  rewrite (ToNumber_clean host _ (clean_g2 t "degrees" H)).
  eexists; reflexivity.
Qed.

Lemma fmtTempCompact_returns host t :
  no_own_toString t = true -> exists s, Daily.fmtTempCompact host t = Normal s.
Proof.
  intros H. unfold Daily.fmtTempCompact.
  destruct (nullish _); [eexists; reflexivity|].
  rewrite (ToNumber_clean host _ (clean_g2 t "degrees" H)).
  eexists; reflexivity.
Qed.

Lemma parseTempC_returns host t :
  no_own_toString t = true -> exists c, parseTempC host t = Normal c.
Proof.
  intros H. unfold parseTempC.
  destruct (nullish _); [eexists; reflexivity|].
  rewrite (ToNumber_clean host _ (clean_g2 t "degrees" H)).
  destruct (strict_eq_str _ _); eexists; reflexivity.
Qed.

Lemma degToDir_returns host deg :
  no_own_toString deg = true -> exists v, degToDir host deg = Normal v.
Proof.
  intros H. unfold degToDir, isNaN.
  destruct (nullish deg); [eexists; reflexivity|].
  rewrite (ToNumber_clean host deg H). cbn [and_then].
  destruct (num_isNaN _); eexists; reflexivity.
Qed.

Lemma fmtWind_returns host wind :
  no_own_toString wind = true -> exists s, fmtWind host wind = Normal s.
Proof.
  intros H. unfold fmtWind.
  destruct (nullish _); [eexists; reflexivity|].
  destruct (degToDir_returns host _ (clean_g2 wind "direction.degrees" H))
    as (dirTxt & E).
  rewrite E. cbn [and_then].
  rewrite (ToNumber_clean host _ (clean_g2 wind "speed.value" H)). cbn [and_then].
  unfold ToString. rewrite (degToDir_text host _ dirTxt E).
  destruct (truthy dirTxt); eexists; reflexivity.
Qed.

Lemma gradient_returns host tempObj c :
  parseTempC host tempObj = Normal c ->
  (exists gradient, Daily.gradientFor host c = Normal gradient)
  /\ (forall isDay, exists gradient,
        Current.gradientFor host c isDay = Normal gradient).
Proof.
  intros H.
  assert (Hc : convertible c = true)
    by (destruct (parseTempC_value host tempObj c H) as [-> | [n ->]]; reflexivity).
  unfold Daily.gradientFor, Current.gradientFor, ToNumber. rewrite Hc.
  split; [|intros isDay];
    (destruct (nullish c); cbn [negb and_then]; [eexists; reflexivity|];
     destruct (num_ge _ (num_of_Z 24)); cbn [and_then]; [eexists; reflexivity|];
     destruct (num_ge _ (num_of_Z 10)); eexists; reflexivity).
Qed.

Lemma Current_pickSymbol_returns host raw isDaytime :
  exists icon, Current.pickSymbol host raw isDaytime = Normal icon.
Proof. rewrite Current_pickSymbol_rules. eexists; reflexivity. Qed.

Lemma getConditionType_returns host raw :
  no_own_toString raw = true ->
  exists type, Daily.getConditionType host raw = Normal type.
Proof.
  intros H. unfold Daily.getConditionType.
  destruct (negb (truthy raw)); [eexists; reflexivity|].
  destruct (negb (truthy (prop raw "type"))); [eexists; reflexivity|].
  rewrite (ToString_clean host _ (clean_prop raw "type" H)).
  eexists; reflexivity.
Qed.

Lemma Daily_pickSymbol_returns host raw isDaytime :
  no_own_toString raw = true ->
  exists icon, Daily.pickSymbol host raw isDaytime = Normal icon.
Proof.
  intros H. rewrite Daily_pickSymbol_rules.
  destruct (getConditionType_returns host raw H) as (type & ->).
  eexists; reflexivity.
Qed.

Lemma condition_returns host raw :
  exists s,
    (if truthy (normalizeConditionText raw)
     then ToString host (normalizeConditionText raw)
     else Normal "—") = Normal s.
Proof.
  destruct (normalize_is_text raw) as [-> | [s ->]]; [eexists; reflexivity|].
  destruct (truthy (JStr s)); eexists; reflexivity.
Qed.

Lemma humidity_returns host hum :
  no_own_toString hum = true ->
  exists s,
    (if negb (nullish hum)
     then and_then (ToString host hum) (fun t => Normal (t ++ "%"))
     else Normal "—") = Normal s.
Proof.
  intros H. rewrite (ToString_clean host hum H).
  destruct (negb (nullish hum)); eexists; reflexivity.
Qed.

Lemma weekdayLabel_returns host i d :
  no_own_toString d = true -> exists s, Daily.weekdayLabel host i d = Normal s.
Proof.
  intros H. unfold Daily.weekdayLabel.
  pose proof (clean_g2 d "displayDate" H) as Hdd.
  rewrite (ToNumber_clean host _ (clean_prop _ "month" Hdd)).
  rewrite (ToNumber_clean host _ (clean_prop _ "year" Hdd)).
  rewrite (ToNumber_clean host _ (clean_prop _ "day" Hdd)).
  destruct (_ && _); eexists; reflexivity.
Qed.

Lemma dayStack_returns host i d :
  no_own_toString d = true -> exists e, Daily.dayStack host i d = Normal e.
Proof.
  intros H. unfold Daily.dayStack.
  destruct (weekdayLabel_returns host i d H) as (weekday & ->).
  destruct (Daily_pickSymbol_returns host
              (js_or (g2 (g2 d "daytimeForecast") "weatherCondition")
                     (g2 (g2 d "nighttimeForecast") "weatherCondition"))
              (JBool true)) as (icon & ->).
  { apply clean_js_or; apply clean_g2; apply clean_g2; exact H. }
  destruct (fmtTempCompact_returns host _ (clean_g2 d "maxTemperature" H))
    as (maxStr & ->).
  destruct (fmtTempCompact_returns host _ (clean_g2 d "minTemperature" H))
    as (minStr & ->).
  eexists; reflexivity.
Qed.

Lemma miniRow_returns host n : forall days i,
  Forall (fun d => no_own_toString d = true) days ->
  exists row, Daily.miniRow host n i days = Normal row.
Proof.
  induction days as [|d days IH]; intros i H; [eexists; reflexivity|].
  inversion H as [|? ? Hd Hr]; subst. cbn [Daily.miniRow].
  destruct (dayStack_returns host i d Hd) as (e & ->).
  destruct (IH (S i) Hr) as (more & ->).
  eexists; reflexivity.
Qed.

Lemma bind_lift_normal {A B} (c : Completion A) (k : A -> M B) a w :
  c = Normal a -> bind (lift c) k w = k a w.
Proof. intros ->. reflexivity. Qed.

(** [buildWidget] returns on such a payload, in both scripts. *)
Lemma Current_buildWidget_returns host data placeName w :
  no_own_toString data = true ->
  exists widget w', Current.buildWidget host data placeName w = (Normal widget, w').
Proof.
  intros H. unfold Current.buildWidget.
  destruct (condition_returns host (g2 data "weatherCondition")) as (condStr & E0).
  destruct (fmtTemp_returns host _ (clean_g2 data "temperature" H)) as (tempStr & E1).
  destruct (fmtTemp_returns host _ (clean_g2 data "feelsLikeTemperature" H))
    as (feelsStr & E2).
  destruct (fmtWind_returns host _ (clean_g2 data "wind" H)) as (windStr & E3).
  destruct (parseTempC_returns host _ (clean_g2 data "temperature" H)) as (tempC & E4).
  destruct (proj2 (gradient_returns host _ tempC E4)
              (JBool (truthy (g2 data "isDaytime")))) as (gradient & E5).
  destruct (Current_pickSymbol_returns host (g2 data "weatherCondition")
              (JBool (truthy (g2 data "isDaytime")))) as (symName & E6).
  destruct (humidity_returns host _ (clean_g2 data "relativeHumidity" H))
    as (humStr & E7).
  rewrite (bind_lift_normal _ _ _ _ E0), (bind_lift_normal _ _ _ _ E1),
    (bind_lift_normal _ _ _ _ E2), (bind_lift_normal _ _ _ _ E3),
    (bind_lift_normal _ _ _ _ E4), (bind_lift_normal _ _ _ _ E5).
  unfold bind at 1, Date_now at 1.
  rewrite (bind_lift_normal _ _ _ _ E6), (bind_lift_normal _ _ _ _ E7).
  unfold bind, Date_now, ret. eexists. eexists. reflexivity.
Qed.

Lemma clean_items v :
  no_own_toString v = true ->
  Forall (fun d => no_own_toString d = true) (array_items v).
Proof.
  destruct v as [| | b | n | s | items | props | name]; intros H;
    try apply Forall_nil.
  cbn [array_items]. cbn [no_own_toString] in H.
  induction items as [|x items IH]; [apply Forall_nil|].
  apply andb_true_iff in H as [H1 H2].
  apply Forall_cons; [exact H1 | exact (IH H2)].
Qed.

Lemma Forall_firstn {A} (P : A -> Prop) n : forall l,
  Forall P l -> Forall P (firstn n l).
Proof.
  induction n as [|n IH]; intros l H; [apply Forall_nil|].
  destruct H as [|x l Hx Hl]; [apply Forall_nil|].
  cbn [firstn]. apply Forall_cons; [exact Hx | exact (IH l Hl)].
Qed.

Lemma Daily_buildWidget_returns host forecast placeName w :
  no_own_toString forecast = true ->
  exists widget w', Daily.buildWidget host forecast placeName w = (Normal widget, w').
Proof.
  intros H. unfold Daily.buildWidget.
  set (daysArr := g forecast "forecastDays" (JArr [])).
  assert (Hd : no_own_toString daysArr = true).
  { unfold daysArr, g, js_coalesce.
    assert (F : forall keys o, no_own_toString o = true ->
                               no_own_toString (fold_left g_step keys o) = true).
    { induction keys as [|k keys IH]; intros o Ho; [exact Ho|].
      cbn [fold_left]. apply IH. now apply clean_g_step. }
    specialize (F (split "." "forecastDays") forecast H).
    destruct (nullish _); [reflexivity | exact F]. }
  destruct (negb (isArray daysArr) || strict_eq_num (prop daysArr "length") 0);
    [eexists; eexists; reflexivity|].
  pose proof (clean_prop daysArr "0" Hd) as Ht.
  set (today := prop daysArr "0") in *.
  pose proof (clean_g2 today "daytimeForecast" Ht) as Hday.
  pose proof (clean_g2 today "nighttimeForecast" Ht) as Hnight.
  destruct (parseTempC_returns host _ (clean_g2 today "maxTemperature" Ht))
    as (maxTempC & E0).
  destruct (proj1 (gradient_returns host _ maxTempC E0)) as (gradient & E1).
  destruct (fmtTemp_returns host _ (clean_g2 today "maxTemperature" Ht))
    as (currentTempStr & E2).
  destruct (fmtTemp_returns host _ (clean_g2 today "feelsLikeMaxTemperature" Ht))
    as (feelsMaxStr & E3).
  destruct (fmtTemp_returns host _ (clean_g2 today "feelsLikeMinTemperature" Ht))
    as (feelsMinStr & E4).
  destruct (fmtWind_returns host _ (clean_g2 _ "wind" Hday)) as (windStr & E5).
  destruct (humidity_returns host _ (clean_g2 _ "relativeHumidity" Hday))
    as (humStr & E6).
  destruct (Daily_pickSymbol_returns host
              (js_or (g2 (g2 today "daytimeForecast") "weatherCondition")
                     (g2 (g2 today "nighttimeForecast") "weatherCondition"))
              (JBool true)) as (todaySymbolName & E7).
  { apply clean_js_or; apply clean_g2; assumption. }
  destruct (miniRow_returns host
              (Nat.min (Z.to_nat Daily.DAYS) (List.length (array_items daysArr)))
              (firstn (Nat.min (Z.to_nat Daily.DAYS)
                               (List.length (array_items daysArr)))
                      (array_items daysArr)) 0) as (row & E8).
  { apply Forall_firstn, clean_items, Hd. }
  rewrite (bind_lift_normal _ _ _ _ E0), (bind_lift_normal _ _ _ _ E1),
    (bind_lift_normal _ _ _ _ E2), (bind_lift_normal _ _ _ _ E3),
    (bind_lift_normal _ _ _ _ E4), (bind_lift_normal _ _ _ _ E5),
    (bind_lift_normal _ _ _ _ E6).
  unfold bind at 1, Date_now at 1.
  rewrite (bind_lift_normal _ _ _ _ E7), (bind_lift_normal _ _ _ _ E8).
  unfold bind, Date_now, ret. eexists. eexists. reflexivity.
Qed.
(** ** Icons *)

Lemma icon_by_text_range t day :
  In (icon_by text_rules t day)
     (weather_symbols ++ if day then day_symbols else night_symbols).
Proof.
  unfold icon_by, text_rules. cbn [first_match].
  repeat match goal with
         | |- context [if existsb ?f ?l then _ else _] => destruct (existsb f l)
         end;
    destruct day; simpl; tauto.
Qed.

Lemma icon_by_fallback_range t day :
  In (icon_by fallback_text_rules t day)
     (weather_symbols ++ if day then day_symbols else night_symbols).
Proof.
  unfold icon_by, fallback_text_rules. cbn [first_match].
  repeat match goal with
         | |- context [if existsb ?f ?l then _ else _] => destruct (existsb f l)
         end;
    destruct day; simpl; tauto.
Qed.

Lemma first_match_typed_range t day icon :
  first_match typed_rules t day = Some icon ->
  In icon (weather_symbols ++ if day then day_symbols else night_symbols).
Proof.
  unfold typed_rules. cbn [first_match].
  repeat match goal with
         | |- context [if existsb ?f ?l then _ else _] => destruct (existsb f l)
         end;
    intros H; inversion H; subst; destruct day; simpl; tauto.
Qed.

Lemma Current_pickSymbol_range host raw isDaytime icon :
  Current.pickSymbol host raw isDaytime = Normal icon ->
  In icon
     (weather_symbols ++ if truthy isDaytime then day_symbols else night_symbols).
Proof.
  rewrite Current_pickSymbol_rules. intros [= <-]. apply icon_by_text_range.
Qed.

Lemma Daily_pickSymbol_range host raw isDaytime icon :
  Daily.pickSymbol host raw isDaytime = Normal icon ->
  In icon
     (weather_symbols ++ if truthy isDaytime then day_symbols else night_symbols).
Proof.
  rewrite Daily_pickSymbol_rules.
  destruct (Daily.getConditionType host raw) as [tag|e]; cbn [and_then];
    [|discriminate].
  destruct (first_match typed_rules tag (truthy isDaytime)) eqn:E;
    intros [= <-].
  - exact (first_match_typed_range _ _ _ E).
  - apply icon_by_fallback_range.
Qed.

(** What a pass of the loop that returns has computed. *)
Lemma dayStack_inv host i d e :
  Daily.dayStack host i d = Normal e ->
  exists weekday dSymName maxStr minStr,
    Daily.weekdayLabel host i d = Normal weekday
    /\ Daily.pickSymbol host
         (js_or (g2 (g2 d "daytimeForecast") "weatherCondition")
                (g2 (g2 d "nighttimeForecast") "weatherCondition")) (JBool true)
       = Normal dSymName
    /\ Daily.fmtTempCompact host (g2 d "maxTemperature") = Normal maxStr
    /\ Daily.fmtTempCompact host (g2 d "minTemperature") = Normal minStr
    /\ e = Stack (Some horizontally) true
             [Image dSymName (16, 16) white;
              Spacer (Some 3);
              Stack (Some vertically) false
                [Text weekday
                      (if Nat.eqb i 0 then boldSystemFont 10 else mediumSystemFont 9)
                      white (Some 1) (Some (7 # 10));
                 Text (maxStr ++ " / " ++ minStr)
                      (systemFont 9) (hex "#f5f5f7") (Some 1) (Some (7 # 10))]].
Proof.
  unfold Daily.dayStack.
  destruct (Daily.weekdayLabel host i d) as [weekday|]; cbn [and_then];
    [|discriminate].
  destruct (Daily.pickSymbol host _ (JBool true)) as [dSymName|]; cbn [and_then];
    [|discriminate].
  destruct (Daily.fmtTempCompact host (g2 d "maxTemperature")) as [maxStr|];
    cbn [and_then]; [|discriminate].
  destruct (Daily.fmtTempCompact host (g2 d "minTemperature")) as [minStr|];
    cbn [and_then]; [|discriminate].
  intros [= <-]. exists weekday, dSymName, maxStr, minStr.
  repeat split; reflexivity.
Qed.

Lemma miniRow_inv host n i d rest row :
  Daily.miniRow host n i (d :: rest) = Normal row ->
  exists stack more,
    Daily.dayStack host i d = Normal stack
    /\ Daily.miniRow host n (S i) rest = Normal more
    /\ row = (stack :: (if (i <? n - 1)%nat then [Spacer (Some 6)] else [])
                ++ more)%list.
Proof.
  cbn [Daily.miniRow].
  destruct (Daily.dayStack host i d) as [stack|]; cbn [and_then]; [|discriminate].
  destruct (Daily.miniRow host n (S i) rest) as [more|]; cbn [and_then];
    [|discriminate].
  intros [= <-]. exists stack, more. repeat split; reflexivity.
Qed.

Lemma miniRow_symbols host n : forall days i row s,
  Daily.miniRow host n i days = Normal row ->
  In s (flat_map symbols_of row) ->
  In s (weather_symbols ++ day_symbols).
Proof.
  induction days as [|d days IH]; intros i row s Hr H.
  - injection Hr as <-. destruct H.
  - apply miniRow_inv in Hr as (stack & more & Hs & Hm & ->).
    cbn [flat_map] in H.
    apply in_app_or in H. destruct H as [H|H].
    + apply dayStack_inv in Hs as (weekday & dSymName & maxStr & minStr
                                   & _ & Hp & _ & _ & ->).
      cbn [symbols_of flat_map app] in H.
      destruct H as [<-|[]].
      apply (Daily_pickSymbol_range host _ (JBool true) _ Hp).
    + rewrite flat_map_app in H. apply in_app_or in H. destruct H as [H|H].
      * destruct (i <? n - 1)%nat; simpl in H; tauto.
      * exact (IH _ _ _ Hm H).
Qed.

(** X3: the forecast widget never shows a night icon.  Whatever the
    payload, every image of the widget [buildWidget] returns (today's
    icon and the icon of each day of the bottom row) is one of the
    five weather icons or one of the two day icons: [pickSymbol] is
    always called with [true] for the time of day. *)
Theorem Daily_widget_day_icons : forall host forecast placeName w widget s,
  fst (Daily.buildWidget host forecast placeName w) = Normal widget ->
  In s (symbols widget) ->
  In s (weather_symbols ++ day_symbols) /\ ~ In s night_symbols.
Proof.
  intros host forecast placeName w widget s Hb Hs.
  assert (Hday : In s (weather_symbols ++ day_symbols)).
  { apply fst_run in Hb as (w' & Hb).
    apply Daily_buildWidget_inv in Hb.
    destruct Hb as [(_ & -> & _) | (_ & Hb)]; [destruct Hs|].
    destruct Hb as (maxTempC & gradient & currentTempStr & feelsMaxStr
                    & feelsMinStr & windStr & humStr & todaySymbolName & row
                    & _ & _ & _ & _ & _ & _ & _ & Hp & Hr & _ & ->).
    unfold symbols, Daily.kv in Hs.
    cbn [elements flat_map symbols_of app] in Hs.
    destruct Hs as [<-|Hs].
    - apply (Daily_pickSymbol_range host _ (JBool true) _ Hp).
    - rewrite app_nil_r in Hs. exact (miniRow_symbols _ _ _ _ _ _ Hr Hs). }
  split; [exact Hday|].
  intros Hn. simpl in Hday, Hn.
  repeat match goal with
         | H : _ \/ _ |- _ => destruct H
         | H : False |- _ => destruct H
         end; subst; discriminate.
Qed.

Lemma Daily_widget_day_icons_witness :
  let night := JObj [("weatherCondition", JObj [("type", JStr "CLEAR")])] in
  let forecast :=
    JObj [("forecastDays",
           JArr [JObj [("nighttimeForecast", night)];
                 JObj [("daytimeForecast",
                        JObj [("weatherCondition", JStr "Cloudy")])]])] in
  let w := RefHost.world None 1700000000000 RefHost.offline in
  let widget :=
    match fst (Daily.buildWidget RefHost.host forecast "Home" w) with
    | Normal widget => widget
    | Throw _ => Daily.placeholder
    end in
  fst (Daily.buildWidget RefHost.host forecast "Home" w) = Normal widget
  /\ symbols widget = ["sun.max.fill"; "sun.max.fill"; "cloud.sun.fill"]
  /\ ~ In "sun.max.fill" night_symbols.
Proof.
  intros night forecast w widget.
  assert (E : fst (Daily.buildWidget RefHost.host forecast "Home" w) = Normal widget)
    by (vm_compute; reflexivity).
  assert (S : symbols widget = ["sun.max.fill"; "sun.max.fill"; "cloud.sun.fill"])
    by (vm_compute; reflexivity).
  split; [exact E|]. split; [exact S|].
  refine (proj2 (Daily_widget_day_icons RefHost.host forecast "Home" w widget
                   "sun.max.fill" E _)).
  rewrite S. left. reflexivity.
Defined.

Lemma Daily_gradient_palette host tempC gradient :
  Daily.gradientFor host tempC = Normal gradient ->
  In (colors gradient) [palette Cold; palette Mild; palette Hot].
Proof.
  unfold Daily.gradientFor.
  destruct (nullish tempC); cbn [negb and_then];
    [intros [= <-]; simpl; tauto|].
  destruct (ToNumber host tempC) as [n|e]; cbn [and_then]; [|discriminate].
  destruct (num_ge n (num_of_Z 24)); cbn [and_then];
    [intros [= <-]; simpl; tauto|].
  destruct (num_ge n (num_of_Z 10)); cbn [and_then];
    intros [= <-]; simpl; tauto.
Qed.

(** X4: in the current-conditions widget the icon and the background
    agree on day and night.  The widget holds one image; when the
    payload's [isDaytime] is missing or falsy the image is a weather
    or a night icon and the background is the night palette, whatever
    the temperature; when it is truthy the image is a weather or a day
    icon and the background is one of the three temperature palettes. *)
Theorem Current_widget_day_night : forall host data placeName w widget,
  fst (Current.buildWidget host data placeName w) = Normal widget ->
  let day := truthy (at_path data "isDaytime") in
  exists icon gradient,
    symbols widget = [icon]
    /\ backgroundGradient widget = Some gradient
    /\ In icon (weather_symbols ++ if day then day_symbols else night_symbols)
    /\ (day = false -> colors gradient = palette Night)
    /\ (day = true ->
        In (colors gradient) [palette Cold; palette Mild; palette Hot]).
Proof.
  intros host data placeName w widget Hb day.
  apply fst_run in Hb as (w' & Hb).
  apply Current_buildWidget_inv in Hb. cbv zeta in Hb.
  destruct Hb as (condStr & tempStr & feelsStr & windStr & tempC & gradient
                  & symName & humStr & _ & _ & _ & _ & Ht & Hg & Hp & _ & _ & ->).
  rewrite (g2_at_path data "isDaytime" eq_refl) in Hg, Hp. fold day in Hg, Hp.
  exists symName, gradient.
  split; [reflexivity|]. split; [reflexivity|].
  split; [|split].
  - apply (Current_pickSymbol_range host _ (JBool day) _ Hp).
  - intros Hd. rewrite (Current_gradient_night host tempC (JBool day)) in Hg.
    + now injection Hg as <-.
    + exact Hd.
    + destruct (parseTempC_value host _ tempC Ht) as [-> | [n ->]]; reflexivity.
  - intros Hd. rewrite (Current_gradient_day host _ (JBool day) Hd) in Hg.
    exact (Daily_gradient_palette host tempC gradient Hg).
Qed.

Lemma Current_widget_day_night_witness :
  let data := JObj [("weatherCondition", JStr "Partly cloudy");
                    ("temperature", JObj [("degrees", JInt 30)])] in
  let w := RefHost.world None 1700000000000 RefHost.offline in
  let widget :=
    match fst (Current.buildWidget RefHost.host data "Home" w) with
    | Normal widget => widget
    | Throw _ => Daily.placeholder
    end in
  fst (Current.buildWidget RefHost.host data "Home" w) = Normal widget
  /\ truthy (at_path data "isDaytime") = false
  /\ symbols widget = ["cloud.moon.fill"]
  /\ option_map colors (backgroundGradient widget) = Some (palette Night).
Proof.
  intros data w widget.
  assert (E : fst (Current.buildWidget RefHost.host data "Home" w) = Normal widget)
    by (vm_compute; reflexivity).
  split; [exact E|]. split; [reflexivity|].
  split; [vm_compute; reflexivity|].
  destruct (Current_widget_day_night RefHost.host data "Home" w widget E)
    as (icon & gradient & _ & Hg & _ & Hn & _).
  rewrite Hg. cbn [option_map]. now rewrite (Hn eq_refl).
Defined.

(** ** Letter case *)

Lemma lower_upper_char c : lower_char (upper_char c) = lower_char c.
Proof. destruct c as [[] [] [] [] [] [] [] []]; reflexivity. Qed.

Lemma upper_lower_char c : upper_char (lower_char c) = upper_char c.
Proof. destruct c as [[] [] [] [] [] [] [] []]; reflexivity. Qed.

Lemma lower_char_idem c : lower_char (lower_char c) = lower_char c.
Proof. destruct c as [[] [] [] [] [] [] [] []]; reflexivity. Qed.

Lemma toLowerCase_toUpperCase s : toLowerCase (toUpperCase s) = toLowerCase s.
Proof.
  induction s as [|c s IH]; [reflexivity|].
  cbn [toLowerCase toUpperCase map_string].
  f_equal; [apply lower_upper_char | exact IH].
Qed.

Lemma toUpperCase_toLowerCase s : toUpperCase (toLowerCase s) = toUpperCase s.
Proof.
  induction s as [|c s IH]; [reflexivity|].
  cbn [toLowerCase toUpperCase map_string].
  f_equal; [apply upper_lower_char | exact IH].
Qed.

Lemma toLowerCase_idem s : toLowerCase (toLowerCase s) = toLowerCase s.
Proof.
  induction s as [|c s IH]; [reflexivity|].
  cbn [toLowerCase map_string].
  f_equal; [apply lower_char_idem | exact IH].
Qed.

Lemma condition_text_string s : condition_text (JStr s) = toLowerCase s.
Proof. destruct s; reflexivity. Qed.

Lemma getConditionType_string host s :
  Daily.getConditionType host (JStr s) = Normal "".
Proof. destruct s; reflexivity. Qed.

Lemma condition_text_type s :
  condition_text (JObj [("type", JStr s)]) = toLowerCase s.
Proof. reflexivity. Qed.

Lemma getConditionType_type host s :
  Daily.getConditionType host (JObj [("type", JStr s)]) = Normal (toUpperCase s).
Proof. destruct s; reflexivity. Qed.

(** X5: the icon does not depend on the letter case (A to Z) of the
    condition.  In both scripts a condition given as text selects the
    same icon in upper case, in lower case and as written; in the
    forecast script so does a condition given by its [type] tag. *)
Theorem pickSymbol_ignores_case : forall host s isDaytime,
  (Current.pickSymbol host (JStr (toUpperCase s)) isDaytime
     = Current.pickSymbol host (JStr s) isDaytime
   /\ Current.pickSymbol host (JStr (toLowerCase s)) isDaytime
     = Current.pickSymbol host (JStr s) isDaytime)
  /\ (Daily.pickSymbol host (JStr (toUpperCase s)) isDaytime
        = Daily.pickSymbol host (JStr s) isDaytime
      /\ Daily.pickSymbol host (JStr (toLowerCase s)) isDaytime
        = Daily.pickSymbol host (JStr s) isDaytime)
  /\ (Daily.pickSymbol host (JObj [("type", JStr (toUpperCase s))]) isDaytime
        = Daily.pickSymbol host (JObj [("type", JStr s)]) isDaytime
      /\ Daily.pickSymbol host (JObj [("type", JStr (toLowerCase s))]) isDaytime
        = Daily.pickSymbol host (JObj [("type", JStr s)]) isDaytime).
Proof.
  intros host s isDaytime.
  rewrite !Current_pickSymbol_rules, !Daily_pickSymbol_rules.
  rewrite !condition_text_string, !getConditionType_string.
  rewrite !condition_text_type, !getConditionType_type.
  cbn [and_then].
  rewrite toLowerCase_toUpperCase, toLowerCase_idem.
  rewrite toUpperCase_toLowerCase, toUpperCase_idem.
  repeat split; reflexivity.
Qed.

(** ** The two scripts side by side *)

(** X6: the two scripts choose the same icon from a condition text.
    When no rule on the [type] tag applies in the forecast script and
    the lower-cased text mentions none of "sleet", "drizzle" and
    "overcast", the words only the current-conditions script knows,
    [pickSymbol] of one script equals [pickSymbol] of the other. *)
Theorem pickSymbol_scripts_agree : forall host raw isDaytime type,
  Daily.getConditionType host raw = Normal type ->
  first_match typed_rules type (truthy isDaytime) = None ->
  includes (condition_text raw) "sleet" = false ->
  includes (condition_text raw) "drizzle" = false ->
  includes (condition_text raw) "overcast" = false ->
  Daily.pickSymbol host raw isDaytime = Current.pickSymbol host raw isDaytime.
Proof.
  intros host raw isDaytime type Hg Ht H1 H2 H3.
  rewrite Current_pickSymbol_rules, Daily_pickSymbol_rules, Hg.
  cbn [and_then]. rewrite Ht. f_equal.
  unfold icon_by, text_rules, fallback_text_rules.
  cbn [first_match existsb]. rewrite H1, H2, H3.
  generalize (condition_text raw). intros t.
  destruct (includes t "thunder"), (includes t "storm"), (includes t "snow"),
    (includes t "rain"), (includes t "fog"), (includes t "mist"),
    (includes t "haze"), (includes t "cloud"), (includes t "clear"),
    (includes t "sunny"); reflexivity.
Qed.

Lemma pickSymbol_scripts_agree_witness :
  let raw := JObj [("description", JObj [("text", JStr "Scattered Thunderstorms")])] in
  Daily.getConditionType RefHost.host raw = Normal ""
  /\ Daily.pickSymbol RefHost.host raw (JBool true) = Normal "cloud.bolt.rain.fill"
  /\ Current.pickSymbol RefHost.host raw (JBool true)
     = Normal "cloud.bolt.rain.fill".
Proof.
  intros raw.
  pose proof (pickSymbol_scripts_agree RefHost.host raw (JBool true) ""
                eq_refl eq_refl eq_refl eq_refl eq_refl) as H.
  split; [reflexivity|]. split; [reflexivity|]. rewrite <- H. reflexivity.
Defined.

(** ** Temperatures and bearings *)

Lemma Qfloor_unique q z :
  (inject_Z z <= q)%Q -> (q < inject_Z (z + 1))%Q -> Qfloor q = z.
Proof.
  intros Hl Hu.
  pose proof (Qfloor_le q) as H1. pose proof (Qlt_floor q) as H2.
  assert (A : (inject_Z z < inject_Z (Qfloor q + 1))%Q) by lra.
  assert (B : (inject_Z (Qfloor q) < inject_Z (z + 1))%Q) by lra.
  rewrite <- Zlt_Qlt in A, B. lia.
Qed.

Lemma NumberToString_int host z :
  Z.abs z < 10 ^ 21 -> NumberToString host (num_of_Z z) = string_of_Z z.
Proof.
  intros H. unfold NumberToString, num_of_Z, as_integer.
  rewrite Qfloor_Z.
  assert (E : Qeq_bool (inject_Z z) (inject_Z z) = true)
    by (apply Qeq_bool_iff; reflexivity).
  rewrite E. apply Z.ltb_lt in H. now rewrite H.
Qed.

Lemma round_half_up_near q :
  (inject_Z (round_half_up q) - (1 # 2) <= q
   /\ q < inject_Z (round_half_up q) + (1 # 2))%Q.
Proof.
  unfold round_half_up.
  pose proof (Qfloor_le (q + (1 # 2))) as H1.
  pose proof (Qlt_floor (q + (1 # 2))) as H2.
  rewrite inject_Z_plus in H2. change (inject_Z 1) with 1%Q in H2.
  split; lra.
Qed.

(** X7: [fmtTemp] prints the reading rounded to the nearest whole
    degree (a half goes up), followed by the degree sign and F when
    the unit is FAHRENHEIT, C otherwise; no conversion takes place.
    [fmtTempCompact] prints the same number and the degree sign
    alone.  Both print a dash when the reading is absent. *)
Theorem fmtTemp_rounds : forall host tempObj,
  let degrees := at_path tempObj "degrees" in
  let unit := at_path tempObj "unit" in
  (nullish degrees = true ->
   fmtTemp host tempObj = Normal "—"
   /\ Daily.fmtTempCompact host tempObj = Normal "—")
  /\ (forall q,
        degrees = JNum (Fin q) ->
        let z := round_half_up q in
        (inject_Z z - (1 # 2) <= q /\ q < inject_Z z + (1 # 2))%Q
        /\ (Z.abs z < 10 ^ 21 ->
            fmtTemp host tempObj
            = Normal
                (string_of_Z z
                   ++ (if strict_eq_str unit "FAHRENHEIT" then "°F" else "°C"))
            /\ Daily.fmtTempCompact host tempObj = Normal (string_of_Z z ++ "°"))).
Proof.
  intros host tempObj degrees unit.
  unfold fmtTemp, Daily.fmtTempCompact.
  rewrite (g2_at_path tempObj "degrees" eq_refl).
  rewrite (g2_at_path tempObj "unit" eq_refl).
  fold degrees. fold unit.
  split.
  - intros Hn. rewrite Hn. split; reflexivity.
  - intros q Hq. split; [apply round_half_up_near|].
    intros Hz. rewrite Hq.
    cbn [nullish ToNumber convertible number_of and_then Math_round].
    fold (round_half_up q). fold (num_of_Z (round_half_up q)).
    rewrite (NumberToString_int host _ Hz). split; reflexivity.
Qed.

Lemma fmtTemp_rounds_witness :
  let reading := JObj [("degrees", JNum (Fin (725 # 10))); ("unit", JStr "FAHRENHEIT")] in
  at_path reading "degrees" = JNum (Fin (725 # 10))
  /\ round_half_up (725 # 10) = 73
  /\ fmtTemp RefHost.host reading = Normal "73°F"
  /\ Daily.fmtTempCompact RefHost.host reading = Normal "73°"
  /\ nullish (at_path (JObj [("unit", JStr "CELSIUS")]) "degrees") = true
  /\ fmtTemp RefHost.host (JObj [("unit", JStr "CELSIUS")]) = Normal "—".
Proof.
  intros reading.
  split; [reflexivity|]. split; [reflexivity|].
  destruct (fmtTemp_rounds RefHost.host reading) as [_ Hq].
  destruct (Hq (725 # 10) eq_refl) as [_ Hz].
  destruct (Hz ltac:(vm_compute; reflexivity)) as [H1 H2].
  split; [exact H1|]. split; [exact H2|].
  split; [reflexivity|].
  exact (proj1 (proj1 (fmtTemp_rounds RefHost.host (JObj [("unit", JStr "CELSIUS")]))
                  eq_refl)).
Defined.

Lemma Qsign_neg q : (q < 0)%Q -> (Qsign q <? 0) = true.
Proof.
  unfold Qlt, Qsign. simpl. intros H. rewrite Z.mul_1_r in H.
  apply Z.ltb_lt. destruct (Qnum q); simpl; lia.
Qed.

(** The index the code computes from a reading below zero. *)
Lemma code_index_neg d :
  (d < 0)%Q ->
  num_rem (Math_round (num_div (num_rem (Fin d) (num_of_Z 360)) (Fin (225 # 10))))
          (num_of_Z 16)
  = num_rem
      (num_of_Z
         (round_half_up
            ((d - (360 # 1) * inject_Z (Qceiling (d / (360 # 1)))) / (225 # 10))))
      (num_of_Z 16).
Proof.
  intros Hd. f_equal.
  unfold num_rem, num_of_Z, num_div, Math_round, round_half_up.
  change (Qsign (inject_Z 360) =? 0) with false.
  change (Qsign (225 # 10) =? 0) with false. cbv iota.
  change (inject_Z 360) with (360 # 1)%Q.
  unfold Qtrunc. rewrite Qsign_neg.
  2:{ unfold Qdiv. change (/ (360 # 1))%Q with (1 # 360)%Q. lra. }
  do 2 f_equal. apply Qfloor_comp. now rewrite !Qred_correct.
Qed.

Lemma compass_label_north d : compass_index d = 0 -> compass_label d = "N".
Proof. intros H. unfold compass_label. now rewrite H. Qed.

Lemma degToDir_neg host d :
  (d < 0)%Q ->
  degToDir host (JNum (Fin d)) = Normal (JStr (compass_label d))
  \/ degToDir host (JNum (Fin d)) = Normal JUndefined.
Proof.
  intros Hd. unfold degToDir, isNaN.
  cbn [nullish ToNumber convertible number_of and_then num_isNaN].
  rewrite (code_index_neg d Hd).
  pose proof (Qle_ceiling (d / (360 # 1))) as Ht1.
  pose proof (Qceiling_lt (d / (360 # 1))) as Ht2.
  pose proof (Qfloor_le (d / (360 # 1))) as Hf1.
  pose proof (Qlt_floor (d / (360 # 1))) as Hf2.
  assert (Htf : Qceiling (d / (360 # 1)) = Qfloor (d / (360 # 1))
                \/ Qceiling (d / (360 # 1)) = Qfloor (d / (360 # 1)) + 1).
  { assert (A : (inject_Z (Qfloor (d / (360 # 1)))
                 <= inject_Z (Qceiling (d / (360 # 1))))%Q) by lra.
    assert (B : (inject_Z (Qceiling (d / (360 # 1)) - 1)
                 < inject_Z (Qfloor (d / (360 # 1)) + 1))%Q) by lra.
    rewrite <- Zle_Qle in A. rewrite <- Zlt_Qlt in B. lia. }
  unfold compass_label at 1. unfold compass_index, Qmod.
  set (f := Qfloor (d / (360 # 1))) in *.
  set (t := Qceiling (d / (360 # 1))) in *.
  rewrite inject_Z_plus in Hf2. unfold Z.sub in Ht2.
  rewrite inject_Z_plus in Ht2.
  change (inject_Z 1) with 1%Q in Hf2.
  change (inject_Z (- (1))) with (- (1))%Q in Ht2.
  unfold Qdiv in Ht1, Ht2, Hf1, Hf2.
  change (/ (360 # 1))%Q with (1 # 360)%Q in Ht1, Ht2, Hf1, Hf2.
  set (x := (d - (360 # 1) * inject_Z t)%Q) in *.
  assert (Hx : (- (360 # 1) < x /\ x <= 0)%Q) by (unfold x; split; lra).
  pose proof (round_half_up_near (x / (225 # 10))) as Hy.
  set (y := round_half_up (x / (225 # 10))) in *.
  unfold Qdiv in Hy. change (/ (225 # 10))%Q with (10 # 225)%Q in Hy.
  assert (Hrange : -16 <= y <= 0).
  { assert (A : (inject_Z (-17) < inject_Z y)%Q)
      by (change (inject_Z (-17)) with (- (17 # 1))%Q; lra).
    assert (B : (inject_Z y < inject_Z 1)%Q)
      by (change (inject_Z 1) with 1%Q; lra).
    rewrite <- Zlt_Qlt in A, B. lia. }
  assert (Hcases : y = -16 \/ y = 0
                   \/ y = -1 \/ y = -2 \/ y = -3 \/ y = -4 \/ y = -5 \/ y = -6
                   \/ y = -7 \/ y = -8 \/ y = -9 \/ y = -10 \/ y = -11
                   \/ y = -12 \/ y = -13 \/ y = -14 \/ y = -15) by lia.
  destruct Hcases as [E | [E | Hcases]].
  - (* the remainder is -0, the first entry *)
    left. rewrite E in Hy |- *.
    change (inject_Z (-16)) with (- (16 # 1))%Q in Hy.
    destruct Htf as [Htf | Htf].
    + exfalso. unfold x in Hy, Hx. rewrite Htf in Hy, Hx. lra.
    + assert (Ei : round_half_up
                     ((d - (360 # 1) * inject_Z f) * / (225 # 10)) = 0).
      { unfold round_half_up. apply Qfloor_unique.
        - change (inject_Z 0) with 0%Q. change (/ (225 # 10))%Q with (10 # 225)%Q.
          unfold x in Hy, Hx. rewrite Htf, inject_Z_plus in Hy, Hx.
          change (inject_Z 1) with 1%Q in Hy, Hx. lra.
        - change (inject_Z (0 + 1)) with 1%Q. change (/ (225 # 10))%Q with (10 # 225)%Q.
          unfold x in Hy, Hx. rewrite Htf, inject_Z_plus in Hy, Hx.
          change (inject_Z 1) with 1%Q in Hy, Hx. lra. }
      unfold Qdiv. rewrite Ei. reflexivity.
  - left. rewrite E in Hy |- *. change (inject_Z 0) with 0%Q in Hy.
    destruct Htf as [Htf | Htf].
    + assert (Ei : round_half_up
                     ((d - (360 # 1) * inject_Z f) * / (225 # 10)) = 0).
      { rewrite <- Htf. exact E. }
      unfold Qdiv. rewrite Ei. reflexivity.
    + assert (Ei : round_half_up
                     ((d - (360 # 1) * inject_Z f) * / (225 # 10)) = 16).
      { unfold round_half_up. apply Qfloor_unique.
        - change (inject_Z 16) with (16 # 1)%Q. change (/ (225 # 10))%Q with (10 # 225)%Q.
          unfold x in Hy, Hx. rewrite Htf, inject_Z_plus in Hy, Hx.
          change (inject_Z 1) with 1%Q in Hy, Hx. lra.
        - change (inject_Z (16 + 1)) with (17 # 1)%Q.
          change (/ (225 # 10))%Q with (10 # 225)%Q.
          unfold x in Hy, Hx. rewrite Htf, inject_Z_plus in Hy, Hx.
          change (inject_Z 1) with 1%Q in Hy, Hx. lra. }
      unfold Qdiv. rewrite Ei. reflexivity.
  - right. clear Hy Hrange. clearbody y.
    repeat (destruct Hcases as [-> | Hcases]; [reflexivity|]).
    subst y. reflexivity.
Qed.

Lemma compass_label_truthy d : truthy (JStr (compass_label d)) = true.
Proof.
  unfold compass_label.
  assert (H : 0 <= compass_index d < 16)
    by (unfold compass_index; apply Z.mod_pos_bound; lia).
  exact (proj2 (compass_entry {| JSON_parse := fun _ => None;
                                 JSON_stringify := fun _ => "";
                                 StringToNumber := fun _ => NaN;
                                 NumberToString_host := fun _ => "";
                                 native_toString := fun _ => "";
                                 toLocaleTimeString := fun _ => "";
                                 toLocaleWeekday := fun _ _ _ => "";
                                 toFixed2 := fun _ => "" |} _ H)).
Qed.

Lemma append_spaced a b c :
  a ++ " " ++ b ++ " " ++ c = (a ++ " " ++ b) ++ " " ++ c.
Proof. induction a as [|x a IH]; simpl; [reflexivity | f_equal; exact IH]. Qed.

(** X8: the scripts never name a wrong wind direction.  For every
    reading that is a number, below zero or not, [degToDir] gives
    either the label of the sixteen-point compass that belongs to the
    reading (with the remainder of 360 taken between 0 and 360) or
    [undefined], and [undefined] for readings below zero only;
    [fmtWind] accordingly ends in that label or in the unit. *)
Theorem degToDir_label_or_nothing : forall host d,
  (degToDir host (JNum (Fin d)) = Normal (JStr (compass_label d))
   \/ ((d < 0)%Q /\ degToDir host (JNum (Fin d)) = Normal JUndefined))
  /\ (forall wind,
        nullish (at_path wind "speed.value") = false ->
        at_path wind "direction.degrees" = JNum (Fin d) ->
        let head n :=
          NumberToString host (Math_round n)
            ++ " " ++ unit_symbol (at_path wind "speed.unit") in
        fmtWind host wind
        = and_then (ToNumber host (at_path wind "speed.value"))
            (fun n => Normal (head n ++ " " ++ compass_label d))
        \/ ((d < 0)%Q
            /\ fmtWind host wind
               = and_then (ToNumber host (at_path wind "speed.value"))
                   (fun n => Normal (head n)))).
Proof.
  intros host d.
  assert (H : degToDir host (JNum (Fin d)) = Normal (JStr (compass_label d))
              \/ ((d < 0)%Q /\ degToDir host (JNum (Fin d)) = Normal JUndefined)).
  { destruct (Qlt_le_dec d 0) as [Hneg | Hpos].
    - destruct (degToDir_neg host d Hneg) as [H | H]; [left; exact H|].
      right. split; assumption.
    - left. now apply degToDir_nonneg. }
  split; [exact H|].
  intros wind Hs Hdeg head. rewrite fmtWind_shape, Hs, Hdeg.
  destruct H as [-> | [Hneg ->]]; cbn [and_then].
  - left. rewrite compass_label_truthy. cbn [text_of].
    destruct (ToNumber host (at_path wind "speed.value")) as [n|e];
      [|reflexivity].
    cbn [and_then]. f_equal. unfold head. apply append_spaced.
  - right. split; [exact Hneg|]. cbn [truthy].
    destruct (ToNumber host (at_path wind "speed.value")) as [n|e];
      [|reflexivity].
    cbn [and_then]. f_equal. unfold head. now rewrite append_empty.
Qed.

Lemma degToDir_label_or_nothing_witness :
  let wind := JObj [("speed", JObj [("value", JInt 3)]);
                    ("direction", JObj [("degrees", JInt (-10))])] in
  degToDir RefHost.host (JInt (-10)) = Normal (JStr "N")
  /\ nullish (at_path wind "speed.value") = false
  /\ at_path wind "direction.degrees" = JNum (Fin (-10 # 1))
  /\ (fmtWind RefHost.host wind = Normal "3 km/h N"
      \/ fmtWind RefHost.host wind = Normal "3 km/h").
Proof.
  intros wind.
  split; [reflexivity|]. split; [reflexivity|]. split; [reflexivity|].
  destruct (proj2 (degToDir_label_or_nothing RefHost.host (-10 # 1))
              wind eq_refl eq_refl) as [H | [_ H]].
  - left. exact H.
  - right. exact H.
Defined.

(** X9: each label covers the sector of 22.5 degrees centred on its
    bearing.  For a reading from 0 up to 360, label number [k] of the
    list (N is number 0, NNE number 1, and so on clockwise) is given
    exactly to the readings from 22.5 k - 11.25 up to 22.5 k + 11.25,
    the upper end excluded, and N also to those from 348.75 on. *)
Theorem degToDir_sectors : forall host d k,
  0 <= k < 16 ->
  (0 <= d)%Q ->
  (inject_Z k * (225 # 10) - (1125 # 100) <= d)%Q ->
  (d < inject_Z k * (225 # 10) + (1125 # 100))%Q ->
  degToDir host (JNum (Fin d)) = Normal (JStr (nth (Z.to_nat k) compass ""))
  /\ (forall d', (34875 # 100 <= d')%Q -> (d' < 360 # 1)%Q ->
                 degToDir host (JNum (Fin d')) = Normal (JStr "N")).
Proof.
  intros host d k Hk H0 Hl Hu.
  assert (Hfloor : forall e, (0 <= e)%Q -> (e < 360 # 1)%Q ->
                             Qfloor (e / (360 # 1)) = 0).
  { intros e He0 He1. apply Qfloor_unique.
    - change (inject_Z 0) with 0%Q. unfold Qdiv.
      change (/ (360 # 1))%Q with (1 # 360)%Q. lra.
    - change (inject_Z (0 + 1)) with 1%Q. unfold Qdiv.
      change (/ (360 # 1))%Q with (1 # 360)%Q. lra. }
  split.
  - rewrite (degToDir_nonneg host (JNum (Fin d)) d eq_refl eq_refl H0).
    do 2 f_equal. unfold compass_label. f_equal. f_equal.
    unfold compass_index, Qmod.
    assert (Hd : (d < 360 # 1)%Q).
    { assert (A : (inject_Z k <= inject_Z 15)%Q) by (rewrite <- Zle_Qle; lia).
      change (inject_Z 15) with (15 # 1)%Q in A. lra. }
    rewrite (Hfloor d H0 Hd).
    assert (E : round_half_up ((d - (360 # 1) * inject_Z 0) / (225 # 10)) = k).
    { unfold round_half_up. apply Qfloor_unique.
      - change (inject_Z 0) with 0%Q. unfold Qdiv.
        change (/ (225 # 10))%Q with (10 # 225)%Q. lra.
      - rewrite inject_Z_plus. change (inject_Z 1) with 1%Q.
        change (inject_Z 0) with 0%Q. unfold Qdiv.
        change (/ (225 # 10))%Q with (10 # 225)%Q. lra. }
    rewrite E. apply Z.mod_small. lia.
  - intros d' Hl' Hu'.
    assert (H0' : (0 <= d')%Q) by lra.
    rewrite (degToDir_nonneg host (JNum (Fin d')) d' eq_refl eq_refl H0').
    do 2 f_equal. apply compass_label_north.
    unfold compass_index, Qmod. rewrite (Hfloor d' H0' Hu').
    assert (E : round_half_up ((d' - (360 # 1) * inject_Z 0) / (225 # 10)) = 16).
    { unfold round_half_up. apply Qfloor_unique.
      - change (inject_Z 0) with 0%Q. change (inject_Z 16) with (16 # 1)%Q.
        unfold Qdiv. change (/ (225 # 10))%Q with (10 # 225)%Q. lra.
      - change (inject_Z (16 + 1)) with (17 # 1)%Q.
        change (inject_Z 0) with 0%Q. unfold Qdiv.
        change (/ (225 # 10))%Q with (10 # 225)%Q. lra. }
    rewrite E. reflexivity.
Qed.

Lemma degToDir_sectors_witness :
  0 <= 4 < 16
  /\ (0 <= 1012 # 10)%Q
  /\ (inject_Z 4 * (225 # 10) - (1125 # 100) <= 1012 # 10)%Q
  /\ (1012 # 10 < inject_Z 4 * (225 # 10) + (1125 # 100))%Q
  /\ degToDir RefHost.host (JNum (Fin (1012 # 10))) = Normal (JStr "E")
  /\ degToDir RefHost.host (JNum (Fin (34875 # 100))) = Normal (JStr "N").
Proof.
  assert (A : 0 <= 4 < 16) by lia.
  assert (B : (0 <= 1012 # 10)%Q) by (vm_compute; discriminate).
  assert (C : (inject_Z 4 * (225 # 10) - (1125 # 100) <= 1012 # 10)%Q)
    by (vm_compute; discriminate).
  assert (D : (1012 # 10 < inject_Z 4 * (225 # 10) + (1125 # 100))%Q)
    by (vm_compute; reflexivity).
  destruct (degToDir_sectors RefHost.host (1012 # 10) 4 A B C D) as [H1 H2].
  split; [exact A|]. split; [exact B|]. split; [exact C|]. split; [exact D|].
  split; [exact H1|].
  apply H2; [vm_compute; discriminate | vm_compute; reflexivity].
Defined.

(** X10: a full turn changes nothing.  For every reading that is not
    below zero, the reading and the reading plus 360 get the same
    label, from [degToDir] and therefore from [fmtWind]. *)
Theorem degToDir_full_turn : forall host d,
  (0 <= d)%Q ->
  degToDir host (JNum (Fin (d + (360 # 1))))
  = degToDir host (JNum (Fin d)).
Proof.
  intros host d Hd.
  rewrite (degToDir_nonneg host (JNum (Fin d)) d eq_refl eq_refl Hd).
  assert (Hd' : (0 <= d + (360 # 1))%Q) by lra.
  rewrite (degToDir_nonneg host (JNum (Fin (d + (360 # 1)))) _ eq_refl eq_refl Hd').
  do 2 f_equal. unfold compass_label. f_equal. f_equal.
  unfold compass_index, Qmod, round_half_up. f_equal.
  pose proof (Qfloor_le (d / (360 # 1))) as H1.
  pose proof (Qlt_floor (d / (360 # 1))) as H2.
  rewrite inject_Z_plus in H2. change (inject_Z 1) with 1%Q in H2.
  assert (E : Qfloor ((d + (360 # 1)) / (360 # 1)) = Qfloor (d / (360 # 1)) + 1).
  { apply Qfloor_unique.
    - rewrite inject_Z_plus. change (inject_Z 1) with 1%Q.
      unfold Qdiv in *. change (/ (360 # 1))%Q with (1 # 360)%Q in *. lra.
    - rewrite !inject_Z_plus. change (inject_Z 1) with 1%Q.
      unfold Qdiv in *. change (/ (360 # 1))%Q with (1 # 360)%Q in *. lra. }
  rewrite E, inject_Z_plus. change (inject_Z 1) with 1%Q.
  apply Qfloor_comp. unfold Qdiv. change (/ (225 # 10))%Q with (10 # 225)%Q.
  set (F := inject_Z (Qfloor (d * / (360 # 1)))). ring.
Qed.

Lemma degToDir_full_turn_witness :
  (0 <= 335 # 1)%Q
  /\ degToDir RefHost.host (JNum (Fin ((335 # 1) + (360 # 1))))
     = degToDir RefHost.host (JNum (Fin (335 # 1))).
Proof.
  assert (A : (0 <= 335 # 1)%Q) by (vm_compute; discriminate).
  split; [exact A|].
  exact (degToDir_full_turn RefHost.host (335 # 1) A).
Defined.

(** ** The run as a whole *)

Lemma readCache_mode host ttl w :
  runsInWidget (snd (Shared.readCache host ttl w)) = runsInWidget w.
Proof.
  unfold Shared.readCache, bind, try_catch, fileExists, readString, parse_json,
    lift, Date_now, ret, throw.
  destruct (file w) as [s|] eqn:Ef; cbn; rewrite ?Ef; cbn; [|reflexivity].
  destruct (JSON_parse host s) as [j|]; cbn; [|reflexivity].
  destruct (member j "timestamp") as [t|]; cbn; [|reflexivity].
  destruct (truthy t); cbn; [|reflexivity].
  destruct (ToNumber host t) as [stamp|]; cbn; [|reflexivity].
  match goal with
  | |- context [if ?b then _ else _] => destruct b; cbn; [reflexivity|]
  end.
  destruct (member j "data"); reflexivity.
Qed.

Lemma settle_mode host ttl w :
  runsInWidget (snd (Shared.settle host ttl w)) = runsInWidget w.
Proof.
  unfold Shared.settle, bind, attempt.
  pose proof (readCache_mode host ttl w) as Hr.
  destruct (readCache_value host ttl w) as (w1 & E & _).
  rewrite E in Hr |- *. cbn [snd] in Hr.
  pose proof (fetch_pure w1) as Hp.
  destruct (fetch w1) as [fetched w2]. cbn [snd] in Hp. subst w2.
  destruct fetched as [fresh | netErr].
  - rewrite writeCache_effect. unfold ret.
    destruct (writable w1); cbn; exact Hr.
  - unfold onNetErr, throw, ret. destruct (negb _); cbn; exact Hr.
Qed.

Lemma Current_buildWidget_mode host data placeName w :
  runsInWidget (snd (Current.buildWidget host data placeName w)) = runsInWidget w
  /\ file (snd (Current.buildWidget host data placeName w)) = file w.
Proof.
  destruct (Current_buildWidget_clock host data placeName w) as (n & -> & _).
  split; reflexivity.
Qed.

Lemma Daily_buildWidget_mode host data placeName w :
  runsInWidget (snd (Daily.buildWidget host data placeName w)) = runsInWidget w
  /\ file (snd (Daily.buildWidget host data placeName w)) = file w.
Proof.
  destruct (Daily_buildWidget_clock host data placeName w) as (n & -> & _).
  split; reflexivity.
Qed.

(** The widget of the outer [catch]. *)
Lemma errorWidget_shows title minutes err w :
  exists widget,
    errorWidget title minutes err w
    = (Normal (if negb (runsInWidget w) then presentSmall widget
               else setWidget widget),
       set_ticks w (S (ticks w)))
    /\ texts widget = [title; error_string err]
    /\ refreshAfterDate widget = Some (now w + minutes * 60 * 1000).
Proof. eexists. split; [reflexivity|]. split; reflexivity. Qed.

(** A run is its [try] block, then the preview or the home screen, or
    the error widget. *)
Lemma main_tried title minutes host
      (settle : M JsVal) (buildWidget : JsVal -> string -> M ListWidget) w :
  (forall w0, runsInWidget (snd (settle w0)) = runsInWidget w0) ->
  (forall data placeName w0,
      runsInWidget (snd (buildWidget data placeName w0)) = runsInWidget w0) ->
  exists outcome w1,
    Tried settle (fun data loc => buildWidget data (placeName_of host loc))
          w outcome w1
    /\ runsInWidget w1 = runsInWidget w
    /\ try_catch
         (fun w =>
            (bind (lift (apiKey w)) (fun _ =>
             bind (lift (location w)) (fun loc =>
             bind settle (fun data =>
             bind (buildWidget data (placeName_of host loc)) (fun widget =>
             fun w' =>
               (Normal (if negb (runsInWidget w') then presentMedium widget
                        else setWidget widget), w')))))) w)
         (errorWidget title minutes) w
       = match outcome with
         | Normal widget =>
             (Normal (if negb (runsInWidget w1) then presentMedium widget
                      else setWidget widget), w1)
         | Throw err => errorWidget title minutes err w1
         end.
Proof.
  intros Hs Hb. unfold try_catch, bind, lift.
  destruct (apiKey w) as [key | e] eqn:Hk.
  2:{ exists (Throw e), w. split; [now apply No_key|]. split; reflexivity. }
  destruct (location w) as [loc | e] eqn:Hl.
  2:{ exists (Throw e), w.
      split; [now apply No_location with (key := key)|]. split; reflexivity. }
  pose proof (Hs w) as Hm.
  destruct (settle w) as [[data | e] w1] eqn:Hd; cbn [snd] in Hm.
  2:{ exists (Throw e), w1.
      split; [now apply No_data with (key := key) (loc := loc)|].
      split; [exact Hm | reflexivity]. }
  pose proof (Hb data (placeName_of host loc) w1) as Hm2.
  destruct (buildWidget data (placeName_of host loc) w1) as [[widget | e] w2] eqn:Hw;
    cbn [snd] in Hm2.
  - exists (Normal widget), w2.
    split; [now apply Built with (key := key) (loc := loc) (data := data) (w1 := w1)|].
    split; [congruence | reflexivity].
  - exists (Throw e), w2.
    split; [now apply No_widget with (key := key) (loc := loc) (data := data) (w1 := w1)|].
    split; [congruence | reflexivity].
Qed.

Lemma Current_main_tried host w :
  exists outcome w1,
    Tried (Current.settle host)
          (fun data loc => Current.buildWidget host data (placeName_of host loc))
          w outcome w1
    /\ runsInWidget w1 = runsInWidget w
    /\ Current.main host w
       = match outcome with
         | Normal widget =>
             (Normal (if negb (runsInWidget w1) then presentMedium widget
                      else setWidget widget), w1)
         | Throw err => errorWidget "Weather error" 15 err w1
         end.
Proof.
  apply (main_tried "Weather error" 15 host (Current.settle host)
           (Current.buildWidget host) w).
  - intros w0. apply settle_mode.
  - intros data placeName w0. apply Current_buildWidget_mode.
Qed.

Lemma Daily_main_tried host w :
  exists outcome w1,
    Tried (Daily.settle host)
          (fun data loc => Daily.buildWidget host data (placeName_of host loc))
          w outcome w1
    /\ runsInWidget w1 = runsInWidget w
    /\ Daily.main host w
       = match outcome with
         | Normal widget =>
             (Normal (if negb (runsInWidget w1) then presentMedium widget
                      else setWidget widget), w1)
         | Throw err => errorWidget "Forecast error" 30 err w1
         end.
Proof.
  apply (main_tried "Forecast error" 30 host (Daily.settle host)
           (Daily.buildWidget host) w).
  - intros w0. apply settle_mode.
  - intros data placeName w0. apply Daily_buildWidget_mode.
Qed.

Lemma tried_ending title minutes inWidget outcome w1 :
  runsInWidget w1 = inWidget ->
  exists d w',
    match outcome with
    | Normal widget =>
        (Normal (if negb (runsInWidget w1) then presentMedium widget
                 else setWidget widget), w1)
    | Throw err => errorWidget title minutes err w1
    end = (Normal d, w')
    /\ Ending title inWidget outcome d.
Proof.
  intros Hm. destruct outcome as [widget | err].
  - eexists. eexists. split; [reflexivity|]. rewrite Hm.
    destruct inWidget;
      [exact (Shows_data title true widget) | exact (Shows_data title false widget)].
  - destruct (errorWidget_shows title minutes err w1) as (widget & -> & Ht & _).
    eexists. eexists. split; [reflexivity|]. rewrite Hm.
    destruct inWidget;
      [exact (Shows_error title true err widget Ht)
      | exact (Shows_error title false err widget Ht)].
Qed.

(** X11: a run always ends with a widget on screen, never with an
    exception.  Whatever the Keychain, the location service, the cache
    file, the network and the payload do, [main] of either script
    returns normally.  When the key and the location are there, the
    fetch-or-cache block adopts some data and [buildWidget] returns,
    what is shown is the widget [buildWidget] returned for that data
    and that location; when one of the four raises, the first error
    raised is shown in the error widget, under the script's title.  On
    the home screen the widget is set with [Script.setWidget], in the
    app it is previewed. *)
Theorem main_always_shows : forall host w,
  (exists outcome w1 d w',
     Tried (Current.settle host)
           (fun data loc => Current.buildWidget host data (placeName_of host loc))
           w outcome w1
     /\ Current.main host w = (Normal d, w')
     /\ Ending "Weather error" (runsInWidget w) outcome d)
  /\ (exists outcome w1 d w',
        Tried (Daily.settle host)
              (fun data loc => Daily.buildWidget host data (placeName_of host loc))
              w outcome w1
        /\ Daily.main host w = (Normal d, w')
        /\ Ending "Forecast error" (runsInWidget w) outcome d).
Proof.
  intros host w. split.
  - destruct (Current_main_tried host w) as (outcome & w1 & Ht & Hm & E).
    destruct (tried_ending "Weather error" 15 (runsInWidget w) outcome w1 Hm)
      as (d & w' & Hd & He).
    exists outcome, w1, d, w'. split; [exact Ht|]. split; [|exact He].
    now rewrite E.
  - destruct (Daily_main_tried host w) as (outcome & w1 & Ht & Hm & E).
    destruct (tried_ending "Forecast error" 30 (runsInWidget w) outcome w1 Hm)
      as (d & w' & Hd & He).
    exists outcome, w1, d, w'. split; [exact Ht|]. split; [|exact He].
    now rewrite E.
Qed.

Lemma main_early title minutes (rest : Location -> M Display) w e :
  apiKey w = Throw e
  \/ (exists key, apiKey w = Normal key /\ location w = Throw e) ->
  exists d,
    try_catch
      (fun w =>
         (bind (lift (apiKey w)) (fun _ =>
          bind (lift (location w)) rest)) w)
      (errorWidget title minutes) w
    = (Normal d, set_ticks w (S (ticks w)))
    /\ texts (shown d) = [title; error_string e]
    /\ refreshAfterDate (shown d) = Some (now w + minutes * 60 * 1000).
Proof.
  intros H.
  destruct (errorWidget_shows title minutes e w) as (widget & E & Ht & Hr).
  exists (if negb (runsInWidget w) then presentSmall widget else setWidget widget).
  split.
  - unfold try_catch, bind, lift.
    destruct H as [-> | (key & -> & ->)]; exact E.
  - destruct (negb (runsInWidget w)); split; assumption.
Qed.

(** X12: without an API key or without a location nothing else
    happens.  When [getApiKey] fails, or [getLocation] fails after it,
    [main] of either script shows its error widget, with the title,
    the text of that error and a refresh date 15 (30) minutes after
    the clock reading; the cache file is neither read nor written, and
    the world changes by that one clock reading only. *)
Theorem main_stops_early : forall host w e,
  apiKey w = Throw e
  \/ (exists key, apiKey w = Normal key /\ location w = Throw e) ->
  (exists d,
     Current.main host w = (Normal d, set_ticks w (S (ticks w)))
     /\ texts (shown d) = ["Weather error"; error_string e]
     /\ refreshAfterDate (shown d) = Some (now w + 15 * 60 * 1000))
  /\ (exists d,
        Daily.main host w = (Normal d, set_ticks w (S (ticks w)))
        /\ texts (shown d) = ["Forecast error"; error_string e]
        /\ refreshAfterDate (shown d) = Some (now w + 30 * 60 * 1000)).
Proof.
  intros host w e H. split.
  - exact (main_early "Weather error" 15 _ w e H).
  - exact (main_early "Forecast error" 30 _ w e H).
Qed.

Lemma main_stops_early_witness :
  let w := {| file := None; writable := true;
              time := fun n => 1700000000000 + 1000 * Z.of_nat n;
              ticks := 0;
              apiKey := Throw (Error "API key input cancelled.");
              location := Throw (Error "Location unavailable.");
              network := RefHost.offline;
              runsInWidget := false |} in
  apiKey w = Throw (Error "API key input cancelled.")
  /\ exists d,
       fst (Current.main RefHost.host w) = Normal d
       /\ texts (shown d) = ["Weather error"; "Error: API key input cancelled."]
       /\ refreshAfterDate (shown d) = Some 1700000900000.
Proof.
  intros w. split; [reflexivity|].
  destruct (proj1 (main_stops_early RefHost.host w
                     (Error "API key input cancelled.") (or_introl eq_refl)))
    as (d & E & Ht & Hr).
  exists d. rewrite E. split; [reflexivity|]. split; [exact Ht | exact Hr].
Defined.

Lemma fetch_answer w : fetch w = (answer (network w), w).
Proof.
  unfold fetch, answer.
  destruct (loadJSON (network w)); [|reflexivity].
  destruct (statusCode (network w)); [|reflexivity].
  destruct (negb _ && _); reflexivity.
Qed.

Lemma answer_status x body :
  loadJSON x = Normal body ->
  answer x =
    match statusCode x with
    | Some code =>
        if 400 <=? code then Throw (Error ("HTTP " ++ string_of_Z code))
        else Normal body
    | None => Normal body
    end.
Proof.
  intros H. unfold answer. rewrite H.
  destruct (statusCode x) as [code|]; [|reflexivity].
  destruct (400 <=? code) eqn:E; [|now rewrite andb_false_r].
  apply Z.leb_le in E.
  assert (E0 : (code =? 0) = false) by (apply Z.eqb_neq; lia).
  now rewrite E0.
Qed.

(** X13: an error response is reported, not shown as weather.  When
    the request loads a body but the status code is 400 or more,
    [fetchWeather] and [fetchForecast] raise [Error("HTTP <code>")];
    below 400, or when Scriptable exposes no status code, they return
    the body.  With no cache file, [main] then shows the error widget
    with the text "Error: HTTP <code>", and the body of the error
    response is not written to the cache. *)
Theorem http_error_is_reported : forall host w key loc body code,
  loadJSON (network w) = Normal body ->
  statusCode (network w) = Some code ->
  (400 <= code ->
   fst (fetch w) = Throw (Error ("HTTP " ++ string_of_Z code))
   /\ (apiKey w = Normal key -> location w = Normal loc -> file w = None ->
       (exists d w',
          Current.main host w = (Normal d, w')
          /\ texts (shown d)
             = ["Weather error"; "Error: HTTP " ++ string_of_Z code]
          /\ file w' = None)
       /\ (exists d w',
             Daily.main host w = (Normal d, w')
             /\ texts (shown d)
                = ["Forecast error"; "Error: HTTP " ++ string_of_Z code]
             /\ file w' = None)))
  /\ (code < 400 -> fst (fetch w) = Normal body)
  /\ (forall x, loadJSON x = Normal body -> statusCode x = None ->
                answer x = Normal body).
Proof.
  intros host w key loc body code Hl Hc.
  assert (Hf : fetch w = (answer (network w), w)) by apply fetch_answer.
  rewrite (answer_status _ _ Hl), Hc in Hf.
  split; [|split].
  - intros Hcode.
    assert (E : (400 <=? code) = true) by (apply Z.leb_le; exact Hcode).
    rewrite E in Hf. split; [now rewrite Hf|].
    intros Hk Hloc Hfile.
    assert (Hs : forall ttl, exists w1,
               Shared.settle host ttl w
               = (Throw (Error ("HTTP " ++ string_of_Z code)), w1)
               /\ file w1 = None).
    { intros ttl. pose proof (settle_cases host ttl w) as H.
      cbv zeta in H. rewrite Hf in H. cbn [fst] in H.
      rewrite Hfile in H. cbn [cached_value truthy] in H.
      destruct H as (w1 & H1 & H2). exists w1. split; assumption. }
    split.
    + destruct (Hs Current.CACHE_MIN) as (w1 & H1 & H2).
      rewrite (Current_main_cases host w key loc Hk Hloc).
      unfold Current.settle. rewrite H1.
      destruct (errorWidget_shows "Weather error" 15
                  (Error ("HTTP " ++ string_of_Z code)) w1) as (widget & -> & Ht & _).
      eexists. eexists. split; [reflexivity|]. split; [|exact H2].
      destruct (negb (runsInWidget w1)); exact Ht.
    + destruct (Hs Daily.CACHE_MIN) as (w1 & H1 & H2).
      rewrite (Daily_main_cases host w key loc Hk Hloc).
      unfold Daily.settle. rewrite H1.
      destruct (errorWidget_shows "Forecast error" 30
                  (Error ("HTTP " ++ string_of_Z code)) w1) as (widget & -> & Ht & _).
      eexists. eexists. split; [reflexivity|]. split; [|exact H2].
      destruct (negb (runsInWidget w1)); exact Ht.
  - intros Hcode.
    assert (E : (400 <=? code) = false) by (apply Z.leb_gt; exact Hcode).
    rewrite E in Hf. now rewrite Hf.
  - intros x Hx Hn. now rewrite (answer_status _ _ Hx), Hn.
Qed.

Lemma http_error_is_reported_witness :
  let body := JObj [("error", JObj [("code", JInt 403)])] in
  let refused := {| loadJSON := Normal body; statusCode := Some 403 |} in
  let w := RefHost.world None 1700000000000 refused in
  loadJSON (network w) = Normal body
  /\ statusCode (network w) = Some 403
  /\ 400 <= 403
  /\ fst (fetch w) = Throw (Error "HTTP 403")
  /\ exists d,
       fst (Current.main RefHost.host w) = Normal d
       /\ texts (shown d) = ["Weather error"; "Error: HTTP 403"].
Proof.
  intros body refused w.
  split; [reflexivity|]. split; [reflexivity|]. split; [lia|].
  destruct (proj1 (http_error_is_reported RefHost.host w "key"
                     {| latitude := 500647 # 10000;
                        longitude := 19945 # 1000;
                        name := Some "Krakow" |}
                     body 403 eq_refl eq_refl) ltac:(lia)) as [Hf Hm].
  split; [exact Hf|].
  destruct (proj1 (Hm eq_refl eq_refl eq_refl)) as (d & w' & E & Ht & _).
  exists d. rewrite E. split; [reflexivity | exact Ht].
Defined.

(** The request of a run and the answer [fetch] passes on. *)
Lemma Current_fetchWeather_request host server key lat lon w :
  network w = server (weatherRequest host key lat lon) ->
  Current.fetchWeather w = (Request.fetchWeather host server key lat lon, w).
Proof.
  intros H. unfold Current.fetchWeather, Request.fetchWeather.
  now rewrite fetch_answer, H.
Qed.

Lemma Daily_fetchForecast_request host server key lat lon w :
  network w = server (forecastRequest host key lat lon) ->
  Daily.fetchForecast w = (Request.fetchForecast host server key lat lon, w).
Proof.
  intros H. unfold Daily.fetchForecast, Request.fetchForecast.
  now rewrite fetch_answer, H.
Qed.

(** ** The bottom row of the forecast widget *)

Lemma miniRow_length host n : forall days i row,
  Daily.miniRow host n i days = Normal row ->
  (i + List.length days = n)%nat ->
  List.length row = (2 * List.length days - 1)%nat.
Proof.
  induction days as [|d days IH]; intros i row Hr Hn.
  - now injection Hr as <-.
  - apply miniRow_inv in Hr as (stack & more & _ & Hm & ->).
    cbn [List.length] in Hn |- *. rewrite length_app, (IH (S i) more Hm) by lia.
    destruct days as [|d' days].
    + cbn [List.length] in Hn.
      replace (i <? n - 1)%nat with false by (symmetry; apply Nat.ltb_ge; lia).
      reflexivity.
    + replace (i <? n - 1)%nat with true
        by (symmetry; apply Nat.ltb_lt; cbn [List.length] in Hn; lia).
      cbn [List.length]. lia.
Qed.

Lemma miniRow_nth host n : forall days i j row,
  Daily.miniRow host n i days = Normal row ->
  (i + List.length days = n)%nat ->
  (j < List.length days)%nat ->
  Daily.dayStack host (i + j) (nth j days JNull)
  = Normal (nth (2 * j) row (Spacer None))
  /\ ((i + j + 1 < n)%nat ->
      nth (2 * j + 1) row (Spacer None) = Spacer (Some 6)).
Proof.
  induction days as [|d days IH]; intros i j row Hr Hn Hj; [cbn in Hj; lia|].
  apply miniRow_inv in Hr as (stack & more & Hs & Hm & ->).
  cbn [List.length] in Hn, Hj.
  destruct j as [|j].
  - rewrite Nat.add_0_r. split; [exact Hs|].
    intros Hlt.
    replace (i <? n - 1)%nat with true by (symmetry; apply Nat.ltb_lt; lia).
    reflexivity.
  - assert (Hi : (i <? n - 1)%nat = true) by (apply Nat.ltb_lt; lia).
    rewrite Hi.
    destruct (IH (S i) j more Hm ltac:(lia) ltac:(lia)) as [H1 H2].
    replace (2 * S j)%nat with (S (S (2 * j))) by lia.
    replace (S (S (2 * j)) + 1)%nat with (S (S (2 * j + 1))) by lia.
    cbn [nth app]. replace (i + S j)%nat with (S i + j)%nat by lia.
    split; [exact H1|].
    intros Hlt. apply H2. lia.
Qed.

Lemma forecastDays_array forecast days :
  forecast_days forecast = Some days ->
  g forecast "forecastDays" (JArr []) = JArr days.
Proof.
  intros H. rewrite forecastDays_getter. unfold forecast_days in H.
  destruct (field forecast "forecastDays") as [[]|]; try discriminate.
  now injection H as ->.
Qed.

(** X14: the bottom row of the forecast widget shows the first
    min(6, number of days) days of the payload, in order, day [j]
    with the stack of day [j], a 6-point spacer between two
    neighbours and none after the last; whatever the payload holds
    beyond the sixth day is not shown.  The widget is there whenever
    no object of the payload has a property of its own named
    [toString]. *)
Theorem Daily_miniRow_layout : forall host forecast days placeName w,
  forecast_days forecast = Some days ->
  days <> [] ->
  let n := Nat.min 6 (List.length days) in
  (no_own_toString forecast = true ->
   exists widget,
     fst (Daily.buildWidget host forecast placeName w) = Normal widget)
  /\ (forall widget,
        fst (Daily.buildWidget host forecast placeName w) = Normal widget ->
        exists row,
          last (elements widget) (Spacer None) = Stack (Some horizontally) true row
          /\ List.length row = (2 * n - 1)%nat
          /\ (forall j, (j < n)%nat ->
                Daily.dayStack host j (nth j days JNull)
                = Normal (nth (2 * j) row (Spacer None)))
          /\ (forall j, (j + 1 < n)%nat ->
                nth (2 * j + 1) row (Spacer None) = Spacer (Some 6))).
Proof.
  intros host forecast days placeName w Hd Hne n. split.
  { intros Hc.
    destruct (Daily_buildWidget_returns host forecast placeName w Hc)
      as (widget & w' & E).
    exists widget. now rewrite E. }
  intros widget Hb.
  apply fst_run in Hb as (w' & Hb).
  apply Daily_buildWidget_inv in Hb. cbv zeta in Hb.
  rewrite (forecastDays_array _ _ Hd) in Hb.
  assert (Hguard : negb (isArray (JArr days))
                   || strict_eq_num (prop (JArr days) "length") 0 = false).
  { destruct days as [|d days]; [congruence|]. reflexivity. }
  destruct Hb as [(Hg & _) | (_ & Hb)]; [congruence|].
  destruct Hb as (maxTempC & gradient & currentTempStr & feelsMaxStr
                  & feelsMinStr & windStr & humStr & todaySymbolName & row
                  & _ & _ & _ & _ & _ & _ & _ & _ & Hr & _ & ->).
  cbn [array_items] in Hr.
  change (Z.to_nat Daily.DAYS) with 6%nat in Hr. fold n in Hr.
  exists row. split; [reflexivity|].
  assert (Hlen : List.length (firstn n days) = n).
  { rewrite length_firstn. unfold n. lia. }
  split; [|split].
  - rewrite (miniRow_length host n (firstn n days) 0 row Hr); lia.
  - intros j Hj.
    destruct (miniRow_nth host n (firstn n days) 0 j row Hr ltac:(lia) ltac:(lia))
      as [H _].
    rewrite <- H. cbn [Nat.add]. f_equal.
    rewrite <- (firstn_skipn n days) at 1.
    rewrite app_nth1 by lia. reflexivity.
  - intros j Hj.
    destruct (miniRow_nth host n (firstn n days) 0 j row Hr ltac:(lia) ltac:(lia))
      as [_ H].
    apply H. lia.
Qed.

Lemma Daily_miniRow_layout_witness :
  let day := JObj [("maxTemperature", JObj [("degrees", JInt 21)])] in
  let days := [day; day; day; day; day; day; day; day] in
  let forecast := JObj [("forecastDays", JArr days)] in
  let w := RefHost.world None 1700000000000 RefHost.offline in
  forecast_days forecast = Some days
  /\ days <> []
  /\ no_own_toString forecast = true
  /\ exists widget row,
       fst (Daily.buildWidget RefHost.host forecast "Home" w) = Normal widget
       /\ last (elements widget) (Spacer None) = Stack (Some horizontally) true row
       /\ List.length row = 11%nat.
Proof.
  intros day days forecast w.
  assert (Hne : days <> []) by discriminate.
  split; [reflexivity|]. split; [exact Hne|]. split; [reflexivity|].
  destruct (Daily_miniRow_layout RefHost.host forecast days "Home" w eq_refl Hne)
    as (Hex & Hrow).
  destruct (Hex eq_refl) as (widget & E).
  destruct (Hrow widget E) as (row & Hl & Hn & _).
  exists widget, row. split; [exact E|]. split; [exact Hl | exact Hn].
Defined.
(** ** The request *)

Lemma all_chars_app p a b :
  all_chars p (a ++ b) = all_chars p a && all_chars p b.
Proof.
  induction a as [|c a IH]; [reflexivity|].
  cbn [append all_chars]. now rewrite IH, andb_assoc.
Qed.

Lemma all_chars_weaken (p q : ascii -> bool) s :
  (forall c, p c = true -> q c = true) ->
  all_chars p s = true -> all_chars q s = true.
Proof.
  intros Hpq. induction s as [|c s IH]; [reflexivity|].
  cbn [all_chars]. intros H. apply andb_prop in H. destruct H as [H1 H2].
  now rewrite (Hpq c H1), (IH H2).
Qed.

Lemma encode_char_escaped c :
  all_chars escaped (if unreserved c then String c EmptyString else percent c)
  = true.
Proof. destruct c as [[] [] [] [] [] [] [] []]; reflexivity. Qed.

Lemma encode_escaped s : all_chars escaped (encodeURIComponent s) = true.
Proof.
  induction s as [|c s IH]; [reflexivity|].
  cbn [encodeURIComponent]. now rewrite all_chars_app, encode_char_escaped, IH.
Qed.

Lemma encode_unreserved s :
  all_chars unreserved s = true -> encodeURIComponent s = s.
Proof.
  induction s as [|c s IH]; [reflexivity|].
  cbn [all_chars encodeURIComponent]. intros H.
  apply andb_prop in H. destruct H as [H1 H2].
  now rewrite H1, (IH H2).
Qed.

Lemma split_whole sep s :
  all_chars (fun c => negb (Ascii.eqb c sep)) s = true -> split sep s = [s].
Proof.
  induction s as [|c s IH]; [reflexivity|].
  cbn [all_chars split]. intros H. apply andb_prop in H. destruct H as [H1 H2].
  apply negb_true_iff in H1. now rewrite H1, (IH H2).
Qed.

Lemma escaped_not c sep :
  escaped sep = false -> escaped c = true -> negb (Ascii.eqb c sep) = true.
Proof.
  intros Hs Hc. apply negb_true_iff. apply Ascii.eqb_neq. congruence.
Qed.

(** A parameter: a name of the script and an encoded value. *)
Lemma parameter_whole sep name value :
  escaped sep = false ->
  all_chars (fun c => negb (Ascii.eqb c sep)) name = true ->
  split sep (name ++ encodeURIComponent value)
  = [name ++ encodeURIComponent value].
Proof.
  intros Hs Hn. apply split_whole. rewrite all_chars_app, Hn.
  apply (all_chars_weaken escaped); [|apply encode_escaped].
  intros c. apply escaped_not. exact Hs.
Qed.

Lemma split_join_cons sep p rest :
  rest <> [] ->
  split sep p = [p] ->
  split sep (join (String sep EmptyString) (p :: rest))
  = p :: split sep (join (String sep EmptyString) rest).
Proof.
  intros Hr Hp. destruct rest as [|q rest]; [congruence|].
  assert (E : join (String sep EmptyString) (p :: q :: rest)
              = p ++ String sep (join (String sep EmptyString) (q :: rest)))
    by reflexivity.
  now rewrite E, split_app, Hp.
Qed.

Ltac split_parameters :=
  repeat (rewrite split_join_cons;
          [f_equal | discriminate | apply parameter_whole; reflexivity]);
  cbn [join]; apply parameter_whole; reflexivity.

(** X15: the request URL is well formed whatever the API key and the
    coordinates look like.  The URL of [fetchWeather] is the endpoint,
    one question mark and the query, and the query split at "&" gives
    back exactly the five parameters the script lists, in order; the
    same holds for [fetchForecast] with its six parameters.  A key
    that holds "&", "=", "?" or "#" cannot add or change a
    parameter: [encodeURIComponent] escapes it. *)
Theorem request_url_well_formed : forall host key lat lon,
  (split "?" (url (weatherRequest host key lat lon))
   = ["https://weather.googleapis.com/v1/currentConditions:lookup";
      join "&" (weatherParams host key lat lon)]
   /\ split "&" (join "&" (weatherParams host key lat lon))
      = weatherParams host key lat lon
   /\ List.length (weatherParams host key lat lon) = 5%nat)
  /\ (split "?" (url (forecastRequest host key lat lon))
      = ["https://weather.googleapis.com/v1/forecast/days:lookup";
         join "&" (forecastParams host key lat lon)]
      /\ split "&" (join "&" (forecastParams host key lat lon))
         = forecastParams host key lat lon
      /\ List.length (forecastParams host key lat lon) = 6%nat)
  /\ (forall s, all_chars unreserved s = true -> encodeURIComponent s = s)
  /\ encodeURIComponent "a&b=c?d#e f" = "a%26b%3Dc%3Fd%23e%20f".
Proof.
  intros host key lat lon.
  assert (Hq : forall params,
             Forall (fun p => exists name value,
                         p = name ++ encodeURIComponent value
                         /\ all_chars (fun c => negb (Ascii.eqb c "?")) name = true)
                    params ->
             all_chars (fun c => negb (Ascii.eqb c "?")) (join "&" params) = true).
  { induction params as [|p params IH]; intros H; [reflexivity|].
    inversion H as [|? ? (name & value & -> & Hn) Hrest]; subst.
    assert (Hp : all_chars (fun c => negb (Ascii.eqb c "?"))
                           (name ++ encodeURIComponent value) = true).
    { rewrite all_chars_app, Hn.
      apply (all_chars_weaken escaped); [|apply encode_escaped].
      intros c. now apply escaped_not. }
    destruct params as [|q params]; [exact Hp|].
    assert (E : join "&" ((name ++ encodeURIComponent value) :: q :: params)
                = (name ++ encodeURIComponent value)
                    ++ String "&" (join "&" (q :: params))) by reflexivity.
    rewrite E, all_chars_app, Hp. cbn [all_chars andb].
    rewrite (IH Hrest). reflexivity. }
  split; [|split; [|split]].
  - split; [|split; [|reflexivity]].
    + cbn [url weatherRequest].
      change ("https://weather.googleapis.com/v1/currentConditions:lookup?"
                ++ join "&" (weatherParams host key lat lon))
        with ("https://weather.googleapis.com/v1/currentConditions:lookup"
                ++ String "?" (join "&" (weatherParams host key lat lon))).
      rewrite split_app. rewrite (split_whole "?" (join _ _)); [reflexivity|].
      apply Hq. unfold weatherParams, encodeNumber.
      repeat (constructor; [eexists; eexists; split; reflexivity|]).
      constructor.
    + unfold weatherParams, encodeNumber. split_parameters.
  - split; [|split; [|reflexivity]].
    + cbn [url forecastRequest].
      change ("https://weather.googleapis.com/v1/forecast/days:lookup?"
                ++ join "&" (forecastParams host key lat lon))
        with ("https://weather.googleapis.com/v1/forecast/days:lookup"
                ++ String "?" (join "&" (forecastParams host key lat lon))).
      rewrite split_app. rewrite (split_whole "?" (join _ _)); [reflexivity|].
      apply Hq. unfold forecastParams, encodeNumber.
      repeat (constructor; [eexists; eexists; split; reflexivity|]).
      constructor.
    + unfold forecastParams, encodeNumber. split_parameters.
  - apply encode_unreserved.
  - reflexivity.
Qed.

Lemma request_url_well_formed_witness :
  all_chars unreserved "AIzaSy-demo_KEY.123" = true
  /\ encodeURIComponent "AIzaSy-demo_KEY.123" = "AIzaSy-demo_KEY.123"
  /\ url (weatherRequest RefHost.host "AIzaSy-demo_KEY.123"
            (Fin (500647 # 10000)) (Fin (19945 # 1000)))
     = "https://weather.googleapis.com/v1/currentConditions:lookup?key=AIzaSy-demo_KEY.123&location.latitude=50.0647&location.longitude=19.945&languageCode=pl&unitsSystem=METRIC".
Proof.
  split; [reflexivity|].
  split.
  - exact (proj1 (proj2 (proj2 (request_url_well_formed RefHost.host ""
                                  (Fin 0) (Fin 0))))
                 "AIzaSy-demo_KEY.123" eq_refl).
  - vm_compute. reflexivity.
Defined.

(** ** The API key *)

Lemma trim_start_space c s :
  is_space c = true -> trim_start (String c s) = trim_start s.
Proof.
  intros H. cbn [trim_start white_width]. now rewrite H.
Qed.

Lemma trim_blank s : trim_start s = "" -> trim s = "".
Proof. intros H. unfold trim. now rewrite H. Qed.

Lemma trim_spaces s : all_chars is_space s = true -> trim s = "".
Proof.
  intros H. apply trim_blank. induction s as [|c s IH]; [reflexivity|].
  cbn [all_chars] in H. apply andb_prop in H as [H1 H2].
  rewrite (trim_start_space c s H1). exact (IH H2).
Qed.

(** Each white space beyond ASCII is trimmed away, alone, before a
    text and after it. *)
Lemma trim_white_space ws :
  In ws white_space ->
  trim ws = "" /\ trim (ws ++ "key" ++ ws) = "key"
  /\ trim (ws ++ " " ++ ws) = "".
Proof.
  intros H. cbn in H.
  repeat (destruct H as [<- | H]; [repeat split; vm_compute; reflexivity|]).
  destruct H.
Qed.

Lemma ask_outcome d :
  (chosen d = -1
   /\ ask d = (Throw (Error "API key input cancelled."),
               {| keychain := keychain d; chosen := chosen d;
                  typed := typed d; presented := S (presented d) |}))
  \/ (chosen d <> -1 /\ trim (typed d) = ""
      /\ ask d = (Throw (Error "Empty API key."),
                  {| keychain := keychain d; chosen := chosen d;
                     typed := typed d; presented := S (presented d) |}))
  \/ (chosen d <> -1 /\ trim (typed d) <> ""
      /\ ask d = (Normal (trim (typed d)),
                  {| keychain := Some (trim (typed d)); chosen := chosen d;
                     typed := typed d; presented := S (presented d) |})).
Proof.
  unfold ask. destruct (chosen d =? -1) eqn:E.
  - left. apply Z.eqb_eq in E. split; [exact E | reflexivity].
  - right. apply Z.eqb_neq in E. cbn [truthy]. rewrite negb_involutive.
    destruct (String.eqb (trim (typed d)) "") eqn:Et.
    + left. apply String.eqb_eq in Et. repeat split; assumption.
    + right. apply String.eqb_neq in Et. repeat split; assumption.
Qed.

(** X16: a key [getApiKey] returns is never empty and is the one the
    Keychain holds afterwards, so that the next call returns the same
    key without asking.  It is either the key the Keychain held
    before, with nothing asked and nothing changed, or the text typed
    into the alert, trimmed as [String.prototype.trim] does it: of the
    white space of ASCII and of Unicode, the no-break space included. *)
Theorem getApiKey_returns_stored_key : forall d key d',
  getApiKey d = (Normal key, d') ->
  key <> ""
  /\ keychain d' = Some key
  /\ getApiKey d' = (Normal key, d')
  /\ ((keychain d = Some key /\ d' = d)
      \/ (key = trim (typed d) /\ presented d' = S (presented d)))
  /\ (forall ws, In ws white_space -> trim (ws ++ "key" ++ ws) = "key")
  /\ trim "  key " = "key".
Proof.
  intros d key d' H.
  assert (Hws : (forall ws, In ws white_space -> trim (ws ++ "key" ++ ws) = "key")
                /\ trim "  key " = "key").
  { split; [|reflexivity]. intros ws Hin.
    exact (proj1 (proj2 (trim_white_space ws Hin))). }
  assert (Hask : ask d = (Normal key, d') ->
                 key <> "" /\ keychain d' = Some key
                 /\ key = trim (typed d)
                 /\ presented d' = S (presented d)).
  { intros Ha.
    destruct (ask_outcome d) as [[_ E] | [(_ & _ & E) | (_ & Hne & E)]];
      rewrite E in Ha; try discriminate.
    injection Ha as <- <-. cbn [keychain presented].
    repeat split; try assumption; try reflexivity. }
  assert (Hkeep : forall k, k <> "" -> keychain d' = Some k ->
                            getApiKey d' = (Normal k, d')).
  { intros k Hk Hd. unfold getApiKey. rewrite Hd. cbn [truthy].
    apply String.eqb_neq in Hk. now rewrite Hk. }
  unfold getApiKey in H.
  destruct (keychain d) as [stored|] eqn:Ek.
  - cbn [truthy] in H. rewrite negb_involutive in H.
    destruct (String.eqb stored "") eqn:Es.
    + destruct (Hask H) as (H1 & H2 & H3 & H5).
      split; [exact H1|]. split; [exact H2|]. split; [now apply Hkeep|].
      split; [|exact Hws]. right. split; assumption.
    + injection H as <- <-. apply String.eqb_neq in Es.
      split; [exact Es|]. split; [exact Ek|]. split; [now apply Hkeep|].
      split; [|exact Hws]. left. split; reflexivity.
  - destruct (Hask H) as (H1 & H2 & H3 & H5).
    split; [exact H1|]. split; [exact H2|]. split; [now apply Hkeep|].
    split; [|exact Hws]. right. split; assumption.
Qed.

Lemma getApiKey_returns_stored_key_witness :
  let pasted := utf8 [194; 160]%nat ++ " AIza-demo-key" ++ utf8 [226; 128; 175; 10]%nat in
  let d := {| keychain := None; chosen := 0; typed := pasted; presented := 0 |} in
  let d' := {| keychain := Some "AIza-demo-key"; chosen := 0;
               typed := pasted; presented := 1 |} in
  getApiKey d = (Normal "AIza-demo-key", d')
  /\ getApiKey d' = (Normal "AIza-demo-key", d').
Proof.
  intros pasted d d'.
  assert (E : getApiKey d = (Normal "AIza-demo-key", d')) by reflexivity.
  split; [exact E|].
  exact (proj1 (proj2 (proj2 (getApiKey_returns_stored_key d _ d' E)))).
Defined.

(** X17: when [getApiKey] fails, the Keychain is left as it was and
    the alert was presented once.  It fails in two ways only: with
    "API key input cancelled." when the alert was cancelled, and with
    "Empty API key." when the text typed is empty once trimmed, as it
    is for a text of blanks, tabs and line breaks, and for a white
    space of Unicode such as the no-break space; neither happens
    while the Keychain holds a key that is not empty. *)
Theorem getApiKey_failure : forall d e d',
  getApiKey d = (Throw e, d') ->
  keychain d' = keychain d
  /\ presented d' = S (presented d)
  /\ (keychain d = None \/ keychain d = Some "")
  /\ ((chosen d = -1 /\ e = Error "API key input cancelled.")
      \/ (chosen d <> -1 /\ trim (typed d) = "" /\ e = Error "Empty API key."))
  /\ (forall blank, all_chars is_space blank = true -> trim blank = "")
  /\ (forall ws, In ws white_space -> trim ws = "" /\ trim (ws ++ " " ++ ws) = "").
Proof.
  intros d e d' H.
  assert (Hask : ask d = (Throw e, d') ->
                 keychain d' = keychain d /\ presented d' = S (presented d)
                 /\ ((chosen d = -1 /\ e = Error "API key input cancelled.")
                     \/ (chosen d <> -1 /\ trim (typed d) = ""
                         /\ e = Error "Empty API key."))).
  { intros Ha.
    destruct (ask_outcome d) as [[Hc E] | [(Hc & Ht & E) | (_ & _ & E)]];
      rewrite E in Ha; try discriminate; injection Ha as <- <-;
      cbn [keychain presented]; repeat split.
    - left. split; [assumption | reflexivity].
    - right. repeat split; assumption. }
  unfold getApiKey in H.
  destruct (keychain d) as [stored|] eqn:Ek.
  - cbn [truthy] in H. rewrite negb_involutive in H.
    destruct (String.eqb stored "") eqn:Es; [|discriminate H].
    apply String.eqb_eq in Es. subst stored.
    destruct (Hask H) as (H1 & H2 & H3).
    split; [exact H1|]. split; [exact H2|]. split; [now right|].
    split; [exact H3|]. split; [apply trim_spaces|].
    intros ws Hin. destruct (trim_white_space ws Hin) as (A & _ & B). now split.
  - destruct (Hask H) as (H1 & H2 & H3).
    split; [exact H1|]. split; [exact H2|]. split; [now left|].
    split; [exact H3|]. split; [apply trim_spaces|].
    intros ws Hin. destruct (trim_white_space ws Hin) as (A & _ & B). now split.
Qed.

Lemma getApiKey_failure_witness :
  let nbsp := utf8 [194; 160]%nat in
  let d := {| keychain := None; chosen := 0; typed := nbsp; presented := 0 |} in
  let d' := {| keychain := None; chosen := 0; typed := nbsp; presented := 1 |} in
  getApiKey d = (Throw (Error "Empty API key."), d')
  /\ keychain d' = keychain d
  /\ all_chars is_space "   " = true
  /\ trim "   " = ""
  /\ In nbsp white_space
  /\ trim nbsp = "".
Proof.
  intros nbsp d d'.
  assert (E : getApiKey d = (Throw (Error "Empty API key."), d')) by reflexivity.
  destruct (getApiKey_failure d _ d' E) as (H1 & _ & _ & _ & H5 & H6).
  assert (Hin : In nbsp white_space) by (left; reflexivity).
  split; [exact E|]. split; [exact H1|]. split; [reflexivity|].
  split; [exact (H5 "   " eq_refl)|]. split; [exact Hin|].
  exact (proj1 (H6 nbsp Hin)).
Defined.

(** ** The location *)

Lemma js_or_null_or_truthy a :
  js_or a JNull = JNull \/ truthy (js_or a JNull) = true.
Proof. unfold js_or. destruct (truthy a) eqn:E; [right; exact E | left; reflexivity]. Qed.

Lemma js_or_truthy a b : truthy a = true -> js_or a b = a.
Proof. intros H. unfold js_or. now rewrite H. Qed.

(** X18: [getLocation] fails only when [Location.current()] fails.  A
    reverse geocoding that fails, or that returns no placemark, only
    leaves the name [null]; the coordinates returned are those of the
    fix.  The name is [null] or a truthy value, never an empty text,
    and it is the locality of the first placemark whenever that one
    has a locality. *)
Theorem getLocation_outcome : forall service,
  (forall e, Geo.current service = Throw e ->
             Geo.getLocation service = Throw e)
  /\ (forall lat lon,
        Geo.current service = Normal (lat, lon) ->
        exists name,
          Geo.getLocation service
          = Normal {| Geo.latitude := lat; Geo.longitude := lon;
                      Geo.name := name |}
          /\ (name = JNull \/ truthy name = true)
          /\ (forall e, Geo.reverseGeocode service lat lon = Throw e ->
                        name = JNull)
          /\ (Geo.reverseGeocode service lat lon = Normal (JArr []) ->
              name = JNull)
          /\ (forall first others,
                Geo.reverseGeocode service lat lon = Normal (JArr (first :: others)) ->
                nullish first = false ->
                truthy (prop first "locality") = true ->
                name = prop first "locality")).
Proof.
  intros service. unfold Geo.getLocation, Geo.getLocation_when.
  cbn [Geo.USE_CURRENT_LOCATION negb].
  split.
  - intros e ->. reflexivity.
  - intros lat lon ->. eexists. split; [reflexivity|].
    split; [apply js_or_null_or_truthy|].
    split; [|split].
    + intros e ->. reflexivity.
    + intros ->. reflexivity.
    + intros first others -> Hn Ht.
      assert (E : Geo.optional (JArr (first :: others)) "0" = first) by reflexivity.
      rewrite E. unfold Geo.optional. rewrite Hn.
      now rewrite !(js_or_truthy _ _ Ht).
Qed.

Lemma getLocation_outcome_witness :
  let place := JObj [("subLocality", JStr "Kazimierz");
                     ("administrativeArea", JStr "Lesser Poland")] in
  let found := {| Geo.current := Normal (500647 # 10000, 19945 # 1000);
                  Geo.reverseGeocode := fun _ _ => Normal (JArr [place]) |} in
  let lost := {| Geo.current := Normal (500647 # 10000, 19945 # 1000);
                 Geo.reverseGeocode := fun _ _ => Throw (Error "No network") |} in
  Geo.getLocation found
  = Normal {| Geo.latitude := 500647 # 10000; Geo.longitude := 19945 # 1000;
              Geo.name := JStr "Kazimierz" |}
  /\ Geo.getLocation lost
     = Normal {| Geo.latitude := 500647 # 10000; Geo.longitude := 19945 # 1000;
                 Geo.name := JNull |}.
Proof.
  intros place found lost.
  split; [reflexivity|].
  destruct (proj2 (getLocation_outcome lost) _ _ eq_refl) as (name & E & _ & H & _).
  rewrite E. now rewrite (H (Error "No network") eq_refl).
Defined.

(** ** One run after another *)

(** X19: the cache carries a run's data over to the next run, for
    [CACHE_MIN] minutes and no longer.  After a run whose request
    succeeded with truthy data and whose cache write went through, a
    later run that finds the file as that run left it and whose
    request fails adopts the same data as long as the clock is at most
    the lifetime past the stamp; once the clock is further on, the
    later run fails with its network error although the file still
    holds the data. *)
Theorem offline_run_after_online_run : forall host ttl w fresh later netErr,
  let stamp := now (snd (Shared.readCache host ttl w)) in
  fst (fetch w) = Normal fresh ->
  writable w = true ->
  stamp <> 0 ->
  JSON_parse host (JSON_stringify host (cache_record stamp fresh))
    = Some (cache_record stamp fresh) ->
  truthy fresh = true ->
  file later = file (snd (Shared.settle host ttl w)) ->
  fst (fetch later) = Throw netErr ->
  fst (Shared.settle host ttl w) = Normal fresh
  /\ (now later - stamp <= ttl * 60000 ->
      fst (Shared.settle host ttl later) = Normal fresh)
  /\ (ttl * 60000 < now later - stamp ->
      fst (Shared.settle host ttl later) = Throw netErr).
Proof.
  intros host ttl w fresh later netErr stamp Hf Hw Hs Hj Ht Hfile Hnet.
  pose proof (settle_cases host ttl w) as H1. cbv zeta in H1.
  rewrite Hf, Hw in H1. destruct H1 as (w1 & E1 & F1).
  rewrite E1 in Hfile |- *. cbn [fst snd] in Hfile |- *.
  rewrite F1 in Hfile. fold stamp in Hfile.
  split; [reflexivity|].
  pose proof (settle_cases host ttl later) as H2. cbv zeta in H2.
  rewrite Hnet in H2. destruct H2 as (w2 & E2 & _).
  rewrite E2. cbn [fst]. rewrite Hfile.
  rewrite (cached_value_numeric host ttl _
             [("timestamp", JInt stamp); ("data", fresh)] stamp (now later)
             Hj eq_refl Hs).
  split; intros Hage.
  - replace (ttl * 60000 <? now later - stamp) with false
      by (symmetry; apply Z.ltb_ge; lia).
    change (stored_data (JObj [("timestamp", JInt stamp); ("data", fresh)]))
      with fresh.
    now rewrite Ht.
  - replace (ttl * 60000 <? now later - stamp) with true
      by (symmetry; apply Z.ltb_lt; lia).
    reflexivity.
Qed.

Lemma offline_run_after_online_run_witness :
  let fresh := JObj [("isDaytime", JBool true)] in
  let w := RefHost.world None 1700000000000 (RefHost.answers fresh) in
  let text := RefHost.file_of (JInt 1700000000000) fresh in
  let soon := RefHost.world (Some text) 1700000240000 RefHost.offline in
  let late := RefHost.world (Some text) 1700000300001 RefHost.offline in
  fst (fetch w) = Normal fresh
  /\ file (snd (Shared.settle RefHost.host 5 w)) = Some text
  /\ now soon - 1700000000000 <= 5 * 60000
  /\ fst (Shared.settle RefHost.host 5 soon) = Normal fresh
  /\ 5 * 60000 < now late - 1700000000000
  /\ fst (Shared.settle RefHost.host 5 late)
     = Throw (Error "The request timed out.").
Proof.
  intros fresh w text soon late.
  assert (F : file (snd (Shared.settle RefHost.host 5 w)) = Some text)
    by (vm_compute; reflexivity).
  assert (N : now (snd (Shared.readCache RefHost.host 5 w)) = 1700000000000)
    by (vm_compute; reflexivity).
  assert (S0 : now (snd (Shared.readCache RefHost.host 5 w)) <> 0)
    by (rewrite N; discriminate).
  assert (J : JSON_parse RefHost.host
                (JSON_stringify RefHost.host
                   (cache_record (now (snd (Shared.readCache RefHost.host 5 w))) fresh))
              = Some (cache_record (now (snd (Shared.readCache RefHost.host 5 w))) fresh))
    by (rewrite N; vm_compute; reflexivity).
  assert (A : now soon - 1700000000000 <= 5 * 60000) by (vm_compute; discriminate).
  assert (B : 5 * 60000 < now late - 1700000000000) by (vm_compute; reflexivity).
  split; [reflexivity|]. split; [exact F|].
  split; [exact A|]. split; [|split; [exact B|]].
  - refine (proj1 (proj2 (offline_run_after_online_run RefHost.host 5 w fresh soon
                            (Error "The request timed out.")
                            eq_refl eq_refl S0 J eq_refl _ eq_refl)) _).
    + rewrite F. reflexivity.
    + rewrite N. exact A.
  - refine (proj2 (proj2 (offline_run_after_online_run RefHost.host 5 w fresh late
                            (Error "The request timed out.")
                            eq_refl eq_refl S0 J eq_refl _ eq_refl)) _).
    + rewrite F. reflexivity.
    + rewrite N. exact B.
Defined.

(** ** What the widget says about the place and the next refresh *)

Lemma settle_clock host ttl w :
  time (snd (Shared.settle host ttl w)) = time w
  /\ (ticks w <= ticks (snd (Shared.settle host ttl w)))%nat.
Proof.
  unfold Shared.settle, bind, attempt.
  destruct (readCache_value host ttl w) as (w1 & E & _ & _ & Ht & _ & Hk).
  rewrite E.
  pose proof (fetch_pure w1) as Hp.
  destruct (fetch w1) as [fetched w2]. cbn [snd] in Hp. subst w2.
  destruct fetched as [fresh | netErr].
  - rewrite writeCache_effect. unfold ret.
    destruct (writable w1); cbn; (split; [exact Ht | lia]).
  - unfold onNetErr, throw, ret. destruct (negb _); cbn; (split; [exact Ht | lia]).
Qed.

Lemma shown_data (b : bool) widget :
  shown (if b then presentMedium widget else setWidget widget) = widget.
Proof. now destruct b. Qed.

Lemma shown_error (b : bool) widget :
  shown (if b then presentSmall widget else setWidget widget) = widget.
Proof. now destruct b. Qed.

Lemma Current_buildWidget_refresh host data placeName w widget w' :
  Current.buildWidget host data placeName w = (Normal widget, w') ->
  refreshAfterDate widget = Some (time w (S (ticks w)) + 10 * 60 * 1000)
  /\ hd "" (texts widget)
     = (if negb (String.eqb placeName "") then placeName else "Current location")
  /\ w' = set_ticks w (S (S (ticks w))).
Proof.
  intros H. apply Current_buildWidget_inv in H. cbv zeta in H.
  destruct H as (condStr & tempStr & feelsStr & windStr & tempC & gradient
                 & symName & humStr & _ & _ & _ & _ & _ & _ & _ & _ & -> & ->).
  repeat split; reflexivity.
Qed.

Lemma Daily_buildWidget_refresh host data placeName w widget w' :
  Daily.buildWidget host data placeName w = (Normal widget, w') ->
  ((forecast_days data = None \/ forecast_days data = Some [])
   /\ widget = Daily.placeholder /\ w' = w)
  \/ ((exists days, forecast_days data = Some days /\ days <> [])
      /\ refreshAfterDate widget = Some (time w (S (ticks w)) + 30 * 60 * 1000)
      /\ hd "" (texts widget)
         = (if negb (String.eqb placeName "") then placeName else "Location")
      /\ w' = set_ticks w (S (S (ticks w)))).
Proof.
  intros H.
  destruct (forecast_days data) as [days|] eqn:Ed.
  - destruct days as [|d days].
    + left. split; [now right|].
      destruct (Daily_buildWidget_no_days host data placeName w (or_intror Ed))
        as [E _].
      rewrite E in H. injection H as <- <-. split; reflexivity.
    + right. split; [exists (d :: days); split; [reflexivity | discriminate]|].
      apply Daily_buildWidget_inv in H. cbv zeta in H.
      rewrite (forecastDays_array _ _ Ed) in H.
      destruct H as [(Hg & _) | (_ & H)]; [discriminate Hg|].
      destruct H as (maxTempC & gradient & currentTempStr & feelsMaxStr
                     & feelsMinStr & windStr & humStr & todaySymbolName & row
                     & _ & _ & _ & _ & _ & _ & _ & _ & _ & -> & ->).
      repeat split; reflexivity.
  - left. split; [now left|].
    destruct (Daily_buildWidget_no_days host data placeName w (or_introl Ed))
      as [E _].
    rewrite E in H. injection H as <- <-. split; reflexivity.
Qed.

Lemma Tried_clock settle build w outcome w1 :
  (forall w0, time (snd (settle w0)) = time w0
              /\ (ticks w0 <= ticks (snd (settle w0)))%nat) ->
  (forall data loc w0, exists n,
      snd (build data loc w0) = set_ticks w0 n /\ (ticks w0 <= n)%nat) ->
  Tried settle build w outcome w1 ->
  time w1 = time w /\ (ticks w <= ticks w1)%nat.
Proof.
  intros Hs Hb H.
  destruct H as [key loc data w0 widget w2 _ _ Hd Hw
                | err _ | key err _ _
                | key loc err w0 _ _ Hd
                | key loc data w0 err w2 _ _ Hd Hw];
    try (split; [reflexivity | lia]).
  - destruct (Hs w) as [Ht Hn]. rewrite Hd in Ht, Hn. cbn [snd] in Ht, Hn.
    destruct (Hb data loc w0) as (n & E & Hm). rewrite Hw in E. cbn [snd] in E.
    subst w2. cbn [time ticks set_ticks]. split; [exact Ht | lia].
  - destruct (Hs w) as [Ht Hn]. rewrite Hd in Ht, Hn. cbn [snd] in Ht, Hn.
    split; [exact Ht | exact Hn].
  - destruct (Hs w) as [Ht Hn]. rewrite Hd in Ht, Hn. cbn [snd] in Ht, Hn.
    destruct (Hb data loc w0) as (n & E & Hm). rewrite Hw in E. cbn [snd] in E.
    subst w2. cbn [time ticks set_ticks]. split; [exact Ht | lia].
Qed.

(** X20: every widget a run shows asks for its next refresh, the
    placeholder of the forecast script apart, and counts from the last
    reading of the clock the run takes.  When the [try] block ends
    with the widget built from the data, that widget is shown and its
    refresh date is 10 minutes (forecast: 30) after the second of the
    two readings [buildWidget] takes; when the block ends with an
    error, whichever of the four steps raised it, the error widget is
    shown and its refresh date is 15 minutes (forecast: 30) after the
    one reading the [catch] block takes.  The forecast widget is the
    placeholder, which carries no refresh date, exactly when the
    payload has no [forecastDays], or something that is no array
    there, or an empty array. *)
Theorem refresh_is_scheduled : forall host w,
  (exists outcome w1 d w',
     Tried (Current.settle host)
           (fun data loc => Current.buildWidget host data (placeName_of host loc))
           w outcome w1
     /\ Current.main host w = (Normal d, w')
     /\ time w' = time w
     /\ match outcome with
        | Normal widget =>
            shown d = widget /\ w' = w1
            /\ (ticks w + 2 <= ticks w')%nat
            /\ refreshAfterDate widget
               = Some (time w (ticks w' - 1) + 10 * 60 * 1000)
        | Throw err =>
            texts (shown d) = ["Weather error"; error_string err]
            /\ w' = set_ticks w1 (S (ticks w1))
            /\ (ticks w + 1 <= ticks w')%nat
            /\ refreshAfterDate (shown d)
               = Some (time w (ticks w' - 1) + 15 * 60 * 1000)
        end)
  /\ (exists outcome w1 d w',
        Tried (Daily.settle host)
              (fun data loc => Daily.buildWidget host data (placeName_of host loc))
              w outcome w1
        /\ Daily.main host w = (Normal d, w')
        /\ time w' = time w
        /\ match outcome with
           | Normal widget =>
               shown d = widget /\ w' = w1
               /\ ((widget = Daily.placeholder /\ refreshAfterDate widget = None)
                   \/ ((ticks w + 2 <= ticks w')%nat
                       /\ refreshAfterDate widget
                          = Some (time w (ticks w' - 1) + 30 * 60 * 1000)))
           | Throw err =>
               texts (shown d) = ["Forecast error"; error_string err]
               /\ w' = set_ticks w1 (S (ticks w1))
               /\ (ticks w + 1 <= ticks w')%nat
               /\ refreshAfterDate (shown d)
                  = Some (time w (ticks w' - 1) + 30 * 60 * 1000)
           end)
  /\ (forall data placeName w0 widget w1,
        Daily.buildWidget host data placeName w0 = (Normal widget, w1) ->
        (widget = Daily.placeholder
         <-> (forecast_days data = None \/ forecast_days data = Some []))
        /\ (widget <> Daily.placeholder ->
            refreshAfterDate widget
            = Some (time w0 (S (ticks w0)) + 30 * 60 * 1000))).
Proof.
  intros host w. split; [|split].
  - destruct (Current_main_tried host w) as (outcome & w1 & Ht & Hm & E).
    pose proof (Tried_clock _ _ _ _ _ (settle_clock host Current.CACHE_MIN)
                  (fun data loc w0 =>
                     Current_buildWidget_clock host data (placeName_of host loc) w0)
                  Ht) as [Hc Hn].
    destruct outcome as [widget | err].
    + exists (Normal widget), w1,
        (if negb (runsInWidget w1) then presentMedium widget else setWidget widget),
        w1.
      split; [exact Ht|]. split; [exact E|]. split; [exact Hc|].
      split; [apply shown_data|]. split; [reflexivity|].
      inversion Ht as [key loc data w0 widget' w2 _ _ Hd Hw | | | |]; subst.
      destruct (Current_buildWidget_refresh _ _ _ _ _ _ Hw) as (Hr & _ & ->).
      destruct (settle_clock host Current.CACHE_MIN w) as [Ht0 Hn0].
      unfold Current.settle in Hd. rewrite Hd in Ht0, Hn0. cbn [snd] in Ht0, Hn0.
      cbn [ticks set_ticks]. split; [lia|].
      rewrite Hr, Ht0.
      replace (S (S (ticks w0)) - 1)%nat with (S (ticks w0)) by lia.
      reflexivity.
    + destruct (errorWidget_shows "Weather error" 15 err w1)
        as (widget & Ee & Hx & Hr).
      exists (Throw err), w1,
        (if negb (runsInWidget w1) then presentSmall widget else setWidget widget),
        (set_ticks w1 (S (ticks w1))).
      split; [exact Ht|]. split; [now rewrite E|]. split; [exact Hc|].
      rewrite shown_error. split; [exact Hx|]. split; [reflexivity|].
      cbn [ticks set_ticks]. split; [lia|].
      rewrite Hr. unfold now. rewrite Hc.
      replace (S (ticks w1) - 1)%nat with (ticks w1) by lia.
      reflexivity.
  - destruct (Daily_main_tried host w) as (outcome & w1 & Ht & Hm & E).
    pose proof (Tried_clock _ _ _ _ _ (settle_clock host Daily.CACHE_MIN)
                  (fun data loc w0 =>
                     Daily_buildWidget_clock host data (placeName_of host loc) w0)
                  Ht) as [Hc Hn].
    destruct outcome as [widget | err].
    + exists (Normal widget), w1,
        (if negb (runsInWidget w1) then presentMedium widget else setWidget widget),
        w1.
      split; [exact Ht|]. split; [exact E|]. split; [exact Hc|].
      split; [apply shown_data|]. split; [reflexivity|].
      inversion Ht as [key loc data w0 widget' w2 _ _ Hd Hw | | | |]; subst.
      destruct (Daily_buildWidget_refresh _ _ _ _ _ _ Hw)
        as [(_ & -> & _) | (_ & Hr & _ & ->)].
      * left. split; reflexivity.
      * right.
        destruct (settle_clock host Daily.CACHE_MIN w) as [Ht0 Hn0].
        unfold Daily.settle in Hd. rewrite Hd in Ht0, Hn0. cbn [snd] in Ht0, Hn0.
        cbn [ticks set_ticks]. split; [lia|].
        rewrite Hr, Ht0.
      replace (S (S (ticks w0)) - 1)%nat with (S (ticks w0)) by lia.
      reflexivity.
    + destruct (errorWidget_shows "Forecast error" 30 err w1)
        as (widget & Ee & Hx & Hr).
      exists (Throw err), w1,
        (if negb (runsInWidget w1) then presentSmall widget else setWidget widget),
        (set_ticks w1 (S (ticks w1))).
      split; [exact Ht|]. split; [now rewrite E|]. split; [exact Hc|].
      rewrite shown_error. split; [exact Hx|]. split; [reflexivity|].
      cbn [ticks set_ticks]. split; [lia|].
      rewrite Hr. unfold now. rewrite Hc.
      replace (S (ticks w1) - 1)%nat with (ticks w1) by lia.
      reflexivity.
  - intros data placeName w0 widget w1 Hb.
    destruct (Daily_buildWidget_refresh _ _ _ _ _ _ Hb)
      as [(Hd & -> & _) | ((days & Hd & Hne) & Hr & _ & _)].
    + split; [split; [intros _; exact Hd | reflexivity]|].
      intros H. now contradiction H.
    + split; [|intros _; exact Hr].
      split.
      * intros ->. discriminate Hr.
      * intros [H | H]; rewrite Hd in H; [discriminate H|].
        injection H as ->. now contradiction Hne.
Qed.

Lemma placeName_of_given host loc :
  placeName_of host loc <> ""
  /\ (forall n, name loc = Some n -> n <> "" -> placeName_of host loc = n)
  /\ (name loc = None \/ name loc = Some "" ->
      placeName_of host loc
      = "Lat " ++ toFixed2 host (latitude loc) ++ ", Lon "
          ++ toFixed2 host (longitude loc)).
Proof.
  unfold placeName_of. split; [|split].
  - destruct (name loc) as [n|]; [|discriminate].
    destruct (String.eqb n "") eqn:E; [discriminate|].
    cbn [negb]. now apply String.eqb_neq.
  - intros n -> Hn. apply String.eqb_neq in Hn. now rewrite Hn.
  - intros [-> | ->]; reflexivity.
Qed.

(** X21: the widget is headed by the place.  The label is the name
    of the location when it has one that is not empty, and otherwise
    the coordinates, "Lat" and "Lon" with two decimals each; it is
    never empty, so the defaults "Current location" and "Location" of
    [buildWidget] are never shown.  When the run gets as far as the
    data and [buildWidget] returns, as it does for every payload
    without a property named [toString], the widget it returned is
    shown and its first text is that label (in the forecast script
    unless it is the placeholder); when [buildWidget] raises, the error
    widget is shown instead. *)
Theorem widget_is_headed_by_place : forall host w key loc data w1,
  apiKey w = Normal key ->
  location w = Normal loc ->
  let place := placeName_of host loc in
  (place <> ""
   /\ (forall n, name loc = Some n -> n <> "" -> place = n)
   /\ (name loc = None \/ name loc = Some "" ->
       place = "Lat " ++ toFixed2 host (latitude loc) ++ ", Lon "
                 ++ toFixed2 host (longitude loc)))
  /\ (Current.settle host w = (Normal data, w1) ->
      (forall widget w2,
         Current.buildWidget host data place w1 = (Normal widget, w2) ->
         exists d,
           Current.main host w = (Normal d, w2)
           /\ shown d = widget
           /\ hd "" (texts widget) = place)
      /\ (forall err w2,
            Current.buildWidget host data place w1 = (Throw err, w2) ->
            exists d w',
              Current.main host w = (Normal d, w')
              /\ texts (shown d) = ["Weather error"; error_string err])
      /\ (no_own_toString data = true ->
          exists widget w2,
            Current.buildWidget host data place w1 = (Normal widget, w2)))
  /\ (Daily.settle host w = (Normal data, w1) ->
      (forall widget w2,
         Daily.buildWidget host data place w1 = (Normal widget, w2) ->
         exists d,
           Daily.main host w = (Normal d, w2)
           /\ shown d = widget
           /\ (hd "" (texts widget) = place \/ widget = Daily.placeholder))
      /\ (forall err w2,
            Daily.buildWidget host data place w1 = (Throw err, w2) ->
            exists d w',
              Daily.main host w = (Normal d, w')
              /\ texts (shown d) = ["Forecast error"; error_string err])
      /\ (no_own_toString data = true ->
          exists widget w2,
            Daily.buildWidget host data place w1 = (Normal widget, w2))).
Proof.
  intros host w key loc data w1 Hk Hl place.
  pose proof (placeName_of_given host loc) as Hp. fold place in Hp.
  assert (Hne : negb (String.eqb place "") = true).
  { destruct Hp as [Hp _]. apply String.eqb_neq in Hp. now rewrite Hp. }
  split; [exact Hp|]. split.
  - intros Es. split; [|split].
    + intros widget w2 Hb.
      rewrite (Current_main_cases host w key loc Hk Hl), Es. fold place.
      rewrite Hb. eexists. split; [reflexivity|].
      split; [apply shown_data|].
      destruct (Current_buildWidget_refresh _ _ _ _ _ _ Hb) as (_ & Hh & _).
      rewrite Hh. now rewrite Hne.
    + intros err w2 Hb.
      rewrite (Current_main_cases host w key loc Hk Hl), Es. fold place.
      rewrite Hb.
      destruct (errorWidget_shows "Weather error" 15 err w2)
        as (widget & -> & Hx & _).
      eexists. eexists. split; [reflexivity|]. now rewrite shown_error.
    + intros Hc. apply Current_buildWidget_returns. exact Hc.
  - intros Es. split; [|split].
    + intros widget w2 Hb.
      rewrite (Daily_main_cases host w key loc Hk Hl), Es. fold place.
      rewrite Hb. eexists. split; [reflexivity|].
      split; [apply shown_data|].
      destruct (Daily_buildWidget_refresh _ _ _ _ _ _ Hb)
        as [(_ & -> & _) | (_ & _ & Hh & _)].
      * now right.
      * left. rewrite Hh. now rewrite Hne.
    + intros err w2 Hb.
      rewrite (Daily_main_cases host w key loc Hk Hl), Es. fold place.
      rewrite Hb.
      destruct (errorWidget_shows "Forecast error" 30 err w2)
        as (widget & -> & Hx & _).
      eexists. eexists. split; [reflexivity|]. now rewrite shown_error.
    + intros Hc. apply Daily_buildWidget_returns. exact Hc.
Qed.

Lemma widget_is_headed_by_place_witness :
  let data := JObj [("isDaytime", JBool true)] in
  let nameless := {| latitude := 500647 # 10000; longitude := 19945 # 1000;
                     name := None |} in
  let w := {| file := None; writable := true;
              time := fun n => 1700000000000 + 1000 * Z.of_nat n;
              ticks := 0;
              apiKey := Normal "key";
              location := Normal nameless;
              network := RefHost.answers data;
              runsInWidget := true |} in
  apiKey w = Normal "key"
  /\ location w = Normal nameless
  /\ fst (Current.settle RefHost.host w) = Normal data
  /\ no_own_toString data = true
  /\ placeName_of RefHost.host nameless = "Lat 50.06, Lon 19.95"
  /\ exists d,
       fst (Current.main RefHost.host w) = Normal d
       /\ hd "" (texts (shown d)) = "Lat 50.06, Lon 19.95".
Proof.
  intros data nameless w.
  assert (P : placeName_of RefHost.host nameless = "Lat 50.06, Lon 19.95")
    by (vm_compute; reflexivity).
  assert (S0 : fst (Current.settle RefHost.host w) = Normal data)
    by (vm_compute; reflexivity).
  split; [reflexivity|]. split; [reflexivity|]. split; [exact S0|].
  split; [reflexivity|]. split; [exact P|].
  destruct (Current.settle RefHost.host w) as [r w1] eqn:Es.
  cbn [fst] in S0. subst r.
  destruct (proj1 (proj2 (widget_is_headed_by_place RefHost.host w "key" nameless
                            data w1 eq_refl eq_refl)) Es) as (Hshow & _ & Hret).
  destruct (Hret eq_refl) as (widget & w2 & Hb).
  destruct (Hshow widget w2 Hb) as (d & E & Hs & Hh).
  exists d. rewrite E. split; [reflexivity|]. rewrite Hs, Hh. exact P.
Defined.
(** ** The helpers on every input *)

(** X22: [fmtWind] on every wind object.  An absent speed gives an
    em-dash with nothing appended.  Otherwise the speed is rounded to
    the nearest integer (a half goes up) and followed by "mph" for
    MILE_PER_HOUR, "m/s" for METER_PER_SECOND and "km/h" for anything
    else; the direction is left out when the degrees are absent or not
    a number, and for degrees that are a number not below zero the
    label at index round((deg mod 360) / 22.5) mod 16 of the sixteen
    directions is appended.  A speed or degrees holding an object that
    does not convert to a number ends the call with a TypeError. *)
Theorem fmtWind_spec : forall host wind,
  let speed := at_path wind "speed.value" in
  let unit := at_path wind "speed.unit" in
  let deg := at_path wind "direction.degrees" in
  (nullish speed = true -> fmtWind host wind = Normal "—")
  /\ (forall n,
        nullish speed = false -> ToNumber host speed = Normal n ->
        let head :=
          (NumberToString host (Math_round n) ++ " " ++ unit_symbol unit)%string in
        (nullish deg = true \/ isNaN host deg = Normal true ->
         fmtWind host wind = Normal head)
        /\ (forall d,
              nullish deg = false -> ToNumber host deg = Normal (Fin d) ->
              (0 <= d)%Q ->
              fmtWind host wind = Normal (head ++ " " ++ compass_label d)%string))
  /\ (nullish speed = false ->
      convertible speed = false
      \/ (nullish deg = false /\ convertible deg = false) ->
      fmtWind host wind = Throw cannot_convert)
  /\ (forall v, Math_round (Fin v) = num_of_Z (round_half_up v))
  /\ unit_symbol (JStr "MILE_PER_HOUR") = "mph"
  /\ unit_symbol (JStr "METER_PER_SECOND") = "m/s"
  /\ (forall u, u <> JStr "MILE_PER_HOUR" -> u <> JStr "METER_PER_SECOND" ->
                unit_symbol u = "km/h")
  /\ fmtWind host
       (JObj [("speed", JObj [("value", JNum (Fin (84 # 10)));
                              ("unit", JStr "KILOMETERS_PER_HOUR")]);
              ("direction", JObj [("degrees", JInt 335)])])
     = Normal "8 km/h NNW"
  /\ fmtWind host (JObj [("speed", JObj [("value", JNull)])]) = Normal "—".
Proof.
  intros host wind speed unit deg.
  destruct (fmtWind_cases host wind) as [H1 H2]. fold speed unit deg in H1, H2.
  split; [exact H1|]. split; [exact H2|].
  split; [|split; [|split; [|split; [|split; [|split]]]]]; try reflexivity.
  - intros Hs Hc. rewrite fmtWind_shape. fold speed unit deg. rewrite Hs.
    destruct Hc as [Hc | [Hn Hc]].
    + unfold ToNumber at 1. rewrite Hc.
      destruct (degToDir host deg) as [dirTxt|e] eqn:Ed; [reflexivity|].
      unfold degToDir, isNaN, ToNumber in Ed.
      destruct (nullish deg); [discriminate Ed|].
      destruct (convertible deg); cbn [and_then] in Ed.
      * destruct (num_isNaN _); discriminate Ed.
      * now injection Ed as <-.
    + now rewrite (degToDir_raises host deg Hn Hc).
  - apply unit_symbol_other.
Qed.

Lemma fmtWind_spec_witness :
  let wind := JObj [("speed", JObj [("value", JNum (Fin (125 # 10)));
                                    ("unit", JStr "MILE_PER_HOUR")]);
                    ("direction", JObj [("degrees", JInt 725)])] in
  let calm := JObj [("speed", JObj [("value", JInt 2)]);
                    ("direction", JObj [("degrees", JStr "north")])] in
  let odd := JObj [("speed", JObj [("value", JObj [("toString", JNull)])])] in
  nullish (at_path wind "speed.value") = false
  /\ ToNumber RefHost.host (at_path wind "speed.value") = Normal (Fin (125 # 10))
  /\ nullish (at_path wind "direction.degrees") = false
  /\ ToNumber RefHost.host (at_path wind "direction.degrees") = Normal (Fin (725 # 1))
  /\ (0 <= 725 # 1)%Q
  /\ fmtWind RefHost.host wind = Normal "13 mph N"
  /\ nullish (at_path (JObj [("speed", JNull)]) "speed.value") = true
  /\ fmtWind RefHost.host (JObj [("speed", JNull)]) = Normal "—"
  /\ isNaN RefHost.host (at_path calm "direction.degrees") = Normal true
  /\ fmtWind RefHost.host calm = Normal "2 km/h"
  /\ convertible (at_path odd "speed.value") = false
  /\ fmtWind RefHost.host odd = Throw cannot_convert.
Proof.
  intros wind calm odd.
  split; [reflexivity|]. split; [reflexivity|]. split; [reflexivity|].
  split; [reflexivity|].
  assert (Hpos : (0 <= 725 # 1)%Q) by (unfold Qle; simpl; lia).
  split; [exact Hpos|]. split.
  - exact (proj2 (proj1 (proj2 (fmtWind_spec RefHost.host wind))
                        (Fin (125 # 10)) eq_refl eq_refl)
                 (725 # 1)%Q eq_refl eq_refl Hpos).
  - split; [reflexivity|]. split.
    + exact (proj1 (fmtWind_spec RefHost.host (JObj [("speed", JNull)])) eq_refl).
    + split; [reflexivity|]. split.
      * exact (proj1 (proj1 (proj2 (fmtWind_spec RefHost.host calm))
                            (Fin (2 # 1)) eq_refl eq_refl)
                     (or_intror eq_refl)).
      * split; [reflexivity|].
        exact (proj1 (proj2 (proj2 (fmtWind_spec RefHost.host odd)))
                     eq_refl (or_introl eq_refl)).
Defined.



(** X24: the fetch-or-cache block by cases.  When the request
    succeeds, the data adopted is the fresh response, never the cache,
    and the cache file then holds the fresh response under the clock
    reading of the write, unless the host refuses the write, which
    leaves the file as it was.  When the request fails, the file is
    left alone; the block goes on with what [readCache] returned when
    that is truthy and ends in the network error when it is not. *)
Theorem fetch_or_cache : forall host ttl w,
  let cached := cached_value host ttl (file w) (now w) in
  let stamp := now (snd (Shared.readCache host ttl w)) in
  let outcome := Shared.settle host ttl w in
  fst (Shared.readCache host ttl w) = Normal cached
  /\ (forall fresh,
        fst (fetch w) = Normal fresh ->
        fst outcome = Normal fresh
        /\ (writable w = true ->
            file (snd outcome)
            = Some (JSON_stringify host (cache_record stamp fresh)))
        /\ (writable w = false -> file (snd outcome) = file w))
  /\ (forall netErr,
        fst (fetch w) = Throw netErr ->
        (truthy cached = true ->
         fst outcome = Normal cached /\ file (snd outcome) = file w)
        /\ (truthy cached = false ->
            fst outcome = Throw netErr /\ file (snd outcome) = file w))
  /\ (Current.settle host = Shared.settle host 5
      /\ Daily.settle host = Shared.settle host 20).
Proof.
  intros host ttl w cached stamp outcome.
  pose proof (settle_cases host ttl w) as Hcases. cbv zeta in Hcases.
  fold cached stamp in Hcases.
  split; [|split; [|split]].
  - destruct (readCache_value host ttl w) as (w' & E & _). now rewrite E.
  - intros fresh Hf. rewrite Hf in Hcases.
    destruct Hcases as (w' & E & Hfile).
    unfold outcome. rewrite E. cbn [fst snd].
    split; [reflexivity|]. split.
    + intros Hw. now rewrite Hw in Hfile.
    + intros Hw. now rewrite Hw in Hfile.
  - intros netErr Hf. rewrite Hf in Hcases.
    destruct Hcases as (w' & E & Hfile).
    unfold outcome. rewrite E. cbn [fst snd].
    split; intros Ht; rewrite Ht; split; auto.
  - split; reflexivity.
Qed.

Lemma fetch_or_cache_witness :
  let day := JObj [("isDaytime", JBool true)] in
  let night := JObj [("isDaytime", JBool false)] in
  let text := RefHost.file_of (JInt 1700000000000) day in
  let online := RefHost.world (Some text) 1700000060000 (RefHost.answers night) in
  let offline := RefHost.world (Some text) 1700000060000 RefHost.offline in
  let blank := RefHost.world None 1700000060000 RefHost.offline in
  fst (fetch online) = Normal night
  /\ fst (Shared.settle RefHost.host 5 online) = Normal night
  /\ fst (fetch offline) = Throw (Error "The request timed out.")
  /\ truthy (cached_value RefHost.host 5 (file offline) (now offline)) = true
  /\ fst (Shared.settle RefHost.host 5 offline) = Normal day
  /\ truthy (cached_value RefHost.host 5 (file blank) (now blank)) = false
  /\ fst (Shared.settle RefHost.host 5 blank)
     = Throw (Error "The request timed out.").
Proof.
  intros day night text online offline blank.
  assert (Hc : truthy (cached_value RefHost.host 5 (file offline) (now offline)) = true)
    by (vm_compute; reflexivity).
  assert (Hd : cached_value RefHost.host 5 (file offline) (now offline) = day)
    by (vm_compute; reflexivity).
  split; [reflexivity|]. split.
  - exact (proj1 (proj1 (proj2 (fetch_or_cache RefHost.host 5 online)) night eq_refl)).
  - split; [reflexivity|]. split; [exact Hc|]. split.
    + rewrite <- Hd.
      exact (proj1 (proj1 (proj1 (proj2 (proj2 (fetch_or_cache RefHost.host 5 offline)))
                                 _ eq_refl) Hc)).
    + split; [reflexivity|].
      exact (proj1 (proj2 (proj1 (proj2 (proj2 (fetch_or_cache RefHost.host 5 blank)))
                                 _ eq_refl) eq_refl)).
Defined.


